(** * google_calendar_to_slack_status: event normalisation and window test

    A shallow embedding of the pure part of
    [google_calendar_to_slack_status.py]: [read_value], [get_key],
    [get_my_response_status], [clean_events], [strptime] and
    [is_within_next_event], together with the fragments of the Python
    run-time they rely on (dictionaries, dynamic typing errors,
    [datetime] arithmetic and [datetime.strptime]). *)

From Stdlib Require Import ZArith List String Ascii Bool Lia QArith.
Import ListNotations.
Open Scope string_scope.
Open Scope Z_scope.

(** ** Python values, exceptions *)

(** A [datetime.datetime] object: the seven civil fields and [tzinfo],
    the latter reduced to what the program observes of it, the value of
    [utcoffset()] in microseconds ([None] for a naive datetime). *)
Record datetime := mkDatetime {
  year : Z; month : Z; day : Z;
  hour : Z; minute : Z; second : Z; microsecond : Z;
  tzinfo : option Z
}.

(** The values that flow through the program: JSON data returned by the
    calendar API, plus [datetime] objects. Dictionaries are kept in
    insertion order, as Python keeps them. *)
#[warnings="-register-all"]
Inductive value :=
| VNone
| VBool (b : bool)
| VInt (n : Z)
| VStr (s : string)
| VList (l : list value)
| VDict (d : list (string * value))
| VDatetime (dt : datetime).

Definition dict := list (string * value).

Inductive exn :=
| KeyError
| IndexError
| AttributeError
| TypeError
| ValueError
| AssertionError (msg : string).

Inductive result (A : Type) :=
| OK (a : A)
| Raise (e : exn).
Arguments OK {A} a.
Arguments Raise {A} e.

Definition bind {A B} (m : result A) (k : A -> result B) : result B :=
  match m with
  | OK a => k a
  | Raise e => Raise e
  end.

Notation "x <- m ;; k" := (bind m (fun x => k))
  (at level 61, m at next level, right associativity).
Notation "' p <- m ;; k" := (bind m (fun x => match x with p => k end))
  (at level 61, p pattern, m at next level, right associativity).

Definition raises {A} (m : result A) : Prop := exists e, m = Raise e.

(** ** Dictionaries *)

Fixpoint dict_lookup (d : dict) (k : string) : option value :=
  match d with
  | [] => None
  | (k', v) :: d' => if String.eqb k' k then Some v else dict_lookup d' k
  end.

(** [d[k] = v]: an existing key keeps its position. *)
Fixpoint dict_set (d : dict) (k : string) (v : value) : dict :=
  match d with
  | [] => [(k, v)]
  | (k', v') :: d' =>
      if String.eqb k' k then (k', v) :: d' else (k', v') :: dict_set d' k v
  end.

Fixpoint dict_remove (d : dict) (k : string) : dict :=
  match d with
  | [] => []
  | (k', v') :: d' =>
      if String.eqb k' k then d' else (k', v') :: dict_remove d' k
  end.

Definition dict_keys (d : dict) : list string := map fst d.

(** [d[k]] *)
Definition dict_getitem (d : dict) (k : string) : result value :=
  match dict_lookup d k with
  | Some v => OK v
  | None => Raise KeyError
  end.

(** [d.get(k, default)] *)
Definition dict_get (d : dict) (k : string) (default : value) : value :=
  match dict_lookup d k with
  | Some v => v
  | None => default
  end.

(** [del d[k]] *)
Definition dict_del (d : dict) (k : string) : result dict :=
  match dict_lookup d k with
  | Some _ => OK (dict_remove d k)
  | None => Raise KeyError
  end.

(** ** Dynamically typed operations *)

(** Truth value of an object, as tested by [if x:]. *)
Definition truthy (v : value) : bool :=
  match v with
  | VNone => false
  | VBool b => b
  | VInt n => negb (n =? 0)
  | VStr s => negb (String.eqb s "")
  | VList l => match l with [] => false | _ => true end
  | VDict d => match d with [] => false | _ => true end
  | VDatetime _ => true
  end.

(** [v == s] for a string literal [s]: only an equal string is equal. *)
Definition eq_str (v : value) (s : string) : bool :=
  match v with
  | VStr s' => String.eqb s' s
  | _ => false
  end.

(** [v.get(k, default)]: only dictionaries have the method. *)
Definition py_get (v : value) (k : string) (default : value) : result value :=
  match v with
  | VDict d => OK (dict_get d k default)
  | _ => Raise AttributeError
  end.

(** [v[k]] for a string [k]. *)
Definition py_getitem (v : value) (k : string) : result value :=
  match v with
  | VDict d => dict_getitem d k
  | _ => Raise TypeError
  end.

Fixpoint chars (s : string) : list value :=
  match s with
  | EmptyString => []
  | String c s' => VStr (String c EmptyString) :: chars s'
  end.

(** The items produced by [for x in v]. *)
Definition py_iter (v : value) : result (list value) :=
  match v with
  | VList l => OK l
  | VStr s => OK (chars s)
  | VDict d => OK (map (fun kv => VStr (fst kv)) d)
  | _ => Raise TypeError
  end.

(** [len(v)] *)
Definition py_len (v : value) : result Z :=
  match v with
  | VStr s => OK (Z.of_nat (String.length s))
  | VList l => OK (Z.of_nat (List.length l))
  | VDict d => OK (Z.of_nat (List.length d))
  | _ => Raise TypeError
  end.

(** [v[i]] for an integer [i] with [-len <= i < len] counted from the end
    when negative. *)
Definition py_index (v : value) (i : Z) : result value :=
  match v with
  | VStr s =>
      let n := Z.of_nat (String.length s) in
      let j := if i <? 0 then i + n else i in
      if (j <? 0) || (n <=? j) then Raise IndexError
      else match String.get (Z.to_nat j) s with
           | Some c => OK (VStr (String c EmptyString))
           | None => Raise IndexError
           end
  | VList l =>
      let n := Z.of_nat (List.length l) in
      let j := if i <? 0 then i + n else i in
      if (j <? 0) || (n <=? j) then Raise IndexError
      else match nth_error l (Z.to_nat j) with
           | Some x => OK x
           | None => Raise IndexError
           end
  | VDict _ => Raise KeyError
  | _ => Raise TypeError
  end.

(** ** Event normaliser *)

Definition DEFAULT_STATUS : string := "busy".

(** A key of [clean_events]: a plain key or a tuple of nested keys. *)
Inductive keypath :=
| KStr (s : string)
| KTuple (t : list string).

(** [read_value] once [key] is a tuple. With the empty tuple the
    attribute [d.get] is looked up first and then [key[0]] fails. *)
Fixpoint read_value_tuple (d : value) (key : list string) : result value :=
  match key with
  | [] => _ <- py_get d "" VNone ;; Raise IndexError
  | [k] => py_get d k (VStr "")
  | k :: (_ :: _) as rest =>
      d' <- py_get d k (VDict []) ;; read_value_tuple d' rest
  end.

Definition read_value (d : value) (key : keypath) : result value :=
  match key with
  | KStr s => read_value_tuple d [s]
  | KTuple t => read_value_tuple d t
  end.

Definition get_key (keyname : keypath) : result string :=
  match keyname with
  | KStr s => OK s
  | KTuple [] => Raise IndexError
  | KTuple (k :: _) => OK k
  end.

(** The list comprehension of [get_my_response_status]. *)
Fixpoint self_responses (response_key : string) (attendees : list value)
  : result (list value) :=
  match attendees with
  | [] => OK []
  | aa :: rest =>
      s <- py_get aa "self" (VBool false) ;;
      if truthy s then
        r <- py_get aa response_key (VStr "") ;;
        rs <- self_responses response_key rest ;;
        OK (r :: rs)
      else self_responses response_key rest
  end.

Definition get_my_response_status (event : dict)
  (attendees_key response_key : string) : result value :=
  att <- dict_getitem event attendees_key ;;
  items <- py_iter att ;;
  rs <- self_responses response_key items ;;
  match rs with
  | [] => Raise IndexError
  | r :: _ => OK r
  end.

Definition default_keys : list keypath :=
  [ KStr "summary"; KTuple ["start"; "dateTime"]; KTuple ["end"; "dateTime"];
    KStr "status"; KStr "transparency"; KStr "visibility"; KStr "attendees" ].

(** The dict comprehension [{get_key(kk): read_value(ee, kk) for kk in keys}],
    filling [acc] from left to right. *)
Fixpoint extract_keys (ee : dict) (keys : list keypath) (acc : dict)
  : result dict :=
  match keys with
  | [] => OK acc
  | kk :: rest =>
      k <- get_key kk ;;
      v <- read_value (VDict ee) kk ;;
      extract_keys ee rest (dict_set acc k v)
  end.

Definition attendees_key : string := "attendees".
Definition response_key : string := "responseStatus".

(** The body of the [for ee in events] loop: [None] stands for
    [continue], [Some ee_clean] for the record that is appended. *)
Definition clean_event (keys : list keypath) (ee : dict)
  : result (option dict) :=
  if eq_str (dict_get ee "transparency" (VStr "")) "transparent" then OK None
  else
    st <- dict_getitem ee "status" ;;
    if negb (eq_str st "confirmed") then OK None
    else
      ee_clean <- extract_keys ee keys [] ;;
      my_status <- get_my_response_status ee_clean attendees_key response_key ;;
      if negb (eq_str my_status "accepted") then OK None
      else
        let ee_clean := dict_set ee_clean response_key my_status in
        ee_clean <- dict_del ee_clean attendees_key ;;
        let ee_clean :=
          if eq_str (dict_get ee_clean "visibility" (VStr "")) "private"
          then dict_set ee_clean "summary" (VStr DEFAULT_STATUS)
          else ee_clean in
        OK (Some ee_clean).

Fixpoint clean_events_loop (keys : list keypath) (events : list dict)
  (events_clean : list dict) : result (list dict) :=
  match events with
  | [] => OK events_clean
  | ee :: rest =>
      r <- clean_event keys ee ;;
      match r with
      | None => clean_events_loop keys rest events_clean
      | Some ee_clean =>
          clean_events_loop keys rest (events_clean ++ [ee_clean])
      end
  end.

Definition clean_events_keys (events : list dict) (keys : list keypath)
  : result (list dict) :=
  clean_events_loop keys events [].

Definition clean_events (events : list dict) : result (list dict) :=
  clean_events_keys events default_keys.

(** ** Strings and slices *)

(** [s[n:]] and [s[:n]] for [0 <= n]. *)
Fixpoint str_skip (n : nat) (s : string) : string :=
  match n, s with
  | O, _ => s
  | S n', String _ s' => str_skip n' s'
  | S _, EmptyString => EmptyString
  end.

Fixpoint str_take (n : nat) (s : string) : string :=
  match n, s with
  | O, _ => EmptyString
  | S n', String c s' => String c (str_take n' s')
  | S _, EmptyString => EmptyString
  end.

(** [s[-n::]] and [s[:-n:]] *)
Definition str_last (n : nat) (s : string) : string :=
  str_skip (String.length s - n) s.

Definition str_drop_last (n : nat) (s : string) : string :=
  str_take (String.length s - n) s.

(** [s.replace(c, '')] *)
Fixpoint str_remove (c : ascii) (s : string) : string :=
  match s with
  | EmptyString => EmptyString
  | String c' s' =>
      if Ascii.eqb c' c then str_remove c s' else String c' (str_remove c s')
  end.

(** [needle in hay] *)
Fixpoint str_contains (needle hay : string) : bool :=
  String.prefix needle hay ||
  match hay with
  | EmptyString => false
  | String _ hay' => str_contains needle hay'
  end.

(** [v[-n::]], reached by the program for strings and lists only. *)
Definition py_last (n : nat) (v : value) : result value :=
  match v with
  | VStr s => OK (VStr (str_last n s))
  | VList l => OK (VList (skipn (List.length l - n) l))
  | _ => Raise TypeError
  end.

(** ** Regular expressions with prioritised backtracking

    The fragment of [re] that [_strptime] needs: a match of [r] at the
    head of [s] hands the matched text and the remaining input to the
    continuation [k]; alternatives are tried from left to right and the
    first one whose continuation succeeds wins. *)

Inductive regex :=
| Eps
| Chr (p : ascii -> bool)
| Seq (r1 r2 : regex)
| Alt (r1 r2 : regex).

Fixpoint re_match {A : Type} (r : regex) (s : string)
  (k : string -> string -> option A) : option A :=
  match r with
  | Eps => k EmptyString s
  | Chr p =>
      match s with
      | String c s' => if p c then k (String c EmptyString) s' else None
      | EmptyString => None
      end
  | Seq r1 r2 =>
      re_match r1 s (fun t1 s1 =>
        re_match r2 s1 (fun t2 s2 => k (t1 ++ t2)%string s2))
  | Alt r1 r2 =>
      match re_match r1 s k with
      | Some x => Some x
      | None => re_match r2 s k
      end
  end.

Definition in_range (lo hi : ascii) (c : ascii) : bool :=
  (nat_of_ascii lo <=? nat_of_ascii c)%nat
  && (nat_of_ascii c <=? nat_of_ascii hi)%nat.

Definition is_digit : ascii -> bool := in_range "0" "9".

Definition re_d : regex := Chr is_digit.                    (* \d *)
Definition re_rng (lo hi : ascii) : regex := Chr (in_range lo hi).
Definition re_chr (c : ascii) : regex := Chr (Ascii.eqb c).
Definition re_opt (r : regex) : regex := Alt r Eps.         (* r? *)

(** [r{1,n+1}], greedy *)
Fixpoint re_upto (r : regex) (n : nat) : regex :=
  match n with
  | O => r
  | S n' => Seq r (re_opt (re_upto r n'))
  end.

(** [re.match(r, s)] as a test *)
Definition re_test (r : regex) (s : string) : bool :=
  match re_match r s (fun _ _ => Some tt) with
  | Some _ => true
  | None => false
  end.

(** [int(s)] on a text of decimal digits, blanks ignored. *)
Definition digit_val (c : ascii) : Z := Z.of_nat (nat_of_ascii c) - 48.

Fixpoint int_acc (s : string) (acc : Z) : Z :=
  match s with
  | EmptyString => acc
  | String c s' =>
      if Ascii.eqb c " " then int_acc s' acc
      else int_acc s' (acc * 10 + digit_val c)
  end.

Definition int (s : string) : Z := int_acc s 0.

(** ** The [datetime] module *)

Definition _is_leap (y : Z) : bool :=
  (y mod 4 =? 0) && (negb (y mod 100 =? 0) || (y mod 400 =? 0)).

Definition _days_before_year (y : Z) : Z :=
  let y := y - 1 in y * 365 + y / 4 - y / 100 + y / 400.

Definition _DAYS_IN_MONTH : list Z :=
  [-1; 31; 28; 31; 30; 31; 30; 31; 31; 30; 31; 30; 31].

Definition _DAYS_BEFORE_MONTH : list Z :=
  [-1; 0; 31; 59; 90; 120; 151; 181; 212; 243; 273; 304; 334].

Definition _days_in_month (y m : Z) : Z :=
  if (m =? 2) && _is_leap y then 29
  else nth (Z.to_nat m) _DAYS_IN_MONTH 0.

Definition _days_before_month (y m : Z) : Z :=
  nth (Z.to_nat m) _DAYS_BEFORE_MONTH 0
  + (if (2 <? m) && _is_leap y then 1 else 0).

Definition _ymd2ord (y m d : Z) : Z :=
  _days_before_year y + _days_before_month y m + d.

Definition MINYEAR : Z := 1.
Definition MAXYEAR : Z := 9999.

(** [_check_date_fields], [_check_time_fields] *)
Definition check_fields (y m d hh mm ss us : Z) : bool :=
  (MINYEAR <=? y) && (y <=? MAXYEAR) &&
  (1 <=? m) && (m <=? 12) &&
  (1 <=? d) && (d <=? _days_in_month y m) &&
  (0 <=? hh) && (hh <=? 23) &&
  (0 <=? mm) && (mm <=? 59) &&
  (0 <=? ss) && (ss <=? 59) &&
  (0 <=? us) && (us <=? 999999).

(** [datetime(y, m, d, hh, mm, ss, us, tz)] *)
Definition datetime_new (y m d hh mm ss us : Z) (tz : option Z)
  : result datetime :=
  if check_fields y m d hh mm ss us
  then OK (mkDatetime y m d hh mm ss us tz)
  else Raise ValueError.

(** [timezone(timedelta(seconds=off))] as its UTC offset in microseconds;
    the offset must lie strictly within one day. *)
Definition timezone_new (off_seconds : Z) : result Z :=
  if (-86400 <? off_seconds) && (off_seconds <? 86400)
  then OK (off_seconds * 1000000)
  else Raise ValueError.

(** [pytz.UTC] *)
Definition UTC : Z := 0.

(** [dt.replace(tzinfo=tz)] *)
Definition replace_tzinfo (dt : datetime) (tz : option Z) : datetime :=
  mkDatetime (year dt) (month dt) (day dt) (hour dt) (minute dt)
             (second dt) (microsecond dt) tz.

Definition toordinal (dt : datetime) : Z :=
  _ymd2ord (year dt) (month dt) (day dt).

Definition option_Z_eqb (a b : option Z) : bool :=
  match a, b with
  | None, None => true
  | Some x, Some y => x =? y
  | _, _ => false
  end.

(** [a - b] for two datetimes: a [timedelta], kept as its total number
    of microseconds. *)
Definition datetime_sub (a b : datetime) : result Z :=
  let days1 := toordinal a in
  let days2 := toordinal b in
  let secs1 := second a + minute a * 60 + hour a * 3600 in
  let secs2 := second b + minute b * 60 + hour b * 3600 in
  let base := ((days1 - days2) * 86400 + (secs1 - secs2)) * 1000000
              + (microsecond a - microsecond b) in
  if option_Z_eqb (tzinfo a) (tzinfo b) then OK base
  else
    match tzinfo a, tzinfo b with
    | Some myoff, Some otoff => OK (base + otoff - myoff)
    | _, _ => Raise TypeError
    end.

(** Comparison of tuples of integers. *)
Fixpoint tuple_cmp (a b : list Z) : comparison :=
  match a, b with
  | [], [] => Eq
  | [], _ :: _ => Lt
  | _ :: _, [] => Gt
  | x :: a', y :: b' =>
      match x ?= y with
      | Eq => tuple_cmp a' b'
      | c => c
      end
  end.

Definition fields_tuple (dt : datetime) : list Z :=
  [year dt; month dt; day dt; hour dt; minute dt; second dt; microsecond dt].

(** [datetime._cmp] *)
Definition datetime_cmp (a b : datetime) : result comparison :=
  if option_Z_eqb (tzinfo a) (tzinfo b)
  then OK (tuple_cmp (fields_tuple a) (fields_tuple b))
  else
    match tzinfo a, tzinfo b with
    | Some _, Some _ =>
        diff <- datetime_sub a b ;;
        OK (if diff <? 0 then Lt else if diff =? 0 then Eq else Gt)
    | _, _ => Raise TypeError
    end.

(** [a <= b] for two datetimes *)
Definition datetime_le (a b : datetime) : result bool :=
  c <- datetime_cmp a b ;;
  OK (match c with Gt => false | _ => true end).

(** [td.total_seconds()]. Python returns the nearest float to this
    quotient; here seconds, and the [minutes_before] they are compared
    with, are exact rationals. *)
Definition total_seconds (td : Z) : Q := Qmake td 1000000.

(** ** [datetime.strptime]

    CPython's [_strptime]: the format is turned into one regular
    expression, a group per directive, matched without regard to case at
    the head of the data; the whole data must be consumed. Modelled for
    the directives the program ever puts in a format ([%Y %m %d %H %M
    %S %f %z]); any other directive is answered as a bad directive. The
    group of [%z] is the signed four-digit form the caller prepares by
    removing the colon. All failures are [ValueError]. *)

Inductive token :=
| TLit (c : ascii)
| TDir (c : ascii).

Fixpoint tokenize (fmt : string) : option (list token) :=
  match fmt with
  | EmptyString => Some []
  | String "%" EmptyString => None
  | String "%" (String c rest) =>
      option_map (cons (if Ascii.eqb c "%" then TLit c else TDir c))
                 (tokenize rest)
  | String c rest => option_map (cons (TLit c)) (tokenize rest)
  end.

Definition directive_regex (c : ascii) : option regex :=
  match c with
  | "Y"%char => Some (Seq re_d (Seq re_d (Seq re_d re_d)))
  | "m"%char => Some (Alt (Seq (re_chr "1") (re_rng "0" "2"))
                     (Alt (Seq (re_chr "0") (re_rng "1" "9"))
                          (re_rng "1" "9")))
  | "d"%char => Some (Alt (Seq (re_chr "3") (re_rng "0" "1"))
                     (Alt (Seq (re_rng "1" "2") re_d)
                     (Alt (Seq (re_chr "0") (re_rng "1" "9"))
                     (Alt (re_rng "1" "9")
                          (Seq (re_chr " ") (re_rng "1" "9"))))))
  | "H"%char => Some (Alt (Seq (re_chr "2") (re_rng "0" "3"))
                     (Alt (Seq (re_rng "0" "1") re_d)
                          re_d))
  | "M"%char => Some (Alt (Seq (re_rng "0" "5") re_d) re_d)
  | "S"%char => Some (Alt (Seq (re_chr "6") (re_rng "0" "1"))
                     (Alt (Seq (re_rng "0" "5") re_d)
                          re_d))
  | "f"%char => Some (re_upto re_d 5)
  | "z"%char => Some (Seq (Alt (re_chr "+") (re_chr "-"))
                     (Seq re_d (Seq re_d (Seq (re_rng "0" "5") re_d))))
  | _ => None
  end.

(** The fields [_strptime] collects, with its defaults. *)
Record tm := mkTm {
  tm_year : Z; tm_mon : Z; tm_mday : Z;
  tm_hour : Z; tm_min : Z; tm_sec : Z;
  tm_frac : Z; tm_gmtoff : option Z
}.

Definition tm0 : tm := mkTm 1900 1 1 0 0 0 0 None.

(** ["0" * n] appended to [s] *)
Fixpoint pad_zeros (s : string) (n : nat) : string :=
  match n with
  | O => s
  | S n' => pad_zeros (s ++ "0")%string n'
  end.

Definition gmtoff_of (z : string) : Z :=
  let tzoff := int (substring 1 2 z) * 60 + int (substring 3 2 z) in
  (if String.prefix "-" z then - tzoff else tzoff) * 60.

(** Conversion of the text of a group. *)
Definition set_field (c : ascii) (txt : string) (t : tm) : tm :=
  let '(mkTm y m d hh mm ss fr off) := t in
  match c with
  | "Y"%char => mkTm (int txt) m d hh mm ss fr off
  | "m"%char => mkTm y (int txt) d hh mm ss fr off
  | "d"%char => mkTm y m (int txt) hh mm ss fr off
  | "H"%char => mkTm y m d (int txt) mm ss fr off
  | "M"%char => mkTm y m d hh (int txt) ss fr off
  | "S"%char => mkTm y m d hh mm (int txt) fr off
  | "f"%char =>
      mkTm y m d hh mm ss (int (pad_zeros txt (6 - String.length txt))) off
  | "z"%char => mkTm y m d hh mm ss fr (Some (gmtoff_of txt))
  | _ => t
  end.

Definition lower (c : ascii) : ascii :=
  if in_range "A" "Z" c then ascii_of_nat (nat_of_ascii c + 32) else c.

Definition ci_eqb (a b : ascii) : bool := Ascii.eqb (lower a) (lower b).

(** Matching of the compiled format; [None] when the data does not match
    or the format has a directive outside the modelled ones. *)
Fixpoint match_tokens (toks : list token) (s : string) (t : tm)
  : option (tm * string) :=
  match toks with
  | [] => Some (t, s)
  | TLit c :: toks' =>
      match s with
      | String c' s' => if ci_eqb c c' then match_tokens toks' s' t else None
      | EmptyString => None
      end
  | TDir c :: toks' =>
      match directive_regex c with
      | Some r =>
          re_match r s (fun txt s' => match_tokens toks' s' (set_field c txt t))
      | None => None
      end
  end.

Definition _strptime (data fmt : string) : result tm :=
  match tokenize fmt with
  | None => Raise ValueError
  | Some toks =>
      match match_tokens toks data tm0 with
      | None => Raise ValueError
      | Some (t, EmptyString) => OK t
      | Some (_, String _ _) => Raise ValueError
      end
  end.

(** [datetime.strptime(data, fmt)] *)
Definition datetime_strptime (data : value) (fmt : string) : result datetime :=
  match data with
  | VStr s =>
      t <- _strptime s fmt ;;
      tz <- match tm_gmtoff t with
            | None => OK None
            | Some off => z <- timezone_new off ;; OK (Some z)
            end ;;
      datetime_new (tm_year t) (tm_mon t) (tm_mday t)
                   (tm_hour t) (tm_min t) (tm_sec t) (tm_frac t) tz
  | _ => Raise TypeError
  end.

(** ** Timestamp parsing and the window test *)

(** [[\+\-]\d{2}:\d{2}] *)
Definition offset_re : regex :=
  Seq (Alt (re_chr "+") (re_chr "-"))
      (Seq re_d (Seq re_d (Seq (re_chr ":") (Seq re_d re_d)))).

(** [re.match(r, v)] as a truth value; [v] must be a string. *)
Definition py_re_match (r : regex) (v : value) : result bool :=
  match v with
  | VStr s => OK (re_test r s)
  | _ => Raise TypeError
  end.

(** [v[:-6:] + v[-6::].replace(':', '')] *)
Definition strip_colon (v : value) : result value :=
  match v with
  | VStr s =>
      OK (VStr (str_drop_last 6 s ++ str_remove ":" (str_last 6 s))%string)
  | VList _ => Raise AttributeError
  | _ => Raise TypeError
  end.

Definition strptime (str_time : value) : result datetime :=
  let fmt := "%Y-%m-%dT%H:%M:%S" in
  n <- py_len str_time ;;
  dot <- (if 20 <=? n
          then c <- py_index str_time 19 ;; OK (eq_str c ".")
          else OK false) ;;
  let fmt := if dot then (fmt ++ ".%f")%string else fmt in
  last <- py_index str_time (-1) ;;
  if eq_str last "Z" then
    dt <- datetime_strptime str_time (fmt ++ "Z")%string ;;
    OK (replace_tzinfo dt (Some UTC))
  else
    tail <- py_last 6 str_time ;;
    m <- py_re_match offset_re tail ;;
    if m then
      str_time' <- strip_colon str_time ;;
      datetime_strptime str_time' (fmt ++ "%z")%string
    else datetime_strptime str_time fmt.

(** [a - b] and [a <= b] where one side is known to be a datetime and the
    other is whatever the caller passed. *)
Definition py_datetime_sub (a : datetime) (b : value) : result Z :=
  match b with
  | VDatetime b' => datetime_sub a b'
  | _ => Raise TypeError
  end.

Definition py_datetime_le (a : datetime) (b : value) : result bool :=
  match b with
  | VDatetime b' => datetime_le a b'
  | _ => Raise TypeError
  end.

Definition py_le_datetime (a : value) (b : datetime) : result bool :=
  match a with
  | VDatetime a' => datetime_le a' b
  | _ => Raise TypeError
  end.

Definition MINUTES_BEFORE : Q := 5.

Definition assert_msg : string :=
  "`minutes_before` must be a non-negative number.".

Definition is_within_next_event (now next_event : value) (minutes_before : Q)
  : result bool :=
  if negb (Qle_bool 0 minutes_before) then Raise (AssertionError assert_msg)
  else if truthy next_event then
    s <- py_getitem next_event "start" ;;
    start_dt <- strptime s ;;
    e <- py_getitem next_event "end" ;;
    end_dt <- strptime e ;;
    diff <- py_datetime_sub start_dt now ;;
    near <- (if Qle_bool (total_seconds diff) (minutes_before * 60)%Q
             then OK true
             else py_datetime_le start_dt now) ;;
    inside <- (if near then py_le_datetime now end_dt else OK false) ;;
    if inside then OK true else OK false
  else OK false.

(** ** Fetching the events and deciding on the status

    The calendar and the chat service are outside the program: the reply
    of the calendar API, the environment and the local-time conversion
    of the machine are arguments, and the run is followed up to the
    request that is handed to [set_status]. Log lines are not kept, but
    what is evaluated to build them is. *)

(** [v.keys()] as a check: only dictionaries have the method. *)
Definition py_keys (v : value) : result (list string) :=
  match v with
  | VDict d => OK (dict_keys d)
  | _ => Raise AttributeError
  end.

(** What one turn of the logging loop of [get_next_events] evaluates:
    [event['start'].get('dateTime', event['start'].get('date'))] and
    [event["summary"]]. *)
Definition log_next_event (event : value) : result unit :=
  st <- py_getitem event "start" ;;
  dflt <- py_get st "date" VNone ;;
  _ <- py_get st "dateTime" dflt ;;
  _ <- py_getitem event "summary" ;;
  OK tt.

Fixpoint log_next_events (events : list value) : result unit :=
  match events with
  | [] => OK tt
  | event :: rest => _ <- log_next_event event ;; log_next_events rest
  end.

(** [get_next_events], given the reply [events_result] of
    [events_resource.list(...).execute()]. *)
Definition get_next_events (min_time : value) (n : Z) (events_result : value)
  : result value :=
  events <- py_get events_result "items" (VList []) ;;
  items <- py_iter events ;;
  _ <- log_next_events items ;;
  _ <- (if truthy events
        then first <- py_index events 0 ;; py_keys first
        else OK []) ;;
  OK events.

(** [clean_events] on whatever object it is handed: the loop iterates
    over it and calls [ee.get] on each item. *)
Fixpoint clean_events_items (items : list value) (events_clean : list dict)
  : result (list dict) :=
  match items with
  | [] => OK events_clean
  | VDict ee :: rest =>
      r <- clean_event default_keys ee ;;
      match r with
      | None => clean_events_items rest events_clean
      | Some ee_clean => clean_events_items rest (events_clean ++ [ee_clean])
      end
  | _ :: _ => Raise AttributeError
  end.

Definition py_clean_events (events : value) : result (list dict) :=
  items <- py_iter events ;;
  clean_events_items items [].

(** [datetime(1970, 1, 1, tzinfo=timezone.utc)] *)
Definition _EPOCH : datetime := mkDatetime 1970 1 1 0 0 0 0 (Some UTC).

(** [int(x)] for a number of seconds: truncation towards zero. *)
Definition int_of_Q (q : Q) : Z := Z.quot (Qnum q) (Zpos (Qden q)).

(** The request made to the chat service: the status text is
    ["Meeting: "] followed by [str(subject)], and the expiration is a
    Unix time in seconds. *)
Record status_call := mkStatusCall {
  status_subject : value;
  status_expiration : Z
}.

Section Platform.

(** [dt._mktime()]: the POSIX seconds of a naive datetime, read in the
    local zone of the machine. *)
Variable mktime : datetime -> Z.

(** [dt.timestamp()] *)
Definition timestamp (dt : datetime) : result Q :=
  match tzinfo dt with
  | None => OK (inject_Z (mktime dt) + Qmake (microsecond dt) 1000000)%Q
  | Some _ => diff <- datetime_sub dt _EPOCH ;; OK (total_seconds diff)
  end.

(** [set_status_if_within_range] up to the call of [set_status]:
    [None] when the status is left alone. *)
Definition set_status_if_within_range (now events_result : value)
  (environ : dict) : result (option status_call) :=
  fetched <- get_next_events now 1 events_result ;;
  next_events <- py_clean_events fetched ;;
  let next_event :=
    match next_events with
    | [] => VDict []
    | first :: _ => VDict first
    end in
  now_dt <- strptime now ;;
  within <- is_within_next_event (VDatetime now_dt) next_event
                                 MINUTES_BEFORE ;;
  if within then
    e <- py_getitem next_event "end" ;;
    end_dt <- strptime e ;;
    ts <- timestamp end_dt ;;
    let expiration :=
      if int_of_Q ts =? 0 then 0 else int_of_Q ts in
    s <- py_getitem next_event "summary" ;;
    let subject := if truthy s then s else VStr DEFAULT_STATUS in
    _ <- dict_getitem environ "SLACK_TOKEN" ;;
    OK (Some (mkStatusCall subject expiration))
  else OK None.

End Platform.


(** ** Vocabulary of the properties *)

(** *** Raw events, as the data model describes them *)

(** [ee[k]] is absent or a nested mapping. *)
Definition nested_ok (ee : dict) (k : string) : bool :=
  match dict_lookup ee k with
  | None | Some (VDict _) => true
  | Some _ => false
  end.

Definition is_record (v : value) : bool :=
  match v with VDict _ => true | _ => false end.

(** The attendee record [aa] has its [self] flag set. *)
Definition self_flag (aa : value) : bool :=
  match aa with
  | VDict a => truthy (dict_get a "self" (VBool false))
  | _ => false
  end.

(** The attendee list of [ee]; an event without the key has none. *)
Definition attendee_records (ee : dict) : option (list value) :=
  match dict_lookup ee "attendees" with
  | None => Some []
  | Some (VList l) => if forallb is_record l then Some l else None
  | Some _ => None
  end.

(** *** The normaliser as the specification words it *)

Definition spec_busy (ee : dict) : bool :=
  negb (eq_str (dict_get ee "transparency" (VStr "")) "transparent").

Definition spec_confirmed (ee : dict) : bool :=
  match dict_lookup ee "status" with
  | Some st => eq_str st "confirmed"
  | None => false
  end.

(** The response of the first attendee whose [self] flag is set. *)
Definition spec_self_response (ee : dict) : option value :=
  match attendee_records ee with
  | Some l =>
      match find self_flag l with
      | Some (VDict a) => Some (dict_get a "responseStatus" (VStr ""))
      | _ => None
      end
  | None => None
  end.

Definition spec_accepted (ee : dict) : bool :=
  match spec_self_response ee with
  | Some r => eq_str r "accepted"
  | None => false
  end.

Definition spec_keep (ee : dict) : bool :=
  spec_busy ee && spec_confirmed ee && spec_accepted ee.

(** [ee[k]['dateTime']], the empty string when a key is missing. *)
Definition spec_timestamp (ee : dict) (k : string) : value :=
  match dict_lookup ee k with
  | Some (VDict sd) => dict_get sd "dateTime" (VStr "")
  | _ => VStr ""
  end.

Definition spec_summary (ee : dict) : value :=
  if eq_str (dict_get ee "visibility" (VStr "")) "private"
  then VStr DEFAULT_STATUS
  else dict_get ee "summary" (VStr "").

Definition spec_canonical (ee : dict) : dict :=
  [ ("summary", spec_summary ee);
    ("start", spec_timestamp ee "start");
    ("end", spec_timestamp ee "end");
    ("status", dict_get ee "status" (VStr ""));
    ("transparency", dict_get ee "transparency" (VStr ""));
    ("visibility", dict_get ee "visibility" (VStr ""));
    ("responseStatus", VStr "accepted") ].

(** What the properties ask of an input event: it has a [status]; and if
    it survives the busy and confirmation filters, its [start] and [end]
    are nested mappings (when present) and its attendee records include
    one for the calendar owner. *)
Definition raw_event_ok (ee : dict) : bool :=
  match dict_lookup ee "status" with
  | None => false
  | Some _ =>
      if spec_busy ee && spec_confirmed ee then
        nested_ok ee "start" && nested_ok ee "end" &&
        match attendee_records ee with
        | Some l => existsb self_flag l
        | None => false
        end
      else true
  end.

(** The event has well-shaped attendee records, none of them the
    owner's. *)
Definition no_self_attendee (ee : dict) : bool :=
  match attendee_records ee with
  | Some l => negb (existsb self_flag l)
  | None => false
  end.

(** The loop body keeps the event. *)
Definition kept (ee : dict) : bool :=
  match clean_event default_keys ee with
  | OK (Some _) => true
  | _ => false
  end.

Definition canonical_keys : list string :=
  [ "summary"; "start"; "end"; "status"; "transparency"; "visibility";
    "responseStatus" ].

(** [ee[k]] has no nested [dateTime]: the key is absent, or its mapping
    is of the date-only shape. *)
Definition lacks_dateTime (ee : dict) (k : string) : bool :=
  match dict_lookup ee k with
  | None => true
  | Some (VDict sd) =>
      match dict_lookup sd "dateTime" with None => true | Some _ => false end
  | Some _ => false
  end.

(** *** Key paths *)

Definition path_of (key : keypath) : list string :=
  match key with
  | KStr s => [s]
  | KTuple t => t
  end.

(** The value at the end of the path, if every key on the way exists. *)
Fixpoint path_lookup (d : dict) (key : list string) : option value :=
  match key with
  | [] => None
  | [k] => dict_lookup d k
  | k :: (_ :: _) as rest =>
      match dict_lookup d k with
      | Some (VDict d') => path_lookup d' rest
      | _ => None
      end
  end.

(** Every value met strictly inside the path is a dictionary. *)
Fixpoint nested_dicts (d : dict) (key : list string) : bool :=
  match key with
  | [] | [_] => true
  | k :: (_ :: _) as rest =>
      match dict_lookup d k with
      | None => true
      | Some (VDict d') => nested_dicts d' rest
      | Some _ => false
      end
  end.

(** *** Instants *)

Definition valid_datetime (dt : datetime) : Prop :=
  check_fields (year dt) (month dt) (day dt) (hour dt) (minute dt)
               (second dt) (microsecond dt) = true.

Definition aware (dt : datetime) : Prop := tzinfo dt <> None.

(** Microseconds of the wall clock since the day before 0001-01-01. *)
Definition wall_micros (dt : datetime) : Z :=
  ((toordinal dt * 24 + hour dt) * 60 + minute dt) * 60000000
  + second dt * 1000000 + microsecond dt.

(** The absolute instant of an aware datetime (of the wall clock, for a
    naive one). *)
Definition utc_instant (dt : datetime) : Z :=
  wall_micros dt - match tzinfo dt with Some off => off | None => 0 end.

(** Seconds from [a] until [b]. *)
Definition seconds_until (a b : datetime) : Q :=
  Qmake (utc_instant b - utc_instant a) 1000000.

(** *** Timestamps in the three shapes *)

Definition digit_char (d : Z) : ascii := ascii_of_nat (Z.to_nat d + 48).

Definition two_digits (n : Z) : string :=
  String (digit_char (n / 10)) (String (digit_char (n mod 10)) EmptyString).

Definition four_digits (n : Z) : string :=
  (two_digits (n / 100) ++ two_digits (n mod 100))%string.

Definition iso_base (y m d hh mm ss : Z) : string :=
  (four_digits y ++ "-" ++ two_digits m ++ "-" ++ two_digits d ++ "T"
   ++ two_digits hh ++ ":" ++ two_digits mm ++ ":" ++ two_digits ss)%string.

Fixpoint all_digits (s : string) : bool :=
  match s with
  | EmptyString => true
  | String c s' => is_digit c && all_digits s'
  end.

(** A fraction of a second: between one and six decimal digits. *)
Definition fraction_ok (f : option string) : bool :=
  match f with
  | None => true
  | Some ds =>
      all_digits ds && (1 <=? String.length ds)%nat && (String.length ds <=? 6)%nat
  end.

Definition fraction_suffix (f : option string) : string :=
  match f with
  | None => EmptyString
  | Some ds => String "." ds
  end.

Definition fraction_micros (f : option string) : Z :=
  match f with
  | None => 0
  | Some ds => int (pad_zeros ds (6 - String.length ds))
  end.

Inductive zone :=
| Naive
| Zulu
| Offset (west : bool) (hh mm : Z).

Definition zone_ok (z : zone) : bool :=
  match z with
  | Offset _ hh mm => (0 <=? hh) && (hh <=? 23) && (0 <=? mm) && (mm <=? 59)
  | _ => true
  end.

Definition zone_suffix (z : zone) : string :=
  match z with
  | Naive => EmptyString
  | Zulu => "Z"
  | Offset west hh mm =>
      String (if west then "-" else "+")%char
             (two_digits hh ++ ":" ++ two_digits mm)%string
  end.

(** The [utcoffset()] of the zone, in microseconds. *)
Definition zone_tzinfo (z : zone) : option Z :=
  match z with
  | Naive => None
  | Zulu => Some 0
  | Offset west hh mm =>
      Some ((if west then -1 else 1) * (hh * 3600 + mm * 60) * 1000000)
  end.

Definition iso_string (y m d hh mm ss : Z) (f : option string) (z : zone)
  : string :=
  (iso_base y m d hh mm ss ++ fraction_suffix f ++ zone_suffix z)%string.

(** [dt.isoformat()] of a naive datetime, as [__main__] uses it on
    [datetime.utcnow()]: the microseconds are printed, with six digits,
    only when they are not zero. *)
Definition six_digits (n : Z) : string :=
  (two_digits (n / 10000) ++ two_digits (n / 100 mod 100)
   ++ two_digits (n mod 100))%string.

Definition isoformat (dt : datetime) : string :=
  (iso_base (year dt) (month dt) (day dt) (hour dt) (minute dt) (second dt)
   ++ (if (microsecond dt =? 0)%Z then EmptyString
       else String "." (six_digits (microsecond dt))))%string.

(** The string [now] of [__main__]: [datetime.utcnow().isoformat() + 'Z']. *)
Definition main_now (utcnow : datetime) : value :=
  VStr (isoformat utcnow ++ "Z").

(** *** Auxiliary notions of the proofs *)

(** The list a loop iteration leaves behind. *)
Definition push (r : option dict) (rs : list dict) : list dict :=
  match r with
  | Some c => c :: rs
  | None => rs
  end.

(** [aa.get(rk, '')] on an attendee record. *)
Definition response_of (rk : string) (aa : value) : value :=
  match aa with
  | VDict a => dict_get a rk (VStr "")
  | _ => VNone
  end.

Definition days_in_year (y : Z) : Z := if _is_leap y then 366 else 365.

(** [s[-1]], if any. *)
Fixpoint last_char (s : string) : option ascii :=
  match s with
  | EmptyString => None
  | String c EmptyString => Some c
  | String _ s' => last_char s'
  end.

(** [len(s) >= 20 and s[19] == '.'] *)
Definition dot_at_19 (s : string) : bool :=
  match String.get 19 s with
  | Some c => Ascii.eqb c "."
  | None => false
  end.

Definition is_sign (c : ascii) : bool := Ascii.eqb "+" c || Ascii.eqb "-" c.

Fixpoint no_sign (s : string) : bool :=
  match s with
  | EmptyString => true
  | String c s' => negb (is_sign c) && no_sign s'
  end.

Definition base_tokens : list token :=
  [ TDir "Y"; TLit "-"; TDir "m"; TLit "-"; TDir "d"; TLit "T";
    TDir "H"; TLit ":"; TDir "M"; TLit ":"; TDir "S" ].

Definition fraction_tokens (f : option string) : list token :=
  match f with
  | None => []
  | Some _ => [TLit "."; TDir "f"]
  end.

Definition base_format : string := "%Y-%m-%dT%H:%M:%S".

Definition fraction_format (f : option string) : string :=
  match f with
  | None => base_format
  | Some _ => (base_format ++ ".%f")%string
  end.

(** The regular expression [r], followed by [k], accepts the two-digit
    rendering of every number between [lo] and [hi]. *)
Definition takes_two_digits (r : regex) (lo hi : Z) : Prop :=
  forall n, lo <= n <= hi ->
  forall (A : Type) (rest : string) (k : string -> string -> option A) (x : A),
    k (two_digits n) rest = Some x ->
    re_match r (two_digits n ++ rest) k = Some x.

(** The input does not go on with a digit. *)
Definition no_leading_digit (s : string) : bool :=
  match s with
  | EmptyString => true
  | String c _ => negb (is_digit c)
  end.

(** What [strptime] passes on for each zone: the literal or directive
    appended to the format, the text left for it to match, and the
    offset in seconds that [%z] reads. *)
Definition zone_format (z : zone) : string :=
  match z with
  | Naive => EmptyString
  | Zulu => "Z"
  | Offset _ _ _ => "%z"
  end.

Definition zone_tokens (z : zone) : list token :=
  match z with
  | Naive => []
  | Zulu => [TLit "Z"]
  | Offset _ _ _ => [TDir "z"]
  end.

Definition zone_data (z : zone) : string :=
  match z with
  | Offset west hh mm =>
      String (if west then "-" else "+")%char
             (two_digits hh ++ two_digits mm)%string
  | _ => zone_suffix z
  end.

Definition zone_gmtoff (z : zone) : option Z :=
  match z with
  | Offset west hh mm => Some ((if west then -1 else 1) * (hh * 3600 + mm * 60))
  | _ => None
  end.

(** *** Sample data *)

Definition sample_event : dict :=
  [ ("foo", VInt 1);
    ("attendees",
      VList [ VDict [("qwe", VList [VInt 4; VInt 5]); ("self", VBool false)];
              VDict [("asd", VList [VInt 6; VInt 7]); ("self", VBool true);
                     ("responseStatus", VStr "accepted")] ]);
    ("end", VDict [("dateTime", VStr "2001-02-03T20:35:00"); ("baz", VInt 3)]);
    ("start", VDict [("dateTime", VStr "2001-02-03T20:00:00"); ("bar", VInt 2)]);
    ("status", VStr "confirmed");
    ("summary", VStr "My event name");
    ("transparency", VStr "not-transparent");
    ("visibility", VStr "not-private") ].

Definition sample_events : list dict :=
  [ sample_event;
    dict_set sample_event "status" (VStr "not-confirmed");
    dict_set sample_event "transparency" (VStr "transparent");
    dict_remove sample_event "transparency";
    dict_set sample_event "visibility" (VStr "private");
    dict_remove sample_event "visibility";
    dict_set sample_event "attendees"
      (VList [ VDict [("self", VBool false)];
               VDict [("self", VBool true);
                      ("responseStatus", VStr "not-accepted")] ]) ].

Definition sample_record (summary visibility transparency : string) : dict :=
  [ ("summary", VStr summary);
    ("start", VStr "2001-02-03T20:00:00");
    ("end", VStr "2001-02-03T20:35:00");
    ("status", VStr "confirmed");
    ("transparency", VStr transparency);
    ("visibility", VStr visibility);
    ("responseStatus", VStr "accepted") ].

Definition sample_output : list dict :=
  [ sample_record "My event name" "not-private" "not-transparent";
    sample_record "My event name" "not-private" "";
    sample_record "busy" "private" "not-transparent";
    sample_record "My event name" "" "not-transparent" ].

(** An event nobody was invited to. *)
Definition sample_unattended : dict := dict_remove sample_event "attendees".

(** An all-day event: [start] and [end] carry a [date] only. *)
Definition sample_all_day : dict :=
  dict_set (dict_set sample_event "start" (VDict [("date", VStr "2001-02-03")]))
           "end" (VDict [("date", VStr "2001-02-04")]).

Definition sample_all_day_record : dict :=
  [ ("summary", VStr "My event name");
    ("start", VStr ""); ("end", VStr "");
    ("status", VStr "confirmed");
    ("transparency", VStr "not-transparent");
    ("visibility", VStr "not-private");
    ("responseStatus", VStr "accepted") ].

(** The event and the instants of the test suite. *)
Definition sample_window_event : dict :=
  [ ("start", VStr "2001-02-03T12:00:00-02:00");
    ("end", VStr "2001-02-03T12:30:00-02:00");
    ("foo", VStr "bar") ].

Definition sample_window_start : datetime :=
  mkDatetime 2001 2 3 12 0 0 0 (Some (-7200000000)).

Definition sample_window_end : datetime :=
  mkDatetime 2001 2 3 12 30 0 0 (Some (-7200000000)).

Definition sample_now : datetime := mkDatetime 2001 2 3 13 45 0 0 (Some 0).

Definition sample_nested : dict :=
  [ ("a", VList [VInt 1; VInt 2]);
    ("b", VDict [("b1", VList [VInt 3; VInt 4]); ("b2", VInt 5)]) ].

Definition utc_datetime (hh mm : Z) : value :=
  VDatetime (mkDatetime 2001 2 3 hh mm 0 0 (Some UTC)).

(** *** Vocabulary of the further properties *)

Definition is_plain_key (kk : keypath) : bool :=
  match kk with
  | KStr s => negb (String.eqb s "attendees")
  | KTuple _ => false
  end.

Definition sample_attendees : list value :=
  [ VDict [("self", VBool false); ("responseStatus", VStr "declined")];
    VDict [("self", VBool true)];
    VDict [("self", VBool true); ("responseStatus", VStr "accepted")] ].

(** An event without a [status]. *)
Definition sample_no_status : dict := dict_remove sample_event "status".

(** A token that leaves the zone alone: a literal, or one of the
    directives of the date and the time. *)
Definition keeps_zone (tok : token) : bool :=
  match tok with
  | TLit _ => true
  | TDir c =>
      existsb (Ascii.eqb c) ["Y"; "m"; "d"; "H"; "M"; "S"; "f"]%char
  end.

(** The two-digit fields are in the range of their directive. *)
Definition fields_in_range (y m d hh mm ss : Z) : bool :=
  (0 <=? y) && (y <=? 9999) && (1 <=? m) && (m <=? 12) &&
  (1 <=? d) && (d <=? 31) && (0 <=? hh) && (hh <=? 23) &&
  (0 <=? mm) && (mm <=? 59) && (0 <=? ss) && (ss <=? 59).

Definition sample_naive_event : dict :=
  [ ("start", VStr "2001-02-03T12:00:00");
    ("end", VStr "2001-02-03T12:30:00") ].

Definition sample_naive_end_event : dict :=
  [ ("start", VStr "2001-02-03T12:00:00-02:00");
    ("end", VStr "2001-02-03T12:30:00") ].

Definition sample_naive_now : datetime := mkDatetime 2001 2 3 11 50 0 0 None.

(** What the logging loop of [get_next_events] needs of an event: a
    dictionary with a nested [start] and a [summary]. *)
Definition is_loggable (event : value) : bool :=
  match event with
  | VDict d =>
      match dict_lookup d "start", dict_lookup d "summary" with
      | Some (VDict _), Some _ => true
      | _, _ => false
      end
  | _ => false
  end.

(** The reply of the calendar with the given events. *)
Definition calendar_reply (events : list dict) : value :=
  VDict [("kind", VStr "calendar#events"); ("items", VList (map VDict events))].

Definition sample_meeting : dict :=
  [ ("summary", VStr "Team Sync");
    ("start", VDict [("dateTime", VStr "2019-02-21T10:30:00-03:00")]);
    ("end", VDict [("dateTime", VStr "2019-02-21T11:00:00-03:00")]);
    ("status", VStr "confirmed");
    ("visibility", VStr "public");
    ("attendees", VList [VDict [("self", VBool true);
                                ("responseStatus", VStr "accepted")]]) ].

Definition sample_environ : dict := [("SLACK_TOKEN", VStr "xoxp")].

(** * Properties *)

(** ** The cases of the test suite *)

Example test_read_value :
  read_value (VDict sample_nested) (KStr "a") = OK (VList [VInt 1; VInt 2])
  /\ read_value (VDict sample_nested) (KTuple ["b"; "b2"]) = OK (VInt 5).
Proof. split; reflexivity. Qed.

Example test_get_key :
  get_key (KStr "foo") = OK "foo"
  /\ get_key (KTuple ["foo"; "bar"; "baz"]) = OK "foo".
Proof. split; reflexivity. Qed.

Example test_clean_events : clean_events sample_events = OK sample_output.
Proof. reflexivity. Qed.

Example test_strptime :
  strptime (VStr "2001-02-03T04:05:06")
  = OK (mkDatetime 2001 2 3 4 5 6 0 None)
  /\ strptime (VStr "2001-02-03T04:05:06Z")
     = OK (mkDatetime 2001 2 3 4 5 6 0 (Some UTC))
  /\ strptime (VStr "2001-02-03T04:05:06.123456")
     = OK (mkDatetime 2001 2 3 4 5 6 123456 None)
  /\ strptime (VStr "2001-02-03T04:05:06.123456Z")
     = OK (mkDatetime 2001 2 3 4 5 6 123456 (Some UTC))
  /\ strptime (VStr "2001-02-03T04:05:06-03:00")
     = OK (mkDatetime 2001 2 3 4 5 6 0 (Some (-3 * 3600 * 1000000)))
  /\ strptime (VStr "2001-02-03T04:05:06+10:00")
     = OK (mkDatetime 2001 2 3 4 5 6 0 (Some (10 * 3600 * 1000000))).
Proof. repeat split; reflexivity. Qed.

Example test_is_within_next_event :
  (exists msg,
     is_within_next_event VNone (VDict sample_window_event) (-1 # 1)
     = Raise (AssertionError msg)
     /\ str_contains "minutes_before" msg = true)
  /\ is_within_next_event (utc_datetime 13 45) (VDict sample_window_event) 14
     = OK false
  /\ is_within_next_event (utc_datetime 13 45) (VDict sample_window_event) 15
     = OK true
  /\ is_within_next_event (utc_datetime 13 45) (VDict sample_window_event) 999
     = OK true
  /\ is_within_next_event (utc_datetime 14 15) (VDict sample_window_event) 0
     = OK true
  /\ is_within_next_event (utc_datetime 14 45) (VDict sample_window_event) 0
     = OK false
  /\ is_within_next_event
       (VDatetime (mkDatetime 2001 2 3 13 45 0 0 None))
       (VDict sample_window_event) 15
     = Raise TypeError.
Proof.
  split; [eexists; split; reflexivity|]. repeat split; reflexivity.
Qed.

(** ** The result monad *)

Lemma bind_OK {A B} (m : result A) (k : A -> result B) (b : B) :
  bind m k = OK b -> exists a, m = OK a /\ k a = OK b.
Proof.
  destruct m as [a|e]; simpl; intros H; [eauto | discriminate].
Qed.

Lemma eq_str_true v s : eq_str v s = true -> v = VStr s.
Proof.
  destruct v; simpl; try discriminate.
  intros H. apply String.eqb_eq in H. now subst.
Qed.

(** ** The loop of [clean_events] *)

Lemma clean_events_loop_acc keys events acc :
  clean_events_loop keys events acc =
  (rs <- clean_events_loop keys events [] ;; OK (acc ++ rs)%list).
Proof.
  revert acc. induction events as [|ee rest IH]; intros acc; simpl.
  - now rewrite app_nil_r.
  - destruct (clean_event keys ee) as [[c|]|e]; simpl; auto.
    rewrite (IH (acc ++ [c])%list), (IH [c]).
    destruct (clean_events_loop keys rest []); simpl; auto.
    now rewrite <- app_assoc.
Qed.

Lemma clean_events_keys_cons keys ee rest :
  clean_events_keys (ee :: rest) keys =
  (r <- clean_event keys ee ;;
   rs <- clean_events_keys rest keys ;;
   OK (push r rs)).
Proof.
  unfold clean_events_keys. simpl.
  destruct (clean_event keys ee) as [[c|]|e]; simpl; auto.
  - rewrite clean_events_loop_acc. reflexivity.
  - destruct (clean_events_loop keys rest []); reflexivity.
Qed.

Lemma clean_events_cons ee rest :
  clean_events (ee :: rest) =
  (r <- clean_event default_keys ee ;;
   rs <- clean_events rest ;;
   OK (push r rs)).
Proof. apply clean_events_keys_cons. Qed.

Lemma clean_events_app pre post :
  clean_events (pre ++ post) =
  (a <- clean_events pre ;; b <- clean_events post ;; OK (a ++ b)%list).
Proof.
  induction pre as [|ee pre IH]; simpl.
  - change (clean_events []) with (@OK (list dict) []). simpl.
    destruct (clean_events post); reflexivity.
  - rewrite !clean_events_cons, IH.
    destruct (clean_event default_keys ee) as [r|e]; simpl; auto.
    destruct (clean_events pre) as [a|e]; simpl; auto.
    destruct (clean_events post) as [b|e]; simpl; auto.
    destruct r; reflexivity.
Qed.

(** ** One event *)

(** The dict comprehension over the default keys. *)
Lemma extract_default_keys ee :
  extract_keys ee default_keys [] =
  (s <- py_get (dict_get ee "start" (VDict [])) "dateTime" (VStr "") ;;
   e <- py_get (dict_get ee "end" (VDict [])) "dateTime" (VStr "") ;;
   OK [ ("summary", dict_get ee "summary" (VStr ""));
        ("start", s); ("end", e);
        ("status", dict_get ee "status" (VStr ""));
        ("transparency", dict_get ee "transparency" (VStr ""));
        ("visibility", dict_get ee "visibility" (VStr ""));
        ("attendees", dict_get ee "attendees" (VStr "")) ]).
Proof.
  unfold default_keys. simpl.
  destruct (py_get (dict_get ee "start" (VDict [])) "dateTime" (VStr ""));
    simpl; auto.
Qed.

(** The record of an event that the loop body keeps. *)
Lemma clean_event_kept ee rec :
  clean_event default_keys ee = OK (Some rec) ->
  exists s e,
    py_get (dict_get ee "start" (VDict [])) "dateTime" (VStr "") = OK s /\
    py_get (dict_get ee "end" (VDict [])) "dateTime" (VStr "") = OK e /\
    rec = [ ("summary", spec_summary ee);
            ("start", s); ("end", e);
            ("status", dict_get ee "status" (VStr ""));
            ("transparency", dict_get ee "transparency" (VStr ""));
            ("visibility", dict_get ee "visibility" (VStr ""));
            ("responseStatus", VStr "accepted") ].
Proof.
  unfold clean_event.
  destruct (eq_str (dict_get ee "transparency" (VStr "")) "transparent");
    [discriminate|].
  destruct (dict_getitem ee "status") as [st|]; cbn [bind]; [|discriminate].
  destruct (eq_str st "confirmed"); cbn [negb]; [|discriminate].
  rewrite extract_default_keys.
  destruct (py_get (dict_get ee "start" (VDict [])) "dateTime" (VStr ""))
    as [s|]; cbn [bind]; [|discriminate].
  destruct (py_get (dict_get ee "end" (VDict [])) "dateTime" (VStr ""))
    as [e|]; cbn [bind]; [|discriminate].
  match goal with
  | |- context [get_my_response_status ?d ?a ?r] =>
      destruct (get_my_response_status d a r) as [my|] eqn:Hmy
  end; cbn [bind]; [|discriminate].
  destruct (eq_str my "accepted") eqn:Hacc; cbn [negb]; [|discriminate].
  apply eq_str_true in Hacc. subst my.
  unfold spec_summary.
  destruct (eq_str (dict_get ee "visibility" (VStr "")) "private") eqn:Hv;
    cbn; rewrite ?Hv; cbn; intros [= <-]; exists s, e; auto.
Qed.

Lemma nested_ok_timestamp ee k :
  nested_ok ee k = true ->
  py_get (dict_get ee k (VDict [])) "dateTime" (VStr "")
  = OK (spec_timestamp ee k).
Proof.
  unfold nested_ok, spec_timestamp, dict_get.
  destruct (dict_lookup ee k) as [[]|]; try discriminate; reflexivity.
Qed.

(** On attendee records the comprehension is a filter followed by a map. *)
Lemma self_responses_records rk l :
  forallb is_record l = true ->
  self_responses rk l = OK (map (response_of rk) (filter self_flag l)).
Proof.
  induction l as [|aa l IH]; simpl; auto.
  intros H. apply andb_prop in H as [Ha Hl].
  destruct aa; try discriminate. simpl.
  rewrite (IH Hl).
  destruct (truthy (dict_get d "self" (VBool false))); reflexivity.
Qed.

Lemma filter_nil_existsb {A} (f : A -> bool) l :
  filter f l = [] <-> existsb f l = false.
Proof.
  induction l as [|a l IH]; simpl; [tauto|].
  destruct (f a); simpl; [split; discriminate | exact IH].
Qed.

Lemma find_filter {A} (f : A -> bool) l :
  find f l = hd_error (filter f l).
Proof.
  induction l as [|a l IH]; simpl; auto.
  destruct (f a); simpl; auto.
Qed.

(** Reading the owner's response off the extracted record. *)
Lemma get_my_response_status_records ee (rest : dict) l :
  attendee_records ee = Some l ->
  get_my_response_status
    (rest ++ [("attendees", dict_get ee "attendees" (VStr ""))])%list
    "attendees" "responseStatus"
  = match dict_lookup rest "attendees" with
    | Some v =>
        get_my_response_status rest "attendees" "responseStatus"
    | None =>
        match filter self_flag l with
        | [] => Raise IndexError
        | aa :: _ => OK (response_of "responseStatus" aa)
        end
    end.
Proof.
  intros Hl. unfold get_my_response_status, dict_getitem.
  assert (Hlk : forall d kv, dict_lookup (d ++ [kv])%list "attendees" =
            match dict_lookup d "attendees" with
            | Some v => Some v
            | None => if String.eqb (fst kv) "attendees" then Some (snd kv) else None
            end).
  { induction d as [|[k v] d IH]; intros [k' v']; simpl; auto.
    destruct (String.eqb k "attendees"); auto. }
  rewrite Hlk. destruct (dict_lookup rest "attendees"); [reflexivity|].
  cbn [fst snd]. change (String.eqb "attendees" "attendees") with true.
  cbn [bind]. unfold attendee_records, dict_get in *.
  destruct (dict_lookup ee "attendees") as [[]|]; try discriminate.
  - destruct (forallb is_record l0) eqn:Hrec; [|discriminate].
    injection Hl as <-. cbn [py_iter bind].
    rewrite (self_responses_records _ _ Hrec). cbn [bind].
    destruct (filter self_flag l0); reflexivity.
  - injection Hl as <-. reflexivity.
Qed.

(** The loop body agrees with the filters and the record of the
    specification on the events the data model describes. *)
Lemma clean_event_spec ee :
  raw_event_ok ee = true ->
  clean_event default_keys ee
  = OK (if spec_keep ee then Some (spec_canonical ee) else None).
Proof.
  unfold raw_event_ok, spec_keep, spec_busy, spec_confirmed, clean_event,
    dict_getitem.
  destruct (dict_lookup ee "status") as [st|] eqn:Hst; [|discriminate].
  destruct (eq_str (dict_get ee "transparency" (VStr "")) "transparent");
    cbn [negb andb]; [reflexivity|].
  cbn [bind].
  destruct (eq_str st "confirmed") eqn:Hconf; cbn [negb]; [|reflexivity].
  intros H. apply andb_prop in H as [H Hatt]. apply andb_prop in H as [Hs He].
  rewrite extract_default_keys.
  rewrite (nested_ok_timestamp _ _ Hs), (nested_ok_timestamp _ _ He).
  cbn [bind]. unfold spec_accepted, spec_self_response.
  destruct (attendee_records ee) as [l|] eqn:Hl; [|discriminate].
  pose proof (get_my_response_status_records ee
    [ ("summary", dict_get ee "summary" (VStr ""));
      ("start", spec_timestamp ee "start"); ("end", spec_timestamp ee "end");
      ("status", dict_get ee "status" (VStr ""));
      ("transparency", dict_get ee "transparency" (VStr ""));
      ("visibility", dict_get ee "visibility" (VStr "")) ] l Hl) as Hmy.
  cbn [app dict_lookup String.eqb Ascii.eqb Bool.eqb] in Hmy.
  unfold attendees_key, response_key. rewrite Hmy. clear Hmy.
  rewrite find_filter.
  destruct (filter self_flag l) as [|aa sel] eqn:Hsel.
  { apply filter_nil_existsb in Hsel. congruence. }
  assert (Haa : is_record aa = true).
  { assert (Hin : In aa (filter self_flag l)) by (rewrite Hsel; now left).
    apply filter_In in Hin as [_ Hf]. destruct aa; try discriminate; reflexivity. }
  destruct aa; try discriminate. cbn [hd_error response_of bind].
  destruct (eq_str (dict_get d "responseStatus" (VStr "")) "accepted") eqn:Hacc;
    cbn [negb]; [|reflexivity].
  apply eq_str_true in Hacc. rewrite Hacc.
  unfold spec_canonical, spec_summary.
  set (vis := dict_get ee "visibility" (VStr "")).
  set (tr := dict_get ee "transparency" (VStr "")).
  set (stv := dict_get ee "status" (VStr "")).
  set (sm := dict_get ee "summary" (VStr "")).
  set (att := dict_get ee "attendees" (VStr "")).
  destruct (eq_str vis "private") eqn:Hv; cbn; rewrite Hv; reflexivity.
Qed.

(** An event of the data model that reaches the attendee lookup without a
    record of the owner stops the loop body with [IndexError]. *)
Lemma clean_event_no_self ee :
  spec_busy ee = true -> spec_confirmed ee = true ->
  nested_ok ee "start" = true -> nested_ok ee "end" = true ->
  no_self_attendee ee = true ->
  clean_event default_keys ee = Raise IndexError.
Proof.
  unfold spec_busy, spec_confirmed, no_self_attendee, clean_event,
    dict_getitem.
  intros Hb Hc Hs He Hn.
  apply negb_true_iff in Hb. rewrite Hb.
  destruct (dict_lookup ee "status") as [st|]; [|discriminate].
  cbn [bind]. rewrite Hc. cbn [negb].
  rewrite extract_default_keys.
  rewrite (nested_ok_timestamp _ _ Hs), (nested_ok_timestamp _ _ He).
  cbn [bind].
  destruct (attendee_records ee) as [l|] eqn:Hl; [|discriminate].
  pose proof (get_my_response_status_records ee
    [ ("summary", dict_get ee "summary" (VStr ""));
      ("start", spec_timestamp ee "start"); ("end", spec_timestamp ee "end");
      ("status", dict_get ee "status" (VStr ""));
      ("transparency", dict_get ee "transparency" (VStr ""));
      ("visibility", dict_get ee "visibility" (VStr "")) ] l Hl) as Hmy.
  cbn [app dict_lookup String.eqb Ascii.eqb Bool.eqb] in Hmy.
  unfold attendees_key, response_key. rewrite Hmy.
  apply negb_true_iff, filter_nil_existsb in Hn. rewrite Hn. reflexivity.
Qed.

(** The records of the output, event by event. *)
Lemma clean_events_kept events out :
  clean_events events = OK out ->
  Forall2 (fun ee rec => clean_event default_keys ee = OK (Some rec))
          (filter kept events) out.
Proof.
  revert out. induction events as [|ee rest IH]; intros out.
  - intros [= <-]. constructor.
  - rewrite clean_events_cons. intros H.
    apply bind_OK in H as (r & Hr & H).
    apply bind_OK in H as (rs & Hrs & [= <-]).
    simpl. unfold kept at 1. rewrite Hr.
    destruct r as [c|]; simpl; auto.
Qed.

(** ** The claims on the normaliser *)

(** C2: on a list of raw events that each carry a [status] and, when they
    pass the busy and confirmation filters, nested [start]/[end] mappings
    and a record of the owner among the attendees, [clean_events] returns,
    in input order, exactly the canonical records of the events that are
    not transparent, are confirmed and were accepted by the owner. *)
Theorem clean_events_filters_and_order (events : list dict) :
  Forall (fun ee => raw_event_ok ee = true) events ->
  clean_events events = OK (map spec_canonical (filter spec_keep events)).
Proof.
  induction 1 as [|ee rest Hee _ IH]; [reflexivity|].
  rewrite clean_events_cons, (clean_event_spec _ Hee), IH. simpl.
  destruct (spec_keep ee); reflexivity.
Qed.

Lemma clean_events_filters_and_order_witness :
  Forall (fun ee => raw_event_ok ee = true) sample_events /\
  clean_events sample_events = OK sample_output.
Proof.
  assert (H : Forall (fun ee => raw_event_ok ee = true) sample_events)
    by (repeat constructor).
  split; [exact H|].
  exact (clean_events_filters_and_order sample_events H).
Defined.

(** C3: every event that [clean_events] keeps appears in the output with
    the default status as its summary when its visibility is exactly
    [private], and with its own title (the empty string when it has none)
    for any other visibility, a missing one included. *)
Theorem clean_events_summary (events out : list dict) :
  clean_events events = OK out ->
  Forall2 (fun ee rec =>
             dict_lookup rec "summary" =
             Some (if eq_str (dict_get ee "visibility" (VStr "")) "private"
                   then VStr DEFAULT_STATUS
                   else dict_get ee "summary" (VStr "")))
          (filter kept events) out.
Proof.
  intros H. apply clean_events_kept in H.
  induction H as [|ee rec kept_events recs Hrec _ IH]; constructor; auto.
  apply clean_event_kept in Hrec as (s & e & _ & _ & ->). reflexivity.
Qed.

Lemma clean_events_summary_witness :
  clean_events sample_events = OK sample_output /\
  Forall2 (fun ee rec =>
             dict_lookup rec "summary" =
             Some (if eq_str (dict_get ee "visibility" (VStr "")) "private"
                   then VStr DEFAULT_STATUS
                   else dict_get ee "summary" (VStr "")))
          (filter kept sample_events) sample_output.
Proof.
  split; [reflexivity|].
  apply (clean_events_summary sample_events sample_output). reflexivity.
Defined.

(** C6: a raw event that passes the busy and confirmation filters and
    whose attendee records (none at all when the key is missing) do not
    include the owner makes [clean_events] fail with [IndexError],
    whatever follows it in the list. *)
Theorem clean_events_missing_self (pre post : list dict) (ee : dict)
  (done : list dict) :
  clean_events pre = OK done ->
  spec_busy ee = true -> spec_confirmed ee = true ->
  nested_ok ee "start" = true -> nested_ok ee "end" = true ->
  no_self_attendee ee = true ->
  clean_events (pre ++ ee :: post) = Raise IndexError.
Proof.
  intros Hpre Hb Hc Hs He Hn.
  rewrite clean_events_app, Hpre. cbn [bind].
  rewrite clean_events_cons, (clean_event_no_self ee Hb Hc Hs He Hn).
  reflexivity.
Qed.

Lemma clean_events_missing_self_witness :
  clean_events (sample_events ++ sample_unattended :: sample_events)
  = Raise IndexError.
Proof.
  apply (clean_events_missing_self sample_events sample_events
           sample_unattended sample_output); reflexivity.
Defined.

(** C7: every record that [clean_events] returns has exactly the keys
    summary, start, end, status, transparency, visibility and
    responseStatus, once each; [attendees] is not among them. *)
Theorem clean_events_keys_exact (events out : list dict) :
  clean_events events = OK out ->
  Forall (fun rec => dict_keys rec = canonical_keys
                     /\ ~ In "attendees" (dict_keys rec)) out.
Proof.
  intros H. apply clean_events_kept in H.
  induction H as [|ee rec kept_events recs Hrec _ IH]; constructor; auto.
  apply clean_event_kept in Hrec as (s & e & _ & _ & ->).
  split; [reflexivity|].
  cbn. intros H. repeat (destruct H as [H|H]; [discriminate|]). exact H.
Qed.

Lemma clean_events_keys_exact_witness :
  Forall (fun rec => dict_keys rec = canonical_keys
                     /\ ~ In "attendees" (dict_keys rec)) sample_output.
Proof.
  apply (clean_events_keys_exact sample_events sample_output). reflexivity.
Defined.

(** ** [read_value] *)

Lemma read_value_tuple_empty k key :
  read_value_tuple (VDict []) (k :: key) = OK (VStr "").
Proof.
  revert k. induction key as [|k' key IH]; intros k; [reflexivity|].
  change (read_value_tuple (VDict []) (k :: k' :: key))
    with (read_value_tuple (VDict []) (k' :: key)).
  apply IH.
Qed.

Lemma read_value_tuple_nested key : forall d,
  key <> [] ->
  nested_dicts d key = true ->
  read_value_tuple (VDict d) key
  = OK (match path_lookup d key with Some v => v | None => VStr "" end).
Proof.
  induction key as [|k rest IH]; intros d Hne Hnd; [congruence|].
  destruct rest as [|k' rest'].
  - reflexivity.
  - cbn [read_value_tuple path_lookup nested_dicts py_get bind] in *.
    unfold dict_get.
    destruct (dict_lookup d k) as [[]|]; try discriminate.
    + apply IH; [discriminate | exact Hnd].
    + apply read_value_tuple_empty.
Qed.

(** C9, the claim as stated fails: a value met inside the path that is
    present but is not a dictionary has no [get], and the lookup raises. *)
Lemma read_value_scalar_on_path :
  read_value (VDict [("start", VStr "2001-02-03")])
             (KTuple ["start"; "dateTime"])
  = Raise AttributeError.
Proof. reflexivity. Qed.

(** C9, amended: for a dictionary and a non-empty key path along which
    every value that is present before the last key is itself a
    dictionary, [read_value] returns normally: the value at the end of the
    path, and the empty string as soon as a key of the path is missing. *)
Theorem read_value_total_on_nested_dicts (d : dict) (key : keypath) :
  path_of key <> [] ->
  nested_dicts d (path_of key) = true ->
  read_value (VDict d) key
  = OK (match path_lookup d (path_of key) with
        | Some v => v
        | None => VStr ""
        end).
Proof.
  destruct key as [s|t]; cbn [path_of read_value].
  - intros _ _. reflexivity.
  - apply read_value_tuple_nested.
Qed.

Lemma read_value_total_on_nested_dicts_witness :
  read_value (VDict sample_all_day) (KTuple ["start"; "dateTime"])
  = OK (VStr "").
Proof.
  apply (read_value_total_on_nested_dicts sample_all_day
           (KTuple ["start"; "dateTime"])); [discriminate | reflexivity].
Defined.

(** ** The window test: argument check and empty event *)

(** C5: with a negative [minutes_before] the call fails on the assertion,
    whose message names the parameter, whatever [now] and the event are:
    nothing of them is looked at before. *)
Theorem is_within_next_event_negative (now next_event : value) (mb : Q) :
  (mb < 0)%Q ->
  is_within_next_event now next_event mb = Raise (AssertionError assert_msg)
  /\ str_contains "minutes_before" assert_msg = true.
Proof.
  intros Hneg. split; [|reflexivity].
  unfold is_within_next_event.
  destruct (Qle_bool 0 mb) eqn:E; [|reflexivity].
  apply Qle_bool_iff in E. exfalso. exact (Qlt_not_le _ _ Hneg E).
Qed.

Lemma is_within_next_event_negative_witness :
  is_within_next_event VNone (VDict sample_all_day_record) (-1 # 1)
  = Raise (AssertionError assert_msg)
  /\ str_contains "minutes_before" assert_msg = true.
Proof.
  apply (is_within_next_event_negative VNone (VDict sample_all_day_record)
           (-1 # 1)).
  reflexivity.
Defined.

(** C8: with a non-negative [minutes_before] and an event argument that
    is empty or absent (the empty dictionary, [None], any object that
    tests false), the answer is [False] for every [now]; no timestamp is
    parsed and nothing is raised. *)
Theorem is_within_next_event_no_event (now next_event : value) (mb : Q) :
  (0 <= mb)%Q ->
  truthy next_event = false ->
  is_within_next_event now next_event mb = OK false.
Proof.
  intros Hmb Hev. unfold is_within_next_event.
  apply Qle_bool_iff in Hmb. rewrite Hmb, Hev. reflexivity.
Qed.

Lemma is_within_next_event_no_event_witness :
  is_within_next_event VNone (VDict []) MINUTES_BEFORE = OK false
  /\ is_within_next_event (VStr "now") VNone 0 = OK false.
Proof.
  split.
  - apply (is_within_next_event_no_event VNone (VDict []) MINUTES_BEFORE);
      [discriminate | reflexivity].
  - apply (is_within_next_event_no_event (VStr "now") VNone 0);
      [discriminate | reflexivity].
Defined.

(** ** Events without a [dateTime] *)

Lemma lacks_dateTime_extracted ee k v :
  lacks_dateTime ee k = true ->
  py_get (dict_get ee k (VDict [])) "dateTime" (VStr "") = OK v ->
  v = VStr "".
Proof.
  unfold lacks_dateTime, dict_get.
  destruct (dict_lookup ee k) as [[]|]; try discriminate.
  - cbn [py_get]. unfold dict_get.
    destruct (dict_lookup d "dateTime"); [discriminate|].
    now intros _ [= <-].
  - now intros _ [= <-].
Qed.

Lemma strptime_empty : strptime (VStr "") = Raise IndexError.
Proof. reflexivity. Qed.

(** The window test on a record of the canonical shape. *)
Lemma is_within_next_event_record now mb sm s e st tr vis rs :
  is_within_next_event now
    (VDict [ ("summary", sm); ("start", s); ("end", e); ("status", st);
             ("transparency", tr); ("visibility", vis);
             ("responseStatus", rs) ]) mb
  = if negb (Qle_bool 0 mb) then Raise (AssertionError assert_msg)
    else
      start_dt <- strptime s ;;
      end_dt <- strptime e ;;
      diff <- py_datetime_sub start_dt now ;;
      near <- (if Qle_bool (total_seconds diff) (mb * 60)%Q
               then OK true
               else py_datetime_le start_dt now) ;;
      inside <- (if near then py_le_datetime now end_dt else OK false) ;;
      if inside then OK true else OK false.
Proof. reflexivity. Qed.

(** C10: an event that passes all filters but whose [start] (or [end])
    has no nested [dateTime] is output with the empty string in that
    field, and the window test on that record raises instead of
    answering, for every [now] and [minutes_before]. *)
Theorem all_day_event_breaks_window (events out : list dict) :
  clean_events events = OK out ->
  Forall2 (fun ee rec =>
             (lacks_dateTime ee "start" = true ->
              dict_lookup rec "start" = Some (VStr "") /\
              forall now mb, raises (is_within_next_event now (VDict rec) mb))
             /\
             (lacks_dateTime ee "end" = true ->
              dict_lookup rec "end" = Some (VStr "") /\
              forall now mb, raises (is_within_next_event now (VDict rec) mb)))
          (filter kept events) out.
Proof.
  intros H. apply clean_events_kept in H.
  induction H as [|ee rec kept_events recs Hrec _ IH]; constructor; auto.
  apply clean_event_kept in Hrec as (s & e & Hs & He & ->).
  split; intros Hlack.
  - apply (lacks_dateTime_extracted _ _ _ Hlack) in Hs. subst s.
    split; [reflexivity|]. intros now mb.
    rewrite is_within_next_event_record, strptime_empty.
    destruct (negb (Qle_bool 0 mb)); eexists; reflexivity.
  - apply (lacks_dateTime_extracted _ _ _ Hlack) in He. subst e.
    split; [reflexivity|]. intros now mb.
    rewrite is_within_next_event_record, strptime_empty.
    destruct (negb (Qle_bool 0 mb)); [eexists; reflexivity|].
    destruct (strptime s); eexists; reflexivity.
Qed.

Lemma all_day_event_breaks_window_witness :
  clean_events [sample_all_day] = OK [sample_all_day_record] /\
  dict_lookup sample_all_day_record "start" = Some (VStr "") /\
  forall now mb,
    raises (is_within_next_event now (VDict sample_all_day_record) mb).
Proof.
  split; [reflexivity|].
  pose proof (all_day_event_breaks_window [sample_all_day]
                [sample_all_day_record] eq_refl) as H.
  inversion H as [|ee rec l l' [Hstart _] _]; subst.
  exact (Hstart eq_refl).
Defined.

(** ** Calendar arithmetic *)

Lemma check_fields_spec y m d hh mm ss us :
  check_fields y m d hh mm ss us = true <->
  (1 <= y <= 9999 /\ 1 <= m <= 12 /\ 1 <= d <= _days_in_month y m /\
   0 <= hh <= 23 /\ 0 <= mm <= 59 /\ 0 <= ss <= 59 /\ 0 <= us <= 999999).
Proof.
  unfold check_fields, MINYEAR, MAXYEAR.
  rewrite !andb_true_iff, !Z.leb_le. tauto.
Qed.

Lemma days_before_year_succ y :
  _days_before_year (y + 1) = _days_before_year y + days_in_year y.
Proof.
  unfold _days_before_year, days_in_year, _is_leap.
  replace (y + 1 - 1) with y by lia.
  destruct (y mod 4 =? 0) eqn:E4; destruct (y mod 100 =? 0) eqn:E100;
    destruct (y mod 400 =? 0) eqn:E400; cbn [andb orb negb];
    rewrite ?Z.eqb_eq, ?Z.eqb_neq in *;
    Z.div_mod_to_equations; lia.
Qed.

Lemma days_before_year_mono y1 y2 :
  y1 <= y2 -> _days_before_year y1 <= _days_before_year y2.
Proof.
  unfold _days_before_year. intros H.
  Z.div_mod_to_equations. lia.
Qed.

Lemma month_cases m :
  1 <= m <= 12 ->
  m = 1 \/ m = 2 \/ m = 3 \/ m = 4 \/ m = 5 \/ m = 6 \/
  m = 7 \/ m = 8 \/ m = 9 \/ m = 10 \/ m = 11 \/ m = 12.
Proof. lia. Qed.

Ltac each_month m H :=
  destruct (month_cases m H) as
    [->|[->|[->|[->|[->|[->|[->|[->|[->|[->|[->| ->]]]]]]]]]]].

Ltac month_tables :=
  repeat match goal with
  | |- context [Z.to_nat (Zpos ?p)] =>
      let n := eval vm_compute in (Z.to_nat (Zpos p)) in
      change (Z.to_nat (Zpos p)) with n
  end;
  cbn [nth _DAYS_IN_MONTH _DAYS_BEFORE_MONTH
       Z.eqb Z.ltb Pos.eqb Z.compare Pos.compare Pos.compare_cont andb].

Lemma day_of_year_bounds y m d :
  1 <= m <= 12 -> 1 <= d <= _days_in_month y m ->
  1 <= _days_before_month y m + d <= days_in_year y.
Proof.
  intros Hm. unfold _days_in_month, _days_before_month, days_in_year.
  each_month m Hm; destruct (_is_leap y); month_tables; lia.
Qed.

Lemma days_before_month_mono y m1 d1 m2 :
  1 <= m1 -> m1 < m2 -> m2 <= 12 -> d1 <= _days_in_month y m1 ->
  _days_before_month y m1 + d1 <= _days_before_month y m2.
Proof.
  intros H1 H12 H2.
  assert (Hm1 : 1 <= m1 <= 12) by lia. assert (Hm2 : 1 <= m2 <= 12) by lia.
  unfold _days_in_month, _days_before_month.
  each_month m1 Hm1; each_month m2 Hm2; try lia;
    destruct (_is_leap y); month_tables; lia.
Qed.

(** The ordinal of a date grows with the date. *)
Lemma ymd2ord_year_lt y1 m1 d1 y2 m2 d2 :
  1 <= m1 <= 12 -> 1 <= d1 <= _days_in_month y1 m1 ->
  1 <= m2 <= 12 -> 1 <= d2 <= _days_in_month y2 m2 ->
  y1 < y2 ->
  _ymd2ord y1 m1 d1 < _ymd2ord y2 m2 d2.
Proof.
  intros Hm1 Hd1 Hm2 Hd2 Hy. unfold _ymd2ord.
  pose proof (day_of_year_bounds y1 m1 d1 Hm1 Hd1).
  pose proof (day_of_year_bounds y2 m2 d2 Hm2 Hd2).
  pose proof (days_before_year_succ y1).
  pose proof (days_before_year_mono (y1 + 1) y2 ltac:(lia)).
  lia.
Qed.

Lemma ymd2ord_month_lt y m1 d1 m2 d2 :
  1 <= m1 -> m2 <= 12 -> d1 <= _days_in_month y m1 -> 1 <= d2 ->
  m1 < m2 ->
  _ymd2ord y m1 d1 < _ymd2ord y m2 d2.
Proof.
  intros Hm1 Hm2 Hd1 Hd2 Hm. unfold _ymd2ord.
  pose proof (days_before_month_mono y m1 d1 m2 Hm1 Hm Hm2 Hd1).
  lia.
Qed.

Lemma compare_antisym_gt x y : (x ?= y) = Gt -> y < x.
Proof. intros H. apply Z.compare_gt_iff in H. lia. Qed.

(** Field-wise comparison of two valid datetimes is the comparison of
    their wall clocks. *)
Lemma tuple_cmp_wall a b :
  valid_datetime a -> valid_datetime b ->
  tuple_cmp (fields_tuple a) (fields_tuple b)
  = (wall_micros a ?= wall_micros b).
Proof.
  unfold valid_datetime. rewrite !check_fields_spec.
  intros (Hy1 & Hm1 & Hd1 & Hh1 & Hi1 & Hs1 & Hu1)
         (Hy2 & Hm2 & Hd2 & Hh2 & Hi2 & Hs2 & Hu2).
  unfold fields_tuple, wall_micros, toordinal. cbn [tuple_cmp].
  symmetry.
  destruct (Z.compare_spec (year a) (year b)) as [Ey|Ly|Gy].
  2:{ apply Z.compare_lt_iff.
      pose proof (ymd2ord_year_lt _ _ _ _ _ _ Hm1 Hd1 Hm2 Hd2 Ly). lia. }
  2:{ apply Z.compare_gt_iff.
      pose proof (ymd2ord_year_lt _ _ _ _ _ _ Hm2 Hd2 Hm1 Hd1 Gy). lia. }
  rewrite Ey in *.
  destruct (Z.compare_spec (month a) (month b)) as [Em|Lm|Gm].
  2:{ apply Z.compare_lt_iff.
      pose proof (ymd2ord_month_lt (year b) (month a) (day a) (month b) (day b)
                    ltac:(lia) ltac:(lia) ltac:(lia) ltac:(lia) Lm). lia. }
  2:{ apply Z.compare_gt_iff.
      pose proof (ymd2ord_month_lt (year b) (month b) (day b) (month a) (day a)
                    ltac:(lia) ltac:(lia) ltac:(lia) ltac:(lia) Gm). lia. }
  rewrite Em in *. unfold _ymd2ord.
  destruct (Z.compare_spec (day a) (day b)) as [Ed|Ld|Gd];
    [|apply Z.compare_lt_iff; lia | apply Z.compare_gt_iff; lia].
  rewrite Ed.
  destruct (Z.compare_spec (hour a) (hour b)) as [Eh|Lh|Gh];
    [|apply Z.compare_lt_iff; lia | apply Z.compare_gt_iff; lia].
  rewrite Eh.
  destruct (Z.compare_spec (minute a) (minute b)) as [Ei|Li|Gi];
    [|apply Z.compare_lt_iff; lia | apply Z.compare_gt_iff; lia].
  rewrite Ei.
  destruct (Z.compare_spec (second a) (second b)) as [Es|Ls|Gs];
    [|apply Z.compare_lt_iff; lia | apply Z.compare_gt_iff; lia].
  rewrite Es.
  destruct (Z.compare_spec (microsecond a) (microsecond b)) as [Eu|Lu|Gu];
    [rewrite Eu; apply Z.compare_refl
    |apply Z.compare_lt_iff; lia | apply Z.compare_gt_iff; lia].
Qed.

(** ** Subtraction and comparison of aware datetimes *)

Lemma datetime_sub_aware a b :
  aware a -> aware b ->
  datetime_sub a b = OK (utc_instant a - utc_instant b).
Proof.
  unfold aware, datetime_sub, utc_instant, wall_micros, option_Z_eqb.
  destruct (tzinfo a) as [myoff|]; [|congruence].
  destruct (tzinfo b) as [otoff|]; [|congruence].
  intros _ _.
  destruct (Z.eqb_spec myoff otoff); f_equal; lia.
Qed.

Lemma datetime_le_aware a b :
  valid_datetime a -> valid_datetime b -> aware a -> aware b ->
  datetime_le a b = OK (utc_instant a <=? utc_instant b).
Proof.
  intros Va Vb Aa Ab. unfold datetime_le, datetime_cmp.
  pose proof (datetime_sub_aware a b Aa Ab) as Hsub.
  pose proof (tuple_cmp_wall a b Va Vb) as Hcmp.
  unfold aware, utc_instant, option_Z_eqb in *.
  destruct (tzinfo a) as [myoff|]; [|congruence].
  destruct (tzinfo b) as [otoff|]; [|congruence].
  destruct (Z.eqb_spec myoff otoff) as [->|Hne]; cbn [bind].
  - rewrite Hcmp. f_equal.
    destruct (Z.compare_spec (wall_micros a) (wall_micros b));
      symmetry; [apply Z.leb_le | apply Z.leb_le | apply Z.leb_gt]; lia.
  - rewrite Hsub. cbn [bind]. f_equal.
    set (x := wall_micros a - myoff) in *. set (y := wall_micros b - otoff) in *.
    destruct (Z.ltb_spec (x - y) 0).
    + symmetry. apply Z.leb_le. lia.
    + destruct (Z.eqb_spec (x - y) 0); symmetry;
        [apply Z.leb_le | apply Z.leb_gt]; lia.
Qed.

(** ** What [strptime] returns is a datetime *)

Lemma datetime_new_valid y m d hh mm ss us tz dt :
  datetime_new y m d hh mm ss us tz = OK dt -> valid_datetime dt.
Proof.
  unfold datetime_new, valid_datetime.
  destruct (check_fields y m d hh mm ss us) eqn:E; [|discriminate].
  now intros [= <-].
Qed.

Lemma datetime_strptime_valid data fmt dt :
  datetime_strptime data fmt = OK dt -> valid_datetime dt.
Proof.
  unfold datetime_strptime. destruct data; try discriminate.
  intros H. apply bind_OK in H as (t & _ & H).
  apply bind_OK in H as (tz & _ & H).
  exact (datetime_new_valid _ _ _ _ _ _ _ _ _ H).
Qed.

Lemma strptime_valid str_time dt :
  strptime str_time = OK dt -> valid_datetime dt.
Proof.
  unfold strptime. intros H.
  apply bind_OK in H as (n & _ & H).
  apply bind_OK in H as (dot & _ & H).
  apply bind_OK in H as (last & _ & H).
  destruct (eq_str last "Z").
  - apply bind_OK in H as (dt' & Hdt & [= <-]).
    apply datetime_strptime_valid in Hdt. exact Hdt.
  - apply bind_OK in H as (tail & _ & H).
    apply bind_OK in H as (m & _ & H).
    destruct m.
    + apply bind_OK in H as (s' & _ & H).
      exact (datetime_strptime_valid _ _ _ H).
    + exact (datetime_strptime_valid _ _ _ H).
Qed.

(** ** The activation window *)

Lemma Qmake_le_0 z : (0 <= Qmake z 1000000)%Q <-> 0 <= z.
Proof. unfold Qle. cbn. lia. Qed.



(** ** Decimal digits *)

Lemma digit_cases d :
  0 <= d <= 9 ->
  d = 0 \/ d = 1 \/ d = 2 \/ d = 3 \/ d = 4 \/
  d = 5 \/ d = 6 \/ d = 7 \/ d = 8 \/ d = 9.
Proof. lia. Qed.

Ltac each_digit d H :=
  destruct (digit_cases d H) as
    [->|[->|[->|[->|[->|[->|[->|[->|[->| ->]]]]]]]]].

Lemma is_digit_digit_char d : 0 <= d <= 9 -> is_digit (digit_char d) = true.
Proof. intros H. each_digit d H; reflexivity. Qed.

Lemma digit_val_digit_char d : 0 <= d <= 9 -> digit_val (digit_char d) = d.
Proof. intros H. each_digit d H; reflexivity. Qed.

Lemma in_range_05_digit_char d :
  0 <= d <= 5 -> in_range "0" "5" (digit_char d) = true.
Proof.
  intros H. assert (H9 : 0 <= d <= 9) by lia.
  each_digit d H9; try reflexivity; lia.
Qed.

(** A digit is none of the other characters of a timestamp. *)
Lemma digit_not (x c : ascii) :
  is_digit x = false -> is_digit c = true -> Ascii.eqb c x = false.
Proof.
  intros Hx Hc. destruct (Ascii.eqb_spec c x) as [->|]; congruence.
Qed.

Lemma digit_not_sign c : is_digit c = true -> is_sign c = false.
Proof.
  intros Hc. unfold is_sign.
  rewrite (Ascii.eqb_sym "+" c), (Ascii.eqb_sym "-" c).
  now rewrite !digit_not.
Qed.

Lemma digit_val_bounds c : is_digit c = true -> 0 <= digit_val c <= 9.
Proof.
  unfold is_digit, in_range, digit_val. intros H.
  apply andb_prop in H as [H1 H2].
  apply Nat.leb_le in H1, H2.
  change (nat_of_ascii "0") with 48%nat in H1.
  change (nat_of_ascii "9") with 57%nat in H2. lia.
Qed.

Lemma int_acc_digit c s acc :
  is_digit c = true ->
  int_acc (String c s) acc = int_acc s (acc * 10 + digit_val c).
Proof.
  intros Hc. cbn [int_acc]. now rewrite (digit_not " " c).
Qed.

Lemma int_two_digits n : 0 <= n <= 99 -> int (two_digits n) = n.
Proof.
  intros H. unfold int, two_digits.
  assert (H1 : 0 <= n / 10 <= 9) by (Z.div_mod_to_equations; lia).
  assert (H2 : 0 <= n mod 10 <= 9) by (Z.div_mod_to_equations; lia).
  rewrite !int_acc_digit by now apply is_digit_digit_char.
  rewrite !digit_val_digit_char by assumption.
  cbn [int_acc]. Z.div_mod_to_equations. lia.
Qed.

Lemma int_four_digits n : 0 <= n <= 9999 -> int (four_digits n) = n.
Proof.
  intros H. unfold int, four_digits, two_digits. cbn [append].
  assert (H1 : 0 <= n / 100 / 10 <= 9) by (Z.div_mod_to_equations; lia).
  assert (H2 : 0 <= (n / 100) mod 10 <= 9) by (Z.div_mod_to_equations; lia).
  assert (H3 : 0 <= n mod 100 / 10 <= 9) by (Z.div_mod_to_equations; lia).
  assert (H4 : 0 <= (n mod 100) mod 10 <= 9) by (Z.div_mod_to_equations; lia).
  rewrite !int_acc_digit by now apply is_digit_digit_char.
  rewrite !digit_val_digit_char by assumption.
  cbn [int_acc]. Z.div_mod_to_equations. lia.
Qed.

(** The value of a text of digits is bounded by its length. *)
Lemma int_acc_bounds s : forall acc,
  all_digits s = true -> 0 <= acc ->
  0 <= int_acc s acc < (acc + 1) * 10 ^ Z.of_nat (String.length s).
Proof.
  induction s as [|c s IH]; intros acc Hs Hacc.
  - cbn. lia.
  - cbn [all_digits] in Hs. apply andb_prop in Hs as [Hc Hs].
    rewrite (int_acc_digit _ _ _ Hc).
    pose proof (digit_val_bounds c Hc) as Hv.
    specialize (IH (acc * 10 + digit_val c) Hs ltac:(lia)).
    cbn [String.length]. rewrite Nat2Z.inj_succ, Z.pow_succ_r by lia.
    nia.
Qed.

Lemma all_digits_pad s n :
  all_digits s = true -> all_digits (pad_zeros s n) = true.
Proof.
  revert s. induction n as [|n IH]; intros s Hs; cbn [pad_zeros]; auto.
  apply IH. clear IH. induction s as [|c s IHs]; [reflexivity|].
  cbn [all_digits append] in *. apply andb_prop in Hs as [Hc Hs].
  now rewrite Hc, IHs.
Qed.

Lemma length_append (a b : string) :
  String.length (a ++ b) = (String.length a + String.length b)%nat.
Proof. induction a as [|c a IH]; cbn; auto. Qed.

Lemma length_pad s n :
  String.length (pad_zeros s n) = (String.length s + n)%nat.
Proof.
  revert s. induction n as [|n IH]; intros s; cbn [pad_zeros]; [lia|].
  rewrite IH, length_append. cbn. lia.
Qed.

Lemma fraction_micros_bounds f :
  fraction_ok f = true -> 0 <= fraction_micros f <= 999999.
Proof.
  destruct f as [ds|]; cbn [fraction_ok fraction_micros]; [|lia].
  intros H. apply andb_prop in H as [H H6]. apply andb_prop in H as [Hd H1].
  apply Nat.leb_le in H1, H6.
  pose proof (int_acc_bounds (pad_zeros ds (6 - String.length ds)) 0
                (all_digits_pad _ _ Hd) ltac:(lia)) as Hb.
  rewrite length_pad in Hb.
  replace (String.length ds + (6 - String.length ds))%nat with 6%nat in Hb by lia.
  unfold int. change (10 ^ Z.of_nat 6) with 1000000 in Hb. lia.
Qed.

(** ** Matching the directives on rendered fields *)

Lemma Z_range_enum (P : Z -> Prop) lo hi :
  Forall P (map (fun i => lo + Z.of_nat i) (seq 0 (Z.to_nat (hi - lo + 1)))) ->
  forall n, lo <= n <= hi -> P n.
Proof.
  intros HF n Hn. rewrite Forall_forall in HF. apply HF.
  apply in_map_iff. exists (Z.to_nat (n - lo)). split; [lia|].
  apply in_seq. lia.
Qed.

Ltac enum_range lo hi tac :=
  match goal with
  | |- forall n, _ <= n <= _ -> @?P n => refine (Z_range_enum P lo hi _)
  end;
  let l := eval vm_compute in
    (map (fun i => lo + Z.of_nat i) (seq 0 (Z.to_nat (hi - lo + 1)))) in
  change (map (fun i => lo + Z.of_nat i) (seq 0 (Z.to_nat (hi - lo + 1))))
    with l;
  repeat (apply Forall_cons; [tac|]); apply Forall_nil.

Ltac two_digit_case :=
  let Hk := fresh "Hk" in
  intros ? ? ? ? Hk; vm_compute in Hk |- *; rewrite Hk; reflexivity.

Lemma directive_m :
  exists r, directive_regex "m" = Some r /\ takes_two_digits r 1 12.
Proof.
  eexists. split; [reflexivity|]. unfold takes_two_digits.
  enum_range 1 12 two_digit_case.
Qed.

Lemma directive_d :
  exists r, directive_regex "d" = Some r /\ takes_two_digits r 1 31.
Proof.
  eexists. split; [reflexivity|]. unfold takes_two_digits.
  enum_range 1 31 two_digit_case.
Qed.

Lemma directive_H :
  exists r, directive_regex "H" = Some r /\ takes_two_digits r 0 23.
Proof.
  eexists. split; [reflexivity|]. unfold takes_two_digits.
  enum_range 0 23 two_digit_case.
Qed.

Lemma directive_M :
  exists r, directive_regex "M" = Some r /\ takes_two_digits r 0 59.
Proof.
  eexists. split; [reflexivity|]. unfold takes_two_digits.
  enum_range 0 59 two_digit_case.
Qed.

Lemma directive_S :
  exists r, directive_regex "S" = Some r /\ takes_two_digits r 0 59.
Proof.
  eexists. split; [reflexivity|]. unfold takes_two_digits.
  enum_range 0 59 two_digit_case.
Qed.

Lemma re_d_digit {A} c s (k : string -> string -> option A) :
  is_digit c = true ->
  re_match re_d (String c s) k = k (String c EmptyString) s.
Proof. intros H. unfold re_d. cbn [re_match]. now rewrite H. Qed.

Lemma directive_Y :
  exists r, directive_regex "Y" = Some r /\
  forall y, 0 <= y <= 9999 ->
  forall (A : Type) (rest : string) (k : string -> string -> option A),
    re_match r (four_digits y ++ rest) k = k (four_digits y) rest.
Proof.
  eexists. split; [reflexivity|]. intros y Hy A rest k.
  unfold four_digits, two_digits. cbn [append re_match].
  assert (H1 : 0 <= y / 100 / 10 <= 9) by (Z.div_mod_to_equations; lia).
  assert (H2 : 0 <= (y / 100) mod 10 <= 9) by (Z.div_mod_to_equations; lia).
  assert (H3 : 0 <= y mod 100 / 10 <= 9) by (Z.div_mod_to_equations; lia).
  assert (H4 : 0 <= (y mod 100) mod 10 <= 9) by (Z.div_mod_to_equations; lia).
  rewrite !re_d_digit by now apply is_digit_digit_char.
  reflexivity.
Qed.

Lemma re_upto_needs_digit {A} n s (k : string -> string -> option A) :
  no_leading_digit s = true -> re_match (re_upto re_d n) s k = None.
Proof.
  intros H. destruct n; cbn [re_upto re_match re_d];
    destruct s as [|c s]; auto; cbn [no_leading_digit] in H;
    apply negb_true_iff in H; now rewrite H.
Qed.

(** [[0-9]{1,n+1}] is greedy: it takes a run of digits whole when the run
    is as long as allowed or the input does not go on with a digit. *)
Lemma re_upto_digits n : forall ds rest (A : Type)
    (k : string -> string -> option A) (x : A),
  all_digits ds = true ->
  (1 <= String.length ds <= S n)%nat ->
  String.length ds = S n \/ no_leading_digit rest = true ->
  k ds rest = Some x ->
  re_match (re_upto re_d n) (ds ++ rest) k = Some x.
Proof.
  induction n as [|n IH]; intros ds rest A k x Hd Hlen Hend Hk;
    destruct ds as [|c ds]; cbn [String.length] in Hlen; try lia;
    cbn [all_digits] in Hd; apply andb_prop in Hd as [Hc Hd].
  - destruct ds; [|cbn [String.length] in Hlen; lia].
    cbn [re_upto append]. now rewrite re_d_digit.
  - cbn [re_upto append re_match re_opt]. rewrite re_d_digit by assumption.
    cbn [re_match].
    destruct ds as [|c' ds].
    + cbn [append]. rewrite re_upto_needs_digit; [exact Hk|].
      destruct Hend as [Hend|Hend]; [cbn in Hend; lia | exact Hend].
    + rewrite (IH (String c' ds) rest A
                 (fun t2 s2 => k (String c EmptyString ++ t2)%string s2) x);
        auto.
      * cbn [String.length] in *. lia.
      * destruct Hend as [Hend|Hend]; [left|right; exact Hend].
        cbn [String.length] in *. lia.
Qed.

Lemma directive_f :
  exists r, directive_regex "f" = Some r /\
  forall ds, fraction_ok (Some ds) = true ->
  forall (A : Type) (rest : string) (k : string -> string -> option A) (x : A),
    no_leading_digit rest = true ->
    k ds rest = Some x ->
    re_match r (ds ++ rest) k = Some x.
Proof.
  eexists. split; [reflexivity|]. intros ds Hf A rest k x Hrest Hk.
  cbn [fraction_ok] in Hf.
  apply andb_prop in Hf as [Hf H6]. apply andb_prop in Hf as [Hd H1].
  apply Nat.leb_le in H1, H6.
  apply re_upto_digits; auto.
Qed.

Lemma directive_z :
  exists r, directive_regex "z" = Some r /\
  forall (west : bool) hh mm, 0 <= hh <= 99 -> 0 <= mm <= 59 ->
  forall (A : Type) (rest : string) (k : string -> string -> option A),
    re_match r (String (if west then "-" else "+")%char
                       (two_digits hh ++ two_digits mm ++ rest)) k
    = k (String (if west then "-" else "+")%char
                (two_digits hh ++ two_digits mm)) rest.
Proof.
  eexists. split; [reflexivity|]. intros west hh mm Hh Hm A rest k.
  unfold two_digits. cbn [append re_match].
  assert (H1 : 0 <= hh / 10 <= 9) by (Z.div_mod_to_equations; lia).
  assert (H2 : 0 <= hh mod 10 <= 9) by (Z.div_mod_to_equations; lia).
  assert (H3 : 0 <= mm / 10 <= 5) by (Z.div_mod_to_equations; lia).
  assert (H4 : 0 <= mm mod 10 <= 9) by (Z.div_mod_to_equations; lia).
  unfold re_rng, re_chr. cbn [re_match].
  rewrite !re_d_digit by now apply is_digit_digit_char.
  rewrite (in_range_05_digit_char _ H3).
  destruct west; cbn [Ascii.eqb Bool.eqb append];
    match goal with |- context [k ?t rest] => destruct (k t rest) end;
    reflexivity.
Qed.

Lemma gmtoff_of_rendered (west : bool) hh mm :
  0 <= hh <= 99 -> 0 <= mm <= 59 ->
  gmtoff_of (String (if west then "-" else "+")%char
                    (two_digits hh ++ two_digits mm))
  = (if west then -1 else 1) * (hh * 3600 + mm * 60).
Proof.
  intros Hh Hm. unfold gmtoff_of.
  change (substring 1 2 (String (if west then "-" else "+")%char
                                (two_digits hh ++ two_digits mm)))
    with (two_digits hh).
  change (substring 3 2 (String (if west then "-" else "+")%char
                                (two_digits hh ++ two_digits mm)))
    with (two_digits mm).
  rewrite !int_two_digits by lia.
  destruct west;
    match goal with
    | |- context [String.prefix ?a ?b] =>
        let v := eval vm_compute in (String.prefix a b) in
        change (String.prefix a b) with v
    end; cbv iota; lia.
Qed.

(** ** Matching a format *)

Lemma match_tokens_dir c r toks s t :
  directive_regex c = Some r ->
  match_tokens (TDir c :: toks) s t
  = re_match r s (fun txt s' => match_tokens toks s' (set_field c txt t)).
Proof. intros H. cbn [match_tokens]. now rewrite H. Qed.

Lemma match_tokens_lit c c' toks s t :
  ci_eqb c c' = true ->
  match_tokens (TLit c :: toks) (String c' s) t = match_tokens toks s t.
Proof. intros H. cbn [match_tokens]. now rewrite H. Qed.

(** The date and time of a rendered timestamp are read back, whatever
    tokens and input follow. *)
Lemma match_tokens_base y m d hh mm ss toks rest t x :
  check_fields y m d hh mm ss 0 = true ->
  match_tokens toks rest
    (mkTm y m d hh mm ss (tm_frac t) (tm_gmtoff t)) = Some x ->
  match_tokens (base_tokens ++ toks) (iso_base y m d hh mm ss ++ rest) t
  = Some x.
Proof.
  intros Hc Hk. apply check_fields_spec in Hc.
  destruct Hc as (Hy & Hm & Hd & Hhh & Hmm & Hss & _).
  destruct t as [y0 m0 d0 hh0 mm0 ss0 fr0 off0].
  cbn [tm_frac tm_gmtoff] in Hk.
  assert (Hd31 : 1 <= d <= 31).
  { pose proof (day_of_year_bounds y m d Hm Hd) as _.
    revert Hd. unfold _days_in_month.
    each_month m Hm; destruct (_is_leap y); month_tables; lia. }
  unfold base_tokens. cbn [app].
  change (iso_base y m d hh mm ss ++ rest)%string
    with (four_digits y ++ String "-" (two_digits m ++ String "-"
           (two_digits d ++ String "T" (two_digits hh ++ String ":"
             (two_digits mm ++ String ":" (two_digits ss ++ rest))))))%string.
  destruct directive_Y as (rY & EY & HY).
  destruct directive_m as (rm & Em & Hrm).
  destruct directive_d as (rd & Ed & Hrd).
  destruct directive_H as (rH & EH & HrH).
  destruct directive_M as (rM & EM & HrM).
  destruct directive_S as (rS & ES & HrS).
  rewrite (match_tokens_dir _ _ _ _ _ EY), HY by lia.
  rewrite match_tokens_lit by reflexivity.
  rewrite (match_tokens_dir _ _ _ _ _ Em). apply Hrm; [lia|].
  rewrite match_tokens_lit by reflexivity.
  rewrite (match_tokens_dir _ _ _ _ _ Ed). apply Hrd; [lia|].
  rewrite match_tokens_lit by reflexivity.
  rewrite (match_tokens_dir _ _ _ _ _ EH). apply HrH; [lia|].
  rewrite match_tokens_lit by reflexivity.
  rewrite (match_tokens_dir _ _ _ _ _ EM). apply HrM; [lia|].
  rewrite match_tokens_lit by reflexivity.
  rewrite (match_tokens_dir _ _ _ _ _ ES). apply HrS; [lia|].
  cbn [set_field tm_year tm_mon tm_mday tm_hour tm_min tm_sec tm_frac
       tm_gmtoff].
  rewrite int_four_digits, !int_two_digits by lia.
  exact Hk.
Qed.

(** ** The format detection of [strptime] *)

Lemma get_none s : forall n, (String.length s <= n)%nat -> String.get n s = None.
Proof.
  induction s as [|c s IH]; intros n H; [reflexivity|].
  destruct n; cbn [String.length] in H; [lia|].
  cbn [String.get]. apply IH. lia.
Qed.

Lemma get_some s : forall n, (n < String.length s)%nat ->
  exists c, String.get n s = Some c.
Proof.
  induction s as [|c s IH]; intros n H; cbn [String.length] in H; [lia|].
  destruct n; cbn [String.get]; [eauto|]. apply IH. lia.
Qed.

Lemma get_last c s :
  String.get (String.length s) (String c s) = last_char (String c s).
Proof.
  revert c. induction s as [|c' s IH]; intros c; [reflexivity|].
  cbn [String.length String.get last_char]. apply (IH c').
Qed.

Lemma eq_str_char c x :
  eq_str (VStr (String c EmptyString)) (String x EmptyString) = Ascii.eqb c x.
Proof. cbn. apply andb_true_r. Qed.

Lemma py_index_19 s :
  (if 20 <=? Z.of_nat (String.length s)
   then c <- py_index (VStr s) 19 ;; OK (eq_str c ".")
   else OK false)
  = OK (dot_at_19 s).
Proof.
  unfold dot_at_19, py_index.
  destruct (Z.leb_spec 20 (Z.of_nat (String.length s))) as [H|H].
  - change (19 <? 0) with false. cbv iota.
    replace (Z.of_nat (String.length s) <=? 19) with false
      by (symmetry; apply Z.leb_gt; lia).
    change (19 <? 0) with false.
    change (Z.to_nat 19) with 19%nat. cbn [orb].
    destruct (get_some s 19 ltac:(lia)) as [c ->].
    cbn [bind]. now rewrite eq_str_char.
  - rewrite get_none by lia. reflexivity.
Qed.

Lemma py_index_last s :
  py_index (VStr s) (-1)
  = match last_char s with
    | Some c => OK (VStr (String c EmptyString))
    | None => Raise IndexError
    end.
Proof.
  unfold py_index. change (-1 <? 0) with true. cbv iota.
  destruct s as [|c s]; [reflexivity|].
  cbn [String.length].
  replace (-1 + Z.of_nat (S (String.length s)) <? 0) with false
    by (symmetry; apply Z.ltb_ge; lia).
  replace (Z.of_nat (S (String.length s))
           <=? -1 + Z.of_nat (S (String.length s))) with false
    by (symmetry; apply Z.leb_gt; lia).
  replace (Z.to_nat (-1 + Z.of_nat (S (String.length s))))
    with (String.length s) by lia.
  cbn [orb]. rewrite get_last.
  assert (H : exists c', last_char (String c s) = Some c').
  { clear. revert c. induction s as [|c' s IH]; intros c; cbn [last_char];
      eauto. }
  destruct H as [c' ->]. reflexivity.
Qed.

(** [strptime] on a string, by the three signals it looks for. *)
Lemma strptime_str s :
  strptime (VStr s)
  = match last_char s with
    | None => Raise IndexError
    | Some c =>
        let fmt := if dot_at_19 s then (base_format ++ ".%f")%string
                   else base_format in
        if Ascii.eqb c "Z" then
          dt <- datetime_strptime (VStr s) (fmt ++ "Z")%string ;;
          OK (replace_tzinfo dt (Some UTC))
        else if re_test offset_re (str_last 6 s) then
          datetime_strptime
            (VStr (str_drop_last 6 s ++ str_remove ":" (str_last 6 s))%string)
            (fmt ++ "%z")%string
        else datetime_strptime (VStr s) fmt
    end.
Proof.
  unfold strptime. cbn [py_len bind]. rewrite py_index_19. cbn [bind].
  rewrite py_index_last.
  destruct (last_char s) as [c|]; [|reflexivity].
  cbn [bind]. rewrite eq_str_char.
  destruct (Ascii.eqb c "Z"); [reflexivity|].
  cbn [py_last bind py_re_match].
  destruct (re_test offset_re (str_last 6 s)); reflexivity.
Qed.

(** ** Rendered timestamps *)

Lemma append_assoc (a b c : string) :
  ((a ++ b) ++ c = a ++ (b ++ c))%string.
Proof. induction a as [|x a IH]; cbn; congruence. Qed.

Lemma append_empty_r (a : string) : (a ++ "" = a)%string.
Proof. induction a as [|x a IH]; cbn; congruence. Qed.

Lemma last_char_app x y :
  y <> EmptyString -> last_char (x ++ y) = last_char y.
Proof.
  intros Hy. induction x as [|c x IH]; [reflexivity|].
  cbn [append last_char]. rewrite IH.
  destruct (x ++ y)%string eqn:E; [|reflexivity].
  destruct x; cbn in E; congruence.
Qed.

Lemma str_last_app n x y :
  String.length y = n -> str_last n (x ++ y) = y.
Proof.
  intros <-. unfold str_last. rewrite length_append.
  replace (String.length x + String.length y - String.length y)%nat
    with (String.length x) by lia.
  induction x as [|c x IH]; cbn [String.length str_skip append]; auto.
Qed.

Lemma str_drop_last_app n x y :
  String.length y = n -> str_drop_last n (x ++ y) = x.
Proof.
  intros <-. unfold str_drop_last. rewrite length_append.
  replace (String.length x + String.length y - String.length y)%nat
    with (String.length x) by lia.
  induction x as [|c x IH]; cbn [String.length str_take append].
  - reflexivity.
  - now rewrite IH.
Qed.

Lemma str_skip_app x y : str_skip (String.length x) (x ++ y) = y.
Proof.
  induction x as [|c x IH]; cbn [String.length str_skip append]; auto.
Qed.

Lemma str_last_app_long n x y :
  (n <= String.length y)%nat -> str_last n (x ++ y) = str_last n y.
Proof.
  intros H. unfold str_last. rewrite length_append.
  replace (String.length x + String.length y - n)%nat
    with (String.length x + (String.length y - n))%nat by lia.
  generalize (String.length y - n)%nat as k. intros k.
  induction x as [|c x IH]; cbn [String.length Nat.add append]; auto.
Qed.

Lemma no_sign_skip s : forall n, no_sign s = true -> no_sign (str_skip n s) = true.
Proof.
  induction s as [|c s IH]; intros [|n] H; cbn [str_skip]; auto.
  cbn [no_sign] in H. apply andb_prop in H as [_ H]. now apply IH.
Qed.

(** The offset pattern starts with a sign. *)
Lemma offset_re_needs_sign s :
  no_sign s = true -> re_test offset_re s = false.
Proof.
  destruct s as [|c s]; [reflexivity|].
  cbn [no_sign]. intros H. apply andb_prop in H as [H _].
  apply negb_true_iff in H. unfold is_sign in H.
  apply orb_false_iff in H as [H1 H2].
  unfold re_test, offset_re, re_chr. cbn [re_match]. now rewrite H1, H2.
Qed.

Lemma no_sign_digits s : all_digits s = true -> no_sign s = true.
Proof.
  induction s as [|c s IH]; [reflexivity|].
  cbn [all_digits no_sign]. intros H. apply andb_prop in H as [Hc Hs].
  now rewrite (digit_not_sign c Hc), IH.
Qed.

Lemma no_sign_app a b :
  no_sign a = true -> no_sign b = true -> no_sign (a ++ b) = true.
Proof.
  intros Ha Hb. induction a as [|c a IH]; [exact Hb|].
  cbn [no_sign append] in *. apply andb_prop in Ha as [Hc Ha].
  now rewrite Hc, IH.
Qed.

Lemma last_char_digits ds :
  all_digits ds = true -> ds <> EmptyString ->
  exists c, last_char ds = Some c /\ is_digit c = true.
Proof.
  induction ds as [|c ds IH]; intros Hd Hne; [congruence|].
  cbn [all_digits] in Hd. apply andb_prop in Hd as [Hc Hd].
  destruct ds as [|c' ds]; [exists c; auto|].
  destruct (IH Hd ltac:(discriminate)) as (x & Hx & Hdx).
  exists x. split; [exact Hx | exact Hdx].
Qed.

Lemma two_digits_digits n :
  0 <= n <= 99 -> all_digits (two_digits n) = true.
Proof.
  intros H. unfold two_digits. cbn [all_digits].
  rewrite !is_digit_digit_char by (Z.div_mod_to_equations; lia). reflexivity.
Qed.

Lemma tokenize_formats f z :
  tokenize (fraction_format f ++ zone_format z)
  = Some (base_tokens ++ fraction_tokens f ++ zone_tokens z)%list.
Proof. destruct f, z; reflexivity. Qed.

Lemma no_leading_digit_zone z : no_leading_digit (zone_data z) = true.
Proof. destruct z as [| |[] hh mm]; reflexivity. Qed.

Lemma match_tokens_zone z y m d hh mm ss fr :
  zone_ok z = true ->
  match_tokens (zone_tokens z) (zone_data z) (mkTm y m d hh mm ss fr None)
  = Some (mkTm y m d hh mm ss fr (zone_gmtoff z), EmptyString).
Proof.
  destruct z as [| |west zh zm]; intros Hz; try reflexivity.
  cbn [zone_ok] in Hz. rewrite !andb_true_iff, !Z.leb_le in Hz.
  cbn [zone_tokens zone_data zone_gmtoff].
  destruct directive_z as (rz & Ez & Hrz).
  rewrite (match_tokens_dir _ _ _ _ _ Ez).
  change (two_digits zh ++ two_digits zm)%string
    with (two_digits zh ++ two_digits zm ++ EmptyString)%string at 1.
  rewrite Hrz by lia.
  cbn [match_tokens set_field tm_year tm_mon tm_mday tm_hour tm_min tm_sec
       tm_frac].
  rewrite gmtoff_of_rendered by lia. reflexivity.
Qed.

Lemma match_tokens_fraction f toks rest y m d hh mm ss x :
  fraction_ok f = true ->
  no_leading_digit rest = true ->
  match_tokens toks rest (mkTm y m d hh mm ss (fraction_micros f) None)
  = Some x ->
  match_tokens (fraction_tokens f ++ toks) (fraction_suffix f ++ rest)
               (mkTm y m d hh mm ss 0 None)
  = Some x.
Proof.
  destruct f as [ds|]; intros Hf Hrest Hk; [|exact Hk].
  cbn [fraction_tokens fraction_suffix app append].
  rewrite match_tokens_lit by reflexivity.
  destruct directive_f as (rf & Ef & Hrf).
  rewrite (match_tokens_dir _ _ _ _ _ Ef).
  apply Hrf; auto.
Qed.

(** The low-level parser reads a rendered timestamp back. *)
Lemma datetime_strptime_rendered y m d hh mm ss f z :
  check_fields y m d hh mm ss 0 = true ->
  fraction_ok f = true -> zone_ok z = true ->
  datetime_strptime
    (VStr (iso_base y m d hh mm ss ++ fraction_suffix f ++ zone_data z))
    (fraction_format f ++ zone_format z)
  = OK (mkDatetime y m d hh mm ss (fraction_micros f)
          (option_map (fun g => g * 1000000) (zone_gmtoff z))).
Proof.
  intros Hc Hf Hz.
  unfold datetime_strptime, _strptime.
  rewrite tokenize_formats.
  rewrite (match_tokens_base y m d hh mm ss _ _ tm0
             (mkTm y m d hh mm ss (fraction_micros f) (zone_gmtoff z),
              EmptyString) Hc).
  2:{ cbn [tm0 tm_frac tm_gmtoff].
      apply match_tokens_fraction; auto using no_leading_digit_zone.
      now apply match_tokens_zone. }
  cbn [bind tm_year tm_mon tm_mday tm_hour tm_min tm_sec tm_frac tm_gmtoff].
  assert (Hc' : check_fields y m d hh mm ss (fraction_micros f) = true).
  { pose proof (fraction_micros_bounds f Hf).
    apply check_fields_spec. apply check_fields_spec in Hc. tauto. }
  destruct z as [| |west zh zm]; cbn [zone_gmtoff option_map bind];
    unfold datetime_new; rewrite ?Hc'; try reflexivity.
  cbn [zone_ok] in Hz. rewrite !andb_true_iff, !Z.leb_le in Hz.
  unfold timezone_new.
  replace ((-86400 <? (if west then -1 else 1) * (zh * 3600 + zm * 60))
           && ((if west then -1 else 1) * (zh * 3600 + zm * 60) <? 86400))
    with true.
  - reflexivity.
  - symmetry. apply andb_true_iff. rewrite !Z.ltb_lt. destruct west; lia.
Qed.

Lemma dot_at_19_rendered y m d hh mm ss f z :
  dot_at_19 (iso_string y m d hh mm ss f z)
  = match f with Some _ => true | None => false end.
Proof.
  unfold dot_at_19, iso_string.
  change (String.get 19 (iso_base y m d hh mm ss
                         ++ fraction_suffix f ++ zone_suffix z))
    with (String.get 0 (fraction_suffix f ++ zone_suffix z)).
  destruct f as [ds|]; [reflexivity|].
  destruct z as [| |[] zh zm]; reflexivity.
Qed.

Lemma last_char_zulu y m d hh mm ss f :
  last_char (iso_string y m d hh mm ss f Zulu) = Some "Z"%char.
Proof.
  unfold iso_string. rewrite <- append_assoc.
  rewrite last_char_app by discriminate. reflexivity.
Qed.

Lemma last_char_offset y m d hh mm ss f west zh zm :
  last_char (iso_string y m d hh mm ss f (Offset west zh zm))
  = Some (digit_char (zm mod 10)).
Proof.
  unfold iso_string. rewrite <- append_assoc.
  rewrite last_char_app by discriminate. reflexivity.
Qed.

Lemma last_char_naive y m d hh mm ss f :
  0 <= ss <= 59 -> fraction_ok f = true ->
  exists c, last_char (iso_string y m d hh mm ss f Naive) = Some c
            /\ is_digit c = true.
Proof.
  intros Hss Hf. unfold iso_string. cbn [zone_suffix].
  rewrite append_empty_r.
  destruct f as [ds|]; cbn [fraction_suffix].
  - cbn [fraction_ok] in Hf.
    apply andb_prop in Hf as [Hf _]. apply andb_prop in Hf as [Hd H1].
    apply Nat.leb_le in H1.
    assert (Hne : ds <> EmptyString) by (destruct ds; cbn in H1; [lia|discriminate]).
    destruct (last_char_digits ds Hd Hne) as (c & Hc & Hdc).
    exists c. split; [|exact Hdc].
    rewrite last_char_app by discriminate.
    change (String "." ds) with ("." ++ ds)%string.
    now rewrite last_char_app.
  - rewrite append_empty_r. exists (digit_char (ss mod 10)).
    split; [reflexivity|].
    apply is_digit_digit_char. Z.div_mod_to_equations; lia.
Qed.

Lemma offset_suffix_matches west zh zm :
  0 <= zh <= 99 -> 0 <= zm <= 99 ->
  re_test offset_re (zone_suffix (Offset west zh zm)) = true.
Proof.
  intros Hh Hm. unfold re_test, offset_re, zone_suffix, two_digits, re_chr.
  cbn [append re_match].
  rewrite !re_d_digit
    by (apply is_digit_digit_char; Z.div_mod_to_equations; lia).
  destruct west; reflexivity.
Qed.

Lemma offset_suffix_colon west zh zm :
  0 <= zh <= 99 -> 0 <= zm <= 99 ->
  str_remove ":" (zone_suffix (Offset west zh zm))
  = zone_data (Offset west zh zm).
Proof.
  intros Hh Hm. unfold zone_suffix, zone_data, two_digits.
  cbn [append str_remove].
  rewrite !(digit_not ":" (digit_char _))
    by (try reflexivity; apply is_digit_digit_char;
        Z.div_mod_to_equations; lia).
  destruct west; reflexivity.
Qed.

Lemma naive_has_no_offset y m d hh mm ss f :
  0 <= hh <= 23 -> 0 <= mm <= 59 -> 0 <= ss <= 59 ->
  fraction_ok f = true ->
  re_test offset_re (str_last 6 (iso_string y m d hh mm ss f Naive)) = false.
Proof.
  intros Hhh Hmm Hss Hf. unfold iso_string. cbn [zone_suffix].
  rewrite append_empty_r.
  change (iso_base y m d hh mm ss ++ fraction_suffix f)%string
    with ((four_digits y ++ "-" ++ two_digits m ++ "-" ++ two_digits d ++ "T")
          ++ (two_digits hh ++ ":" ++ two_digits mm ++ ":" ++ two_digits ss
              ++ fraction_suffix f))%string.
  rewrite str_last_app_long
    by (unfold two_digits; cbn [append String.length]; lia).
  unfold str_last. apply offset_re_needs_sign, no_sign_skip.
  assert (Hfs : no_sign (fraction_suffix f) = true).
  { destruct f as [ds|]; [|reflexivity].
    cbn [fraction_ok] in Hf.
    apply andb_prop in Hf as [Hf _]. apply andb_prop in Hf as [Hd _].
    cbn [fraction_suffix no_sign]. now rewrite (no_sign_digits ds Hd). }
  repeat (apply no_sign_app;
          [first [ apply no_sign_digits, two_digits_digits; lia
                 | reflexivity ] |]).
  exact Hfs.
Qed.

(** ** The three shapes of a timestamp *)

Lemma strptime_rendered y m d hh mm ss f z :
  check_fields y m d hh mm ss 0 = true ->
  fraction_ok f = true -> zone_ok z = true ->
  strptime (VStr (iso_string y m d hh mm ss f z))
  = OK (mkDatetime y m d hh mm ss (fraction_micros f) (zone_tzinfo z)).
Proof.
  intros Hc Hf Hz.
  pose proof (proj1 (check_fields_spec _ _ _ _ _ _ _) Hc)
    as (_ & _ & _ & Hhh & Hmm & Hss & _).
  rewrite strptime_str, dot_at_19_rendered.
  assert (Hfmt : (if match f with Some _ => true | None => false end
                  then (base_format ++ ".%f")%string else base_format)
                 = fraction_format f) by (destruct f; reflexivity).
  destruct z as [| |west zh zm].
  - (* naive *)
    destruct (last_char_naive y m d hh mm ss f Hss Hf) as (c & -> & Hdc).
    cbv zeta. rewrite Hfmt.
    rewrite (digit_not "Z" c) by (reflexivity || assumption).
    rewrite naive_has_no_offset by assumption.
    pose proof (datetime_strptime_rendered y m d hh mm ss f Naive Hc Hf Hz)
      as H.
    cbn [zone_data zone_format zone_gmtoff option_map] in H.
    rewrite !append_empty_r in H.
    unfold iso_string. cbn [zone_suffix]. rewrite append_empty_r. exact H.
  - (* UTC *)
    rewrite last_char_zulu. cbv zeta. rewrite Hfmt.
    change (Ascii.eqb "Z" "Z") with true. cbv iota.
    pose proof (datetime_strptime_rendered y m d hh mm ss f Zulu Hc Hf Hz)
      as H.
    cbn [zone_data zone_format zone_suffix zone_gmtoff option_map] in H.
    unfold iso_string. cbn [zone_suffix]. rewrite H. reflexivity.
  - (* fixed offset *)
    pose proof Hz as Hz'. cbn [zone_ok] in Hz'.
    rewrite !andb_true_iff, !Z.leb_le in Hz'.
    rewrite last_char_offset. cbv zeta. rewrite Hfmt.
    rewrite (digit_not "Z")
      by (try reflexivity; apply is_digit_digit_char;
          Z.div_mod_to_equations; lia).
    unfold iso_string. rewrite <- append_assoc.
    rewrite str_last_app, str_drop_last_app by reflexivity.
    rewrite offset_suffix_matches, offset_suffix_colon by lia.
    rewrite append_assoc.
    pose proof (datetime_strptime_rendered y m d hh mm ss f (Offset west zh zm)
                  Hc Hf Hz) as H.
    cbn [zone_format] in H. rewrite H.
    cbn [zone_gmtoff option_map zone_tzinfo]. do 2 f_equal; lia.
Qed.



(** The bounds of the window on the event of the test suite, which runs
    from 14:00:00 to 14:30:00 UTC, with fifteen minutes of notice. *)
Example window_bounds :
  let at_time hh mm ss := VDatetime (mkDatetime 2001 2 3 hh mm ss 0 (Some UTC)) in
  let event := VDict sample_window_event in
  is_within_next_event (at_time 13 45 0) event 15 = OK true
  /\ is_within_next_event (at_time 13 44 59) event 15 = OK false
  /\ is_within_next_event (at_time 14 30 0) event 15 = OK true
  /\ is_within_next_event (at_time 14 30 1) event 15 = OK false.
Proof. repeat split; reflexivity. Qed.

(** * Further properties *)

(** ** [read_value], [get_key] and the extraction of the keys *)

Lemma read_value_tuple_scalar key : forall d,
  nested_dicts d key = false ->
  read_value_tuple (VDict d) key = Raise AttributeError.
Proof.
  induction key as [|k rest IH]; intros d Hnd; [discriminate|].
  destruct rest as [|k' rest']; [discriminate|].
  cbn [read_value_tuple nested_dicts py_get bind] in *.
  unfold dict_get.
  destruct (dict_lookup d k) as [v|]; [|discriminate].
  destruct v; try reflexivity.
  - destruct rest'; reflexivity.
  - destruct rest'; reflexivity.
  - destruct rest'; reflexivity.
  - destruct rest'; reflexivity.
  - destruct rest'; reflexivity.
  - now apply IH.
  - destruct rest'; reflexivity.
Qed.

(** X1: on a dictionary and a non-empty key path, [read_value] raises
    exactly when a value that is present before the last key is not a
    dictionary, and the error is then [AttributeError]; a missing key
    never makes it raise. *)
Theorem read_value_raises_iff (d : dict) (key : keypath) :
  path_of key <> [] ->
  (raises (read_value (VDict d) key) <-> nested_dicts d (path_of key) = false)
  /\ (forall e, read_value (VDict d) key = Raise e -> e = AttributeError).
Proof.
  intros Hne.
  assert (Hrv : read_value (VDict d) key
                = read_value_tuple (VDict d) (path_of key))
    by (destruct key; reflexivity).
  rewrite Hrv.
  destruct (nested_dicts d (path_of key)) eqn:Hnd.
  - rewrite (read_value_tuple_nested _ _ Hne Hnd).
    split; [split; [intros [e He]; discriminate | discriminate]|].
    intros e He. discriminate.
  - rewrite (read_value_tuple_scalar _ _ Hnd).
    split; [split; [reflexivity | intros _; eexists; reflexivity]|].
    now intros e [= <-].
Qed.

Lemma read_value_raises_iff_witness :
  (raises (read_value (VDict sample_event) (KTuple ["summary"; "dateTime"]))
   <-> nested_dicts sample_event ["summary"; "dateTime"] = false)
  /\ (forall e,
        read_value (VDict sample_event) (KTuple ["summary"; "dateTime"])
        = Raise e -> e = AttributeError).
Proof.
  apply (read_value_raises_iff sample_event (KTuple ["summary"; "dateTime"])).
  discriminate.
Defined.

Lemma read_value_tuple_step k k' rest v :
  read_value_tuple v (k :: k' :: rest)
  = (d' <- py_get v k (VDict []) ;; read_value_tuple d' (k' :: rest)).
Proof. reflexivity. Qed.

Lemma read_value_tuple_not_dict v key :
  is_record v = false -> raises (read_value_tuple v key).
Proof.
  intros Hv. destruct v; try discriminate;
    destruct key as [|k [|k' rest]]; eexists; reflexivity.
Qed.

(** X2: key paths compose: when the path [p] leads to a dictionary, looking
    up [p] followed by a non-empty [q] is looking up [q] in that
    dictionary. *)
Theorem read_value_compose (p q : list string) : forall (d d' : dict),
  q <> [] ->
  read_value (VDict d) (KTuple p) = OK (VDict d') ->
  read_value (VDict d) (KTuple (p ++ q)) = read_value (VDict d') (KTuple q).
Proof.
  cbn [read_value].
  induction p as [|k p IH]; intros d d' Hq Hp; [discriminate|].
  destruct q as [|k' q]; [congruence|].
  destruct p as [|k2 p].
  - cbn [app]. rewrite read_value_tuple_step.
    cbn [read_value_tuple py_get] in Hp. injection Hp as Hp.
    cbn [py_get bind]. unfold dict_get in *.
    destruct (dict_lookup d k); [|discriminate]. now subst.
  - change ((k :: k2 :: p) ++ k' :: q)%list
      with (k :: (k2 :: p) ++ k' :: q)%list.
    change ((k2 :: p) ++ k' :: q)%list with (k2 :: (p ++ k' :: q))%list.
    rewrite read_value_tuple_step in Hp |- *.
    cbn [py_get bind] in Hp |- *.
    destruct (dict_get d k (VDict [])) as [| | | | |dx|] eqn:Hx;
      try (match type of Hp with
           | read_value_tuple ?v _ = _ =>
               destruct (read_value_tuple_not_dict v (k2 :: p) eq_refl)
                 as [e He]
           end; congruence).
    apply (IH dx d'); [discriminate | exact Hp].
Qed.

Lemma read_value_compose_witness :
  read_value (VDict [("event", VDict sample_event)])
             (KTuple (["event"; "start"] ++ ["dateTime"]))
  = read_value
      (VDict [("dateTime", VStr "2001-02-03T20:00:00"); ("bar", VInt 2)])
      (KTuple ["dateTime"]).
Proof.
  apply (read_value_compose ["event"; "start"] ["dateTime"]);
    [discriminate | reflexivity].
Defined.

Lemma dict_lookup_set_same d k v : dict_lookup (dict_set d k v) k = Some v.
Proof.
  induction d as [|[k' v'] d IH]; cbn [dict_set dict_lookup].
  - now rewrite String.eqb_refl.
  - destruct (String.eqb k' k) eqn:E; cbn [dict_lookup]; now rewrite E.
Qed.

Lemma dict_lookup_set_other d k v k' :
  k' <> k -> dict_lookup (dict_set d k v) k' = dict_lookup d k'.
Proof.
  intros Hne. induction d as [|[k0 v0] d IH]; cbn [dict_set dict_lookup].
  - destruct (String.eqb_spec k k'); congruence.
  - destruct (String.eqb_spec k0 k) as [->|Hk]; cbn [dict_lookup].
    + destruct (String.eqb_spec k k'); congruence.
    + now rewrite IH.
Qed.

Lemma dict_keys_set d k v k' :
  In k' (dict_keys (dict_set d k v)) <-> k' = k \/ In k' (dict_keys d).
Proof.
  unfold dict_keys.
  induction d as [|[k0 v0] d IH]; cbn [dict_set map fst In].
  - intuition.
  - destruct (String.eqb_spec k0 k) as [->|Hk]; cbn [map fst In].
    + intuition.
    + rewrite IH. intuition.
Qed.

Lemma dict_keys_set_NoDup d k v :
  NoDup (dict_keys d) -> NoDup (dict_keys (dict_set d k v)).
Proof.
  unfold dict_keys.
  induction d as [|[k0 v0] d IH]; cbn [dict_set map fst]; intros Hnd.
  - repeat constructor. intros [].
  - inversion Hnd as [|x l Hx Hl]; subst.
    destruct (String.eqb_spec k0 k) as [->|Hk]; cbn [map fst].
    + now constructor.
    + constructor; [|now apply IH].
      intros Hin. apply (dict_keys_set d k v k0) in Hin.
      destruct Hin as [->|Hin]; [congruence | exact (Hx Hin)].
Qed.

Lemma extract_keys_app ee k1 : forall k2 acc,
  extract_keys ee (k1 ++ k2) acc
  = (r <- extract_keys ee k1 acc ;; extract_keys ee k2 r).
Proof.
  induction k1 as [|kk k1 IH]; intros k2 acc; [reflexivity|].
  cbn [app extract_keys].
  destruct (get_key kk); cbn [bind]; [|reflexivity].
  destruct (read_value (VDict ee) kk); cbn [bind]; [|reflexivity].
  apply IH.
Qed.

Lemma extract_keys_keys ee keys : forall acc rec,
  extract_keys ee keys acc = OK rec ->
  NoDup (dict_keys acc) ->
  NoDup (dict_keys rec) /\
  forall k, In k (dict_keys rec) <->
            In k (dict_keys acc) \/ exists kk, In kk keys /\ get_key kk = OK k.
Proof.
  induction keys as [|kk keys IH]; intros acc rec H Hnd.
  - injection H as <-. split; [exact Hnd|].
    intros k. split; [now left | intros [Hk|(kk & [] & _)]; exact Hk].
  - cbn [extract_keys] in H.
    apply bind_OK in H as (k0 & Hk0 & H).
    apply bind_OK in H as (v0 & Hv0 & H).
    destruct (IH _ _ H (dict_keys_set_NoDup acc k0 v0 Hnd)) as [Hnd' Hin].
    split; [exact Hnd'|]. intros k. rewrite Hin, dict_keys_set.
    split.
    + intros [[->|Hk]|(kk' & Hkk' & Hg)].
      * right. exists kk. split; [now left | exact Hk0].
      * now left.
      * right. exists kk'. split; [now right | exact Hg].
    + intros [Hk|(kk' & [<-|Hkk'] & Hg)].
      * left. now right.
      * left. left. congruence.
      * right. exists kk'. split; assumption.
Qed.

Lemma extract_keys_preserves ee k post : forall acc rec,
  Forall (fun kk => get_key kk <> OK k) post ->
  extract_keys ee post acc = OK rec ->
  dict_lookup rec k = dict_lookup acc k.
Proof.
  induction post as [|kk post IH]; intros acc rec Hpost H.
  - now injection H as <-.
  - inversion Hpost as [|x l Hkk Hrest]; subst.
    cbn [extract_keys] in H.
    apply bind_OK in H as (k0 & Hk0 & H).
    apply bind_OK in H as (v0 & Hv0 & H).
    rewrite (IH _ _ Hrest H).
    apply dict_lookup_set_other. congruence.
Qed.

(** X3: the record that [clean_events] extracts for a list of keys has,
    once each, exactly the first components of the key paths as its
    keys. *)
Theorem extracted_keys_are_first_components
  (ee : dict) (keys : list keypath) (rec : dict) :
  extract_keys ee keys [] = OK rec ->
  NoDup (dict_keys rec) /\
  forall k, In k (dict_keys rec) <->
            exists kk, In kk keys /\ get_key kk = OK k.
Proof.
  intros H.
  destruct (extract_keys_keys ee keys [] rec H (NoDup_nil _)) as [Hnd Hin].
  split; [exact Hnd|]. intros k. rewrite Hin.
  split; [intros [[]|Hk]; exact Hk | now right].
Qed.

Lemma extracted_keys_are_first_components_witness :
  NoDup (dict_keys [("start", VStr ""); ("summary", VStr "My event name")])
  /\ forall k,
       In k (dict_keys [("start", VStr ""); ("summary", VStr "My event name")])
       <-> exists kk,
             In kk [KTuple ["start"; "dateTime"]; KStr "summary";
                    KTuple ["start"; "date"]]
             /\ get_key kk = OK k.
Proof.
  apply (extracted_keys_are_first_components sample_event
           [KTuple ["start"; "dateTime"]; KStr "summary";
            KTuple ["start"; "date"]]).
  reflexivity.
Defined.

(** X4: when several key paths share their first component, the extracted
    record holds under that key the value of the last of them. *)
Theorem extracted_value_is_last_path
  (ee : dict) (pre post : list keypath) (kk : keypath) (k : string)
  (rec : dict) :
  extract_keys ee (pre ++ kk :: post) [] = OK rec ->
  get_key kk = OK k ->
  Forall (fun kk' => get_key kk' <> OK k) post ->
  exists v, read_value (VDict ee) kk = OK v /\ dict_lookup rec k = Some v.
Proof.
  intros H Hk Hpost. rewrite extract_keys_app in H.
  apply bind_OK in H as (r & _ & H).
  cbn [extract_keys] in H. rewrite Hk in H. cbn [bind] in H.
  apply bind_OK in H as (v & Hv & H).
  exists v. split; [exact Hv|].
  rewrite (extract_keys_preserves ee k post _ _ Hpost H).
  apply dict_lookup_set_same.
Qed.

Lemma extracted_value_is_last_path_witness :
  exists v,
    read_value (VDict sample_event) (KTuple ["start"; "date"]) = OK v /\
    dict_lookup [("start", VStr ""); ("summary", VStr "My event name")] "start"
    = Some v.
Proof.
  apply (extracted_value_is_last_path sample_event
           [KTuple ["start"; "dateTime"]; KStr "summary"] []
           (KTuple ["start"; "date"]) "start");
    [reflexivity | reflexivity | constructor].
Defined.

(** ** [get_my_response_status] *)

(** X5: on an event whose attendees are a list of records, the response
    is that of the first record with a true [self] flag (the empty string
    when it has none), and the lookup fails with [IndexError] when there
    is no such record. *)
Theorem response_of_first_self_attendee
  (event : dict) (ak rk : string) (l : list value) :
  dict_lookup event ak = Some (VList l) ->
  forallb is_record l = true ->
  get_my_response_status event ak rk
  = match find self_flag l with
    | Some aa => OK (response_of rk aa)
    | None => Raise IndexError
    end.
Proof.
  intros Hl Hrec. unfold get_my_response_status, dict_getitem.
  rewrite Hl. cbn [bind py_iter].
  rewrite (self_responses_records _ _ Hrec), find_filter. cbn [bind].
  destruct (filter self_flag l); reflexivity.
Qed.

Lemma response_of_first_self_attendee_witness :
  get_my_response_status [("attendees", VList sample_attendees)]
    "attendees" "responseStatus"
  = OK (VStr "").
Proof.
  apply (response_of_first_self_attendee
           [("attendees", VList sample_attendees)]
           "attendees" "responseStatus" sample_attendees);
    reflexivity.
Defined.

Lemma self_responses_non_record rk l :
  forallb is_record l = false ->
  self_responses rk l = Raise AttributeError.
Proof.
  induction l as [|aa l IH]; [discriminate|].
  cbn [forallb self_responses]. intros H.
  destruct aa; try reflexivity.
  cbn [is_record andb] in H. rewrite (IH H). cbn [py_get bind].
  destruct (truthy (dict_get d "self" (VBool false))); reflexivity.
Qed.

(** X6: the whole attendee list is scanned: one attendee that is not a
    record makes the lookup fail with [AttributeError], also when the
    owner's record comes before it. *)
Theorem response_needs_records
  (event : dict) (ak rk : string) (l : list value) :
  dict_lookup event ak = Some (VList l) ->
  forallb is_record l = false ->
  get_my_response_status event ak rk = Raise AttributeError.
Proof.
  intros Hl Hrec. unfold get_my_response_status, dict_getitem.
  rewrite Hl. cbn [bind py_iter].
  now rewrite (self_responses_non_record _ _ Hrec).
Qed.

Lemma response_needs_records_witness :
  get_my_response_status
    [("attendees", VList (sample_attendees ++ [VStr "room"]))]
    "attendees" "responseStatus"
  = Raise AttributeError.
Proof.
  apply (response_needs_records
           [("attendees", VList (sample_attendees ++ [VStr "room"]))]
           "attendees" "responseStatus" (sample_attendees ++ [VStr "room"]));
    reflexivity.
Defined.

(** ** [clean_events] *)

(** X7: a raw event without a [status] stops [clean_events] with
    [KeyError], unless it is transparent: then the status is never looked
    up and the event is dropped like any free event. *)
Theorem clean_events_missing_status (pre post : list dict) (ee : dict)
  (done : list dict) :
  clean_events pre = OK done ->
  dict_lookup ee "status" = None ->
  clean_events (pre ++ ee :: post)
  = if eq_str (dict_get ee "transparency" (VStr "")) "transparent"
    then clean_events (pre ++ post)
    else Raise KeyError.
Proof.
  intros Hpre Hst. rewrite !clean_events_app, Hpre. cbn [bind].
  rewrite clean_events_cons. unfold clean_event, dict_getitem.
  rewrite Hst.
  destruct (eq_str (dict_get ee "transparency" (VStr "")) "transparent");
    cbn [bind]; [|reflexivity].
  destruct (clean_events post); reflexivity.
Qed.

Lemma clean_events_missing_status_witness :
  clean_events (sample_events ++ sample_no_status :: sample_events)
  = Raise KeyError
  /\ clean_events
       (sample_events
        ++ dict_set sample_no_status "transparency" (VStr "transparent")
        :: sample_events)
     = clean_events (sample_events ++ sample_events).
Proof.
  split.
  - apply (clean_events_missing_status sample_events sample_events
             sample_no_status sample_output); reflexivity.
  - apply (clean_events_missing_status sample_events sample_events
             (dict_set sample_no_status "transparency" (VStr "transparent"))
             sample_output); reflexivity.
Defined.

Lemma extracted_timestamp ee k v :
  py_get (dict_get ee k (VDict [])) "dateTime" (VStr "") = OK v ->
  v = spec_timestamp ee k.
Proof.
  unfold spec_timestamp, dict_get.
  destruct (dict_lookup ee k) as [[]|]; try discriminate;
    cbn [py_get]; now intros [= <-].
Qed.

Lemma chars_not_records s : forallb is_record (chars s) = true -> s = EmptyString.
Proof. destruct s; [reflexivity | discriminate]. Qed.

Lemma self_responses_ok rk l rs :
  self_responses rk l = OK rs -> forallb is_record l = true.
Proof.
  intros H. destruct (forallb is_record l) eqn:E; [reflexivity|].
  rewrite (self_responses_non_record _ _ E) in H. discriminate.
Qed.

(** What a successful lookup of the owner's response says of the raw
    event. *)
Lemma response_found ee my :
  (items <- py_iter (dict_get ee "attendees" (VStr "")) ;;
   rs <- self_responses "responseStatus" items ;;
   match rs with [] => Raise IndexError | r :: _ => OK r end) = OK my ->
  spec_self_response ee = Some my.
Proof.
  unfold spec_self_response, attendee_records, dict_get.
  intros H. apply bind_OK in H as (items & Hit & H).
  apply bind_OK in H as (rs & Hrs & H).
  pose proof (self_responses_ok _ _ _ Hrs) as Hrec.
  rewrite (self_responses_records _ _ Hrec) in Hrs. injection Hrs as <-.
  assert (Hsel : forall l, forallb is_record l = true ->
            match map (response_of "responseStatus") (filter self_flag l) with
            | [] => Raise IndexError
            | r :: _ => OK r
            end = OK my ->
            match find self_flag l with
            | Some (VDict a) => Some (dict_get a "responseStatus" (VStr ""))
            | _ => None
            end = Some my).
  { clear. intros l Hl Hm. rewrite find_filter.
    destruct (filter self_flag l) as [|aa sel] eqn:Hsel; [discriminate|].
    assert (Hin : In aa (filter self_flag l)) by (rewrite Hsel; now left).
    apply filter_In in Hin as [_ Hf].
    destruct aa; try discriminate. cbn in Hm |- *. congruence. }
  destruct (dict_lookup ee "attendees") as [att|].
  - destruct att; try discriminate; cbn [py_iter] in Hit;
      injection Hit as <-.
    + apply chars_not_records in Hrec. subst. discriminate.
    + rewrite Hrec. now apply Hsel.
    + destruct d; [discriminate | discriminate].
  - cbn [py_iter chars] in Hit. injection Hit as <-. discriminate.
Qed.

(** Whenever the loop body returns, it has applied the three filters and
    built the canonical record. *)
Lemma clean_event_returns ee r :
  clean_event default_keys ee = OK r ->
  r = if spec_keep ee then Some (spec_canonical ee) else None.
Proof.
  unfold clean_event, spec_keep, spec_busy, spec_confirmed, dict_getitem.
  destruct (eq_str (dict_get ee "transparency" (VStr "")) "transparent");
    cbn [negb andb]; [now intros [= <-]|].
  destruct (dict_lookup ee "status") as [st|] eqn:Hst; cbn [bind];
    [|discriminate].
  destruct (eq_str st "confirmed") eqn:Hconf; cbn [negb];
    [|now intros [= <-]].
  rewrite extract_default_keys. intros H.
  apply bind_OK in H as (rec & Hrec & H).
  apply bind_OK in Hrec as (s & Hs & Hrec).
  apply bind_OK in Hrec as (e & He & [= <-]).
  apply extracted_timestamp in Hs, He. subst s e.
  apply bind_OK in H as (my & Hmy & H).
  unfold get_my_response_status, attendees_key, response_key in Hmy.
  apply bind_OK in Hmy as (att & Hatt & Hmy).
  injection Hatt as <-.
  apply response_found in Hmy.
  unfold spec_accepted. rewrite Hmy.
  destruct (eq_str my "accepted") eqn:Hacc; cbn [negb andb] in H |- *;
    [|now injection H as <-].
  apply eq_str_true in Hacc. subst my.
  unfold spec_canonical, spec_summary.
  set (vis := dict_get ee "visibility" (VStr "")) in *.
  set (tr := dict_get ee "transparency" (VStr "")) in *.
  set (stv := dict_get ee "status" (VStr "")) in *.
  set (sm := dict_get ee "summary" (VStr "")) in *.
  set (att := dict_get ee "attendees" (VStr "")) in *.
  destruct (eq_str vis "private") eqn:Hv; cbn in H; rewrite Hv in H;
    now injection H as <-.
Qed.

Lemma clean_events_returns events : forall out,
  clean_events events = OK out ->
  out = map spec_canonical (filter spec_keep events).
Proof.
  induction events as [|ee rest IH]; intros out.
  - now intros [= <-].
  - rewrite clean_events_cons. intros H.
    apply bind_OK in H as (r & Hr & H).
    apply bind_OK in H as (rs & Hrs & [= <-]).
    apply clean_event_returns in Hr. rewrite (IH _ Hrs), Hr.
    cbn [filter]. destruct (spec_keep ee); reflexivity.
Qed.

(** X8: whenever [clean_events] returns, on any input, it has returned in
    input order the canonical records of exactly the events that are not
    transparent, are confirmed and were accepted by the first attendee
    flagged [self]: every other outcome is an exception. *)
Theorem clean_events_partial_correctness (events out : list dict) :
  clean_events events = OK out ->
  out = map spec_canonical (filter spec_keep events).
Proof. apply clean_events_returns. Qed.

Lemma clean_events_partial_correctness_witness :
  sample_output = map spec_canonical (filter spec_keep sample_events).
Proof.
  apply (clean_events_partial_correctness sample_events sample_output).
  reflexivity.
Defined.

(** X9: every record that [clean_events] returns has the status
    [confirmed], the response [accepted] and a transparency other than
    [transparent]. *)
Theorem clean_events_output_invariants (events out : list dict) :
  clean_events events = OK out ->
  Forall (fun rec =>
            dict_lookup rec "status" = Some (VStr "confirmed") /\
            dict_lookup rec "responseStatus" = Some (VStr "accepted") /\
            eq_str (dict_get rec "transparency" (VStr "")) "transparent"
            = false) out.
Proof.
  intros H. apply clean_events_returns in H. subst out.
  apply Forall_forall. intros rec Hin.
  apply in_map_iff in Hin as (ee & <- & Hin).
  apply filter_In in Hin as [_ Hkeep].
  unfold spec_keep, spec_busy, spec_confirmed in Hkeep.
  apply andb_prop in Hkeep as [Hkeep _].
  apply andb_prop in Hkeep as [Hb Hc].
  apply negb_true_iff in Hb.
  split; [|split; [reflexivity | exact Hb]].
  cbn. unfold dict_get.
  destruct (dict_lookup ee "status") as [st|]; [|discriminate].
  now rewrite (eq_str_true _ _ Hc).
Qed.

Lemma clean_events_output_invariants_witness :
  Forall (fun rec =>
            dict_lookup rec "status" = Some (VStr "confirmed") /\
            dict_lookup rec "responseStatus" = Some (VStr "accepted") /\
            eq_str (dict_get rec "transparency" (VStr "")) "transparent"
            = false) sample_output.
Proof.
  apply (clean_events_output_invariants sample_events sample_output).
  reflexivity.
Defined.

(** X10: [clean_events] works event by event: on a concatenation it
    returns the concatenation of the two outputs, and fails with the
    first part's error, else with the second's. *)
Theorem clean_events_concat (pre post : list dict) :
  clean_events (pre ++ post)
  = (a <- clean_events pre ;; b <- clean_events post ;; OK (a ++ b)%list).
Proof. apply clean_events_app. Qed.

Lemma canonical_not_raw ee :
  spec_keep ee = true -> raises (clean_event default_keys (spec_canonical ee)).
Proof.
  intros Hkeep. unfold spec_keep, spec_busy, spec_confirmed in Hkeep.
  apply andb_prop in Hkeep as [Hkeep _].
  apply andb_prop in Hkeep as [Hb Hc].
  apply negb_true_iff in Hb.
  unfold clean_event.
  change (dict_get (spec_canonical ee) "transparency" (VStr ""))
    with (dict_get ee "transparency" (VStr "")).
  rewrite Hb.
  change (dict_getitem (spec_canonical ee) "status")
    with (@OK value (dict_get ee "status" (VStr ""))).
  cbn [bind]. unfold dict_get at 1.
  destruct (dict_lookup ee "status") as [st|]; [|discriminate].
  rewrite Hc. cbn [negb]. rewrite extract_default_keys.
  change (dict_get (spec_canonical ee) "start" (VDict []))
    with (spec_timestamp ee "start").
  change (dict_get (spec_canonical ee) "end" (VDict []))
    with (spec_timestamp ee "end").
  destruct (py_get (spec_timestamp ee "start") "dateTime" (VStr ""));
    cbn [bind]; [|eexists; reflexivity].
  destruct (py_get (spec_timestamp ee "end") "dateTime" (VStr ""));
    cbn [bind]; [|eexists; reflexivity].
  eexists. reflexivity.
Qed.

(** X11: the output is not an input: [clean_events] applied to a
    non-empty list that it has returned raises (the records have lost
    their attendees, and their timestamps are no longer nested). *)
Theorem clean_events_not_idempotent (events out : list dict) :
  clean_events events = OK out ->
  out <> [] ->
  raises (clean_events out).
Proof.
  intros H Hne. apply clean_events_returns in H. subst out.
  destruct (filter spec_keep events) as [|ee kept_events] eqn:Hf;
    [now elim Hne|].
  assert (Hin : In ee (filter spec_keep events)) by (rewrite Hf; now left).
  apply filter_In in Hin as [_ Hkeep].
  cbn [map]. rewrite clean_events_cons.
  destruct (canonical_not_raw ee Hkeep) as [e ->].
  eexists. reflexivity.
Qed.

Lemma clean_events_not_idempotent_witness : raises (clean_events sample_output).
Proof.
  apply (clean_events_not_idempotent sample_events sample_output);
    [reflexivity | discriminate].
Defined.

Lemma extract_plain_keys ee keys : forall acc,
  forallb is_plain_key keys = true ->
  dict_lookup acc "attendees" = None ->
  exists rec, extract_keys ee keys acc = OK rec
              /\ dict_lookup rec "attendees" = None.
Proof.
  induction keys as [|kk keys IH]; intros acc Hk Hacc.
  - exists acc. split; [reflexivity | exact Hacc].
  - cbn [forallb] in Hk. apply andb_prop in Hk as [Hkk Hk].
    destruct kk as [s|t]; [|discriminate].
    cbn [is_plain_key] in Hkk. apply negb_true_iff in Hkk.
    cbn [extract_keys get_key read_value read_value_tuple py_get bind].
    apply IH; [exact Hk|].
    rewrite dict_lookup_set_other; [exact Hacc|].
    apply String.eqb_neq in Hkk. congruence.
Qed.

(** X12: the [keys] argument has to name [attendees]: with plain string
    keys that leave it out, the first event that passes the busy and
    confirmation filters stops [clean_events] with [KeyError]. *)
Theorem clean_events_keys_need_attendees
  (pre post : list dict) (ee : dict) (keys : list keypath) :
  forallb is_plain_key keys = true ->
  Forall (fun ee' => spec_busy ee' && spec_confirmed ee' = false) pre ->
  Forall (fun ee' => dict_lookup ee' "status" <> None) pre ->
  spec_busy ee = true -> spec_confirmed ee = true ->
  clean_events_keys (pre ++ ee :: post) keys = Raise KeyError.
Proof.
  intros Hkeys Hpre Hst Hb Hc.
  induction pre as [|ee' pre IH].
  - cbn [app]. rewrite clean_events_keys_cons.
    unfold clean_event, dict_getitem.
    unfold spec_busy in Hb. apply negb_true_iff in Hb. rewrite Hb.
    unfold spec_confirmed in Hc.
    destruct (dict_lookup ee "status") as [st|]; [|discriminate].
    cbn [bind]. rewrite Hc. cbn [negb].
    destruct (extract_plain_keys ee keys [] Hkeys eq_refl) as (rec & -> & Hrec).
    cbn [bind]. unfold get_my_response_status, dict_getitem, attendees_key.
    rewrite Hrec. reflexivity.
  - inversion Hpre as [|x l Hee' Hpre']; subst.
    inversion Hst as [|x l Hst' Hst'']; subst.
    cbn [app]. rewrite clean_events_keys_cons, (IH Hpre' Hst'').
    unfold clean_event, dict_getitem.
    unfold spec_busy, spec_confirmed in Hee'.
    destruct (eq_str (dict_get ee' "transparency" (VStr "")) "transparent");
      [reflexivity|].
    destruct (dict_lookup ee' "status") as [st|]; [|congruence].
    cbn [negb andb bind] in Hee' |- *. rewrite Hee'. reflexivity.
Qed.

Lemma clean_events_keys_need_attendees_witness :
  clean_events_keys
    ([dict_set sample_event "status" (VStr "cancelled")]
     ++ sample_event :: sample_events)
    [KStr "summary"; KStr "status"]
  = Raise KeyError.
Proof.
  apply (clean_events_keys_need_attendees
           [dict_set sample_event "status" (VStr "cancelled")]
           sample_events sample_event [KStr "summary"; KStr "status"]);
    try reflexivity.
  - repeat constructor.
  - repeat constructor. discriminate.
Defined.

(** ** [strptime]: zones and failures *)

Lemma re_match_inv r : forall (A : Type) s
    (k : string -> string -> option A) x,
  re_match r s k = Some x -> exists txt s', k txt s' = Some x.
Proof.
  induction r as [|p|r1 IH1 r2 IH2|r1 IH1 r2 IH2]; intros A s k x H;
    cbn [re_match] in H.
  - eauto.
  - destruct s as [|c s]; [discriminate|].
    destruct (p c); [eauto | discriminate].
  - apply IH1 in H as (t1 & s1 & H). apply IH2 in H as (t2 & s2 & H). eauto.
  - destruct (re_match r1 s k) eqn:E.
    + injection H as <-. eapply IH1; eauto.
    + eapply IH2; eauto.
Qed.

Lemma set_field_z txt t : tm_gmtoff (set_field "z" txt t) <> None.
Proof. destruct t. discriminate. Qed.

Lemma set_field_keeps_zone c txt t :
  keeps_zone (TDir c) = true ->
  tm_gmtoff (set_field c txt t) = tm_gmtoff t.
Proof.
  cbn [keeps_zone existsb]. intros H.
  repeat (apply orb_prop in H as [H|H];
          [apply Ascii.eqb_eq in H; subst c; destruct t; reflexivity|]).
  discriminate.
Qed.

Lemma match_tokens_reads_zone toks : forall s t0 t rest,
  match_tokens (toks ++ [TDir "z"]) s t0 = Some (t, rest) ->
  tm_gmtoff t <> None.
Proof.
  induction toks as [|tok toks IH]; intros s t0 t rest H.
  - cbn [app] in H. destruct directive_z as (rz & Ez & _).
    rewrite (match_tokens_dir _ _ _ _ _ Ez) in H.
    apply re_match_inv in H as (txt & s' & H).
    cbn [match_tokens] in H. injection H as <- _. apply set_field_z.
  - cbn [app match_tokens] in H. destruct tok as [c|c].
    + destruct s as [|c' s]; [discriminate|].
      destruct (ci_eqb c c'); [eauto | discriminate].
    + destruct (directive_regex c); [|discriminate].
      apply re_match_inv in H as (txt & s' & H). eauto.
Qed.

Lemma match_tokens_keeps_zone toks : forall s t0 t rest,
  forallb keeps_zone toks = true ->
  match_tokens toks s t0 = Some (t, rest) ->
  tm_gmtoff t = tm_gmtoff t0.
Proof.
  induction toks as [|tok toks IH]; intros s t0 t rest Hk H.
  - cbn in H. now injection H as <- _.
  - cbn [forallb] in Hk. apply andb_prop in Hk as [Htok Hk].
    cbn [match_tokens] in H. destruct tok as [c|c].
    + destruct s as [|c' s]; [discriminate|].
      destruct (ci_eqb c c'); [eauto | discriminate].
    + destruct (directive_regex c); [|discriminate].
      apply re_match_inv in H as (txt & s' & H).
      rewrite (IH _ _ _ _ Hk H). now apply set_field_keeps_zone.
Qed.

Lemma datetime_strptime_zone s fmt dt :
  datetime_strptime (VStr s) fmt = OK dt ->
  exists toks t,
    tokenize fmt = Some toks /\
    match_tokens toks s tm0 = Some (t, EmptyString) /\
    (tzinfo dt = None <-> tm_gmtoff t = None).
Proof.
  unfold datetime_strptime, _strptime. intros H.
  apply bind_OK in H as (t & Ht & H).
  destruct (tokenize fmt) as [toks|]; [|discriminate].
  destruct (match_tokens toks s tm0) as [[t' rest]|] eqn:Hm; [|discriminate].
  destruct rest; [|discriminate]. injection Ht as ->.
  exists toks, t. split; [reflexivity|]. split; [exact Hm|].
  apply bind_OK in H as (tz & Htz & H).
  unfold datetime_new in H.
  destruct (check_fields _ _ _ _ _ _ _); [|discriminate].
  injection H as <-. cbn [tzinfo].
  destruct (tm_gmtoff t) as [off|].
  - apply bind_OK in Htz as (z & _ & [= <-]). split; discriminate.
  - injection Htz as <-. tauto.
Qed.

(** X13: the datetime that [strptime] returns has a zone exactly when the
    string ends in [Z] or in a sign, two digits, a colon and two digits;
    and with [Z] the zone is UTC. *)
Theorem strptime_zone_signals (s : string) (dt : datetime) :
  strptime (VStr s) = OK dt ->
  (last_char s = Some "Z"%char -> tzinfo dt = Some UTC) /\
  (tzinfo dt = None <->
     last_char s <> Some "Z"%char /\
     re_test offset_re (str_last 6 s) = false).
Proof.
  rewrite strptime_str.
  destruct (last_char s) as [c|]; [|discriminate]. cbv zeta.
  destruct (Ascii.eqb_spec c "Z") as [->|Hc].
  - intros H. apply bind_OK in H as (dt' & _ & [= <-]).
    cbn [replace_tzinfo tzinfo].
    split; [reflexivity|]. split; [discriminate | intros [Hz _]; congruence].
  - assert (HcZ : Some c <> Some "Z"%char) by congruence.
    destruct (re_test offset_re (str_last 6 s)).
    + intros H. apply datetime_strptime_zone in H as (toks & t & Htok & Hm & Htz).
      assert (Hz : tm_gmtoff t <> None).
      { destruct (dot_at_19 s); injection Htok as <-;
          [apply (match_tokens_reads_zone
                    (base_tokens ++ [TLit "."; TDir "f"]) _ _ _ _ Hm)
          |apply (match_tokens_reads_zone base_tokens _ _ _ _ Hm)]. }
      split; [congruence|]. rewrite Htz.
      split; [congruence | intros [_ Hf]; discriminate].
    + intros H. apply datetime_strptime_zone in H as (toks & t & Htok & Hm & Htz).
      assert (Hz : tm_gmtoff t = None).
      { change None with (tm_gmtoff tm0).
        destruct (dot_at_19 s); injection Htok as <-;
          (eapply match_tokens_keeps_zone; [|exact Hm]; reflexivity). }
      split; [congruence|]. rewrite Htz. tauto.
Qed.

Lemma strptime_zone_signals_witness :
  (last_char "2001-02-03T04:05:06Z" = Some "Z"%char ->
   tzinfo (mkDatetime 2001 2 3 4 5 6 0 (Some UTC)) = Some UTC) /\
  (tzinfo (mkDatetime 2001 2 3 4 5 6 0 (Some UTC)) = None <->
     last_char "2001-02-03T04:05:06Z" <> Some "Z"%char /\
     re_test offset_re (str_last 6 "2001-02-03T04:05:06Z") = false).
Proof.
  apply (strptime_zone_signals "2001-02-03T04:05:06Z"
           (mkDatetime 2001 2 3 4 5 6 0 (Some UTC))).
  reflexivity.
Defined.

Lemma datetime_strptime_error s fmt e :
  datetime_strptime (VStr s) fmt = Raise e -> e = ValueError.
Proof.
  unfold datetime_strptime, _strptime, timezone_new, datetime_new.
  destruct (tokenize fmt) as [toks|]; [|now intros [= <-]].
  destruct (match_tokens toks s tm0) as [[t rest]|]; [|now intros [= <-]].
  destruct rest; [|now intros [= <-]]. cbn [bind].
  destruct (tm_gmtoff t) as [off|]; cbn [bind].
  - destruct ((-86400 <? off) && (off <? 86400)); cbn [bind];
      [|now intros [= <-]].
    destruct (check_fields _ _ _ _ _ _ _); [discriminate | now intros [= <-]].
  - destruct (check_fields _ _ _ _ _ _ _); [discriminate | now intros [= <-]].
Qed.

Lemma last_char_cons s : forall c, last_char (String c s) <> None.
Proof.
  induction s as [|c' s IH]; intros c; [discriminate | exact (IH c')].
Qed.

(** X14: on a string, [strptime] fails in two ways only: with
    [IndexError] on the empty string, and with [ValueError] on every
    other string that it does not read. *)
Theorem strptime_errors (s : string) (e : exn) :
  strptime (VStr s) = Raise e ->
  (s = EmptyString /\ e = IndexError) \/ (s <> EmptyString /\ e = ValueError).
Proof.
  destruct s as [|c0 s0]; [intros [= <-]; now left|].
  right. split; [discriminate|]. revert H. rewrite strptime_str.
  destruct (last_char (String c0 s0)) as [c|] eqn:Hl.
  2:{ now apply last_char_cons in Hl. }
  cbv zeta. destruct (Ascii.eqb c "Z").
  - destruct (datetime_strptime _ _) eqn:E; cbn [bind]; [discriminate|].
    intros [= <-]. now apply datetime_strptime_error in E.
  - destruct (re_test offset_re _); apply datetime_strptime_error.
Qed.

Lemma strptime_errors_witness :
  ("2001-02-30T04:05:06" = EmptyString /\ ValueError = IndexError)
  \/ ("2001-02-30T04:05:06" <> EmptyString /\ ValueError = ValueError).
Proof.
  apply (strptime_errors "2001-02-30T04:05:06" ValueError). reflexivity.
Defined.

(** X15: [strptime] returns on non-empty strings only: [None], numbers,
    lists and dictionaries all make it raise. *)
Theorem strptime_only_strings (v : value) (dt : datetime) :
  strptime v = OK dt -> exists s, v = VStr s /\ s <> EmptyString.
Proof.
  destruct v as [| | |s|l|d|]; try discriminate.
  - intros H. exists s. split; [reflexivity|]. intros ->. discriminate.
  - unfold strptime. cbn [py_len bind]. intros H.
    apply bind_OK in H as (dot & _ & H).
    apply bind_OK in H as (last & _ & H).
    destruct (eq_str last "Z"); [discriminate|].
    cbn [py_last bind py_re_match] in H. discriminate.
  - unfold strptime. cbn [py_len bind]. intros H.
    apply bind_OK in H as (dot & _ & H).
    apply bind_OK in H as (last & Hl & _). discriminate.
Qed.

Lemma strptime_only_strings_witness :
  exists s, VStr "2001-02-03T04:05:06" = VStr s /\ s <> EmptyString.
Proof.
  apply (strptime_only_strings (VStr "2001-02-03T04:05:06")
           (mkDatetime 2001 2 3 4 5 6 0 None)).
  reflexivity.
Defined.

(** ** [strptime]: rendered timestamps *)

(** X16: a timestamp with the suffix [+HH:MM] or [-HH:MM] denotes the
    instant of the same wall clock read as UTC, moved back by the offset;
    with the offset [00:00], of either sign, it parses to the very
    datetime of the [Z] form. *)
Theorem strptime_offset_shifts_instant
  (y m d hh mm ss : Z) (f : option string) (west : bool) (zh zm : Z) :
  check_fields y m d hh mm ss 0 = true ->
  fraction_ok f = true ->
  zone_ok (Offset west zh zm) = true ->
  exists a b,
    strptime (VStr (iso_string y m d hh mm ss f (Offset west zh zm))) = OK a /\
    strptime (VStr (iso_string y m d hh mm ss f Zulu)) = OK b /\
    utc_instant a
    = utc_instant b
      - (if west then -1 else 1) * (zh * 3600 + zm * 60) * 1000000 /\
    (zh = 0 -> zm = 0 -> a = b).
Proof.
  intros Hc Hf Hz.
  eexists. eexists.
  split; [apply (strptime_rendered y m d hh mm ss f _ Hc Hf Hz)|].
  split; [apply (strptime_rendered y m d hh mm ss f Zulu Hc Hf eq_refl)|].
  split.
  - unfold utc_instant, wall_micros, toordinal.
    cbn [tzinfo zone_tzinfo year month day hour minute second microsecond].
    destruct west; lia.
  - intros -> ->. cbn [zone_tzinfo]. destruct west; reflexivity.
Qed.

Lemma strptime_offset_shifts_instant_witness :
  exists a b,
    strptime (VStr (iso_string 2001 2 3 4 5 6 None (Offset true 3 0))) = OK a /\
    strptime (VStr (iso_string 2001 2 3 4 5 6 None Zulu)) = OK b /\
    utc_instant a
    = utc_instant b - (if true then -1 else 1) * (3 * 3600 + 0 * 60) * 1000000 /\
    (3 = 0 -> 0 = 0 -> a = b).
Proof.
  apply (strptime_offset_shifts_instant 2001 2 3 4 5 6 None true 3 0);
    reflexivity.
Defined.

Lemma int_acc_app s : forall t acc,
  int_acc (s ++ t) acc = int_acc t (int_acc s acc).
Proof.
  induction s as [|c s IH]; intros t acc; [reflexivity|].
  cbn [append int_acc]. destruct (Ascii.eqb c " "); apply IH.
Qed.

Lemma int_acc_pad n : forall s acc,
  int_acc (pad_zeros s n) acc = int_acc s acc * 10 ^ Z.of_nat n.
Proof.
  induction n as [|n IH]; intros s acc.
  - cbn [pad_zeros]. change (10 ^ Z.of_nat 0) with 1. lia.
  - cbn [pad_zeros]. rewrite IH, int_acc_app.
    change (int_acc "0" (int_acc s acc)) with (int_acc s acc * 10 + 0).
    rewrite Nat2Z.inj_succ, Z.pow_succ_r by lia. lia.
Qed.

(** X17: the digits after the dot are the leading digits of the
    microseconds: a fraction of fewer than six digits is read as if
    zeros followed it. *)
Theorem strptime_fraction_left_aligned
  (y m d hh mm ss : Z) (ds : string) (z : zone) :
  check_fields y m d hh mm ss 0 = true ->
  fraction_ok (Some ds) = true ->
  zone_ok z = true ->
  exists dt,
    strptime (VStr (iso_string y m d hh mm ss (Some ds) z)) = OK dt /\
    microsecond dt = int ds * 10 ^ (6 - Z.of_nat (String.length ds)).
Proof.
  intros Hc Hf Hz. eexists.
  split; [apply (strptime_rendered y m d hh mm ss (Some ds) z Hc Hf Hz)|].
  cbn [microsecond fraction_micros]. unfold int. rewrite int_acc_pad.
  cbn [fraction_ok] in Hf.
  apply andb_prop in Hf as [_ H6]. apply Nat.leb_le in H6.
  now rewrite Nat2Z.inj_sub by exact H6.
Qed.

Lemma strptime_fraction_left_aligned_witness :
  exists dt,
    strptime (VStr (iso_string 2001 2 3 20 0 3 (Some "1") Naive)) = OK dt /\
    microsecond dt = int "1" * 10 ^ (6 - Z.of_nat (String.length "1")).
Proof.
  apply (strptime_fraction_left_aligned 2001 2 3 20 0 3 "1" Naive);
    reflexivity.
Defined.

Lemma fields_in_range_spec y m d hh mm ss :
  fields_in_range y m d hh mm ss = true <->
  (0 <= y <= 9999 /\ 1 <= m <= 12 /\ 1 <= d <= 31 /\
   0 <= hh <= 23 /\ 0 <= mm <= 59 /\ 0 <= ss <= 59).
Proof.
  unfold fields_in_range. rewrite !andb_true_iff, !Z.leb_le. tauto.
Qed.

(** The date and time of a rendered timestamp are matched as soon as
    each field is in the range of its directive. *)
Lemma match_tokens_base_fields y m d hh mm ss toks rest t x :
  fields_in_range y m d hh mm ss = true ->
  match_tokens toks rest
    (mkTm y m d hh mm ss (tm_frac t) (tm_gmtoff t)) = Some x ->
  match_tokens (base_tokens ++ toks) (iso_base y m d hh mm ss ++ rest) t
  = Some x.
Proof.
  intros Hr Hk. apply fields_in_range_spec in Hr.
  destruct Hr as (Hy & Hm & Hd & Hhh & Hmm & Hss).
  destruct t as [y0 m0 d0 hh0 mm0 ss0 fr0 off0].
  cbn [tm_frac tm_gmtoff] in Hk.
  unfold base_tokens. cbn [app].
  change (iso_base y m d hh mm ss ++ rest)%string
    with (four_digits y ++ String "-" (two_digits m ++ String "-"
           (two_digits d ++ String "T" (two_digits hh ++ String ":"
             (two_digits mm ++ String ":" (two_digits ss ++ rest))))))%string.
  destruct directive_Y as (rY & EY & HY).
  destruct directive_m as (rm & Em & Hrm).
  destruct directive_d as (rd & Ed & Hrd).
  destruct directive_H as (rH & EH & HrH).
  destruct directive_M as (rM & EM & HrM).
  destruct directive_S as (rS & ES & HrS).
  rewrite (match_tokens_dir _ _ _ _ _ EY), HY by lia.
  rewrite match_tokens_lit by reflexivity.
  rewrite (match_tokens_dir _ _ _ _ _ Em). apply Hrm; [lia|].
  rewrite match_tokens_lit by reflexivity.
  rewrite (match_tokens_dir _ _ _ _ _ Ed). apply Hrd; [lia|].
  rewrite match_tokens_lit by reflexivity.
  rewrite (match_tokens_dir _ _ _ _ _ EH). apply HrH; [lia|].
  rewrite match_tokens_lit by reflexivity.
  rewrite (match_tokens_dir _ _ _ _ _ EM). apply HrM; [lia|].
  rewrite match_tokens_lit by reflexivity.
  rewrite (match_tokens_dir _ _ _ _ _ ES). apply HrS; [lia|].
  cbn [set_field]. rewrite int_four_digits, !int_two_digits by lia.
  exact Hk.
Qed.

Lemma datetime_strptime_fields y m d hh mm ss f z :
  fields_in_range y m d hh mm ss = true ->
  fraction_ok f = true -> zone_ok z = true ->
  datetime_strptime
    (VStr (iso_base y m d hh mm ss ++ fraction_suffix f ++ zone_data z))
    (fraction_format f ++ zone_format z)
  = datetime_new y m d hh mm ss (fraction_micros f)
      (option_map (fun g => g * 1000000) (zone_gmtoff z)).
Proof.
  intros Hr Hf Hz.
  unfold datetime_strptime, _strptime.
  rewrite tokenize_formats.
  rewrite (match_tokens_base_fields y m d hh mm ss _ _ tm0
             (mkTm y m d hh mm ss (fraction_micros f) (zone_gmtoff z),
              EmptyString) Hr).
  2:{ cbn [tm0 tm_frac tm_gmtoff].
      apply match_tokens_fraction; auto using no_leading_digit_zone.
      now apply match_tokens_zone. }
  cbn [bind tm_year tm_mon tm_mday tm_hour tm_min tm_sec tm_frac tm_gmtoff].
  destruct z as [| |west zh zm]; cbn [zone_gmtoff option_map bind];
    try reflexivity.
  cbn [zone_ok] in Hz. rewrite !andb_true_iff, !Z.leb_le in Hz.
  unfold timezone_new.
  replace ((-86400 <? (if west then -1 else 1) * (zh * 3600 + zm * 60))
           && ((if west then -1 else 1) * (zh * 3600 + zm * 60) <? 86400))
    with true; [reflexivity|].
  symmetry. apply andb_true_iff. rewrite !Z.ltb_lt. destruct west; lia.
Qed.

(** On a rendered timestamp [strptime] comes down to the constructor of
    the datetime. *)
Lemma strptime_fields y m d hh mm ss f z :
  fields_in_range y m d hh mm ss = true ->
  fraction_ok f = true -> zone_ok z = true ->
  strptime (VStr (iso_string y m d hh mm ss f z))
  = datetime_new y m d hh mm ss (fraction_micros f) (zone_tzinfo z).
Proof.
  intros Hr Hf Hz.
  pose proof (proj1 (fields_in_range_spec _ _ _ _ _ _) Hr)
    as (_ & _ & _ & Hhh & Hmm & Hss).
  rewrite strptime_str, dot_at_19_rendered.
  assert (Hfmt : (if match f with Some _ => true | None => false end
                  then (base_format ++ ".%f")%string else base_format)
                 = fraction_format f) by (destruct f; reflexivity).
  destruct z as [| |west zh zm].
  - destruct (last_char_naive y m d hh mm ss f Hss Hf) as (c & -> & Hdc).
    cbv zeta. rewrite Hfmt.
    rewrite (digit_not "Z" c) by (reflexivity || assumption).
    rewrite naive_has_no_offset by assumption.
    pose proof (datetime_strptime_fields y m d hh mm ss f Naive Hr Hf Hz) as H.
    cbn [zone_data zone_format zone_gmtoff option_map zone_suffix] in H.
    rewrite !append_empty_r in H.
    unfold iso_string. cbn [zone_suffix]. rewrite append_empty_r. exact H.
  - rewrite last_char_zulu. cbv zeta. rewrite Hfmt.
    change (Ascii.eqb "Z" "Z") with true. cbv iota.
    pose proof (datetime_strptime_fields y m d hh mm ss f Zulu Hr Hf Hz) as H.
    cbn [zone_data zone_format zone_suffix zone_gmtoff option_map] in H.
    unfold iso_string. cbn [zone_suffix]. rewrite H.
    unfold datetime_new. cbn [zone_tzinfo].
    destruct (check_fields _ _ _ _ _ _ _); reflexivity.
  - pose proof Hz as Hz'. cbn [zone_ok] in Hz'.
    rewrite !andb_true_iff, !Z.leb_le in Hz'.
    rewrite last_char_offset. cbv zeta. rewrite Hfmt.
    rewrite (digit_not "Z")
      by (try reflexivity; apply is_digit_digit_char;
          Z.div_mod_to_equations; lia).
    unfold iso_string. rewrite <- append_assoc.
    rewrite str_last_app, str_drop_last_app by reflexivity.
    rewrite offset_suffix_matches, offset_suffix_colon by lia.
    rewrite append_assoc.
    pose proof (datetime_strptime_fields y m d hh mm ss f (Offset west zh zm)
                  Hr Hf Hz) as H.
    cbn [zone_format] in H. rewrite H.
    cbn [zone_gmtoff option_map zone_tzinfo]. do 3 f_equal; lia.
Qed.

Lemma check_fields_micros y m d hh mm ss us :
  check_fields y m d hh mm ss 0 = false ->
  check_fields y m d hh mm ss us = false.
Proof.
  unfold check_fields.
  match goal with
  | |- ?b && (0 <=? 0) && (0 <=? 999999) = false -> _ =>
      destruct b; [discriminate | reflexivity]
  end.
Qed.

(** X18: a timestamp of the right shape that names no moment of the
    calendar (the thirtieth of February, the year 0000) is refused with
    [ValueError]; it is never carried over to a neighbouring date. *)
Theorem strptime_rejects_impossible_dates
  (y m d hh mm ss : Z) (f : option string) (z : zone) :
  fields_in_range y m d hh mm ss = true ->
  fraction_ok f = true ->
  zone_ok z = true ->
  check_fields y m d hh mm ss 0 = false ->
  strptime (VStr (iso_string y m d hh mm ss f z)) = Raise ValueError.
Proof.
  intros Hr Hf Hz Hc.
  rewrite (strptime_fields y m d hh mm ss f z Hr Hf Hz).
  unfold datetime_new.
  now rewrite (check_fields_micros y m d hh mm ss (fraction_micros f) Hc).
Qed.

Lemma strptime_rejects_impossible_dates_witness :
  strptime (VStr (iso_string 2001 2 30 4 5 6 None Zulu)) = Raise ValueError
  /\ strptime (VStr (iso_string 0 2 3 4 5 6 None Naive)) = Raise ValueError.
Proof.
  split.
  - apply (strptime_rejects_impossible_dates 2001 2 30 4 5 6 None Zulu);
      reflexivity.
  - apply (strptime_rejects_impossible_dates 0 2 3 4 5 6 None Naive);
      reflexivity.
Defined.

Lemma six_digits_ok n :
  0 <= n <= 999999 ->
  fraction_ok (Some (six_digits n)) = true
  /\ fraction_micros (Some (six_digits n)) = n.
Proof.
  intros H.
  assert (H1 : 0 <= n / 10000 / 10 <= 9) by (Z.div_mod_to_equations; lia).
  assert (H2 : 0 <= (n / 10000) mod 10 <= 9) by (Z.div_mod_to_equations; lia).
  assert (H3 : 0 <= (n / 100) mod 100 / 10 <= 9)
    by (Z.div_mod_to_equations; lia).
  assert (H4 : 0 <= ((n / 100) mod 100) mod 10 <= 9)
    by (Z.div_mod_to_equations; lia).
  assert (H5 : 0 <= n mod 100 / 10 <= 9) by (Z.div_mod_to_equations; lia).
  assert (H6 : 0 <= (n mod 100) mod 10 <= 9) by (Z.div_mod_to_equations; lia).
  unfold six_digits, two_digits. cbn [append fraction_ok fraction_micros
    all_digits String.length Nat.sub pad_zeros Nat.leb andb].
  rewrite !is_digit_digit_char by assumption.
  split; [reflexivity|]. unfold int.
  rewrite !int_acc_digit by now apply is_digit_digit_char.
  rewrite !digit_val_digit_char by assumption.
  cbn [int_acc]. Z.div_mod_to_equations. lia.
Qed.

(** X19: the string that [__main__] builds for the current time, the ISO
    form of [datetime.utcnow()] followed by [Z], is always read back by
    [strptime], as the same wall clock in UTC. *)
Theorem main_now_parses (utcnow : datetime) :
  valid_datetime utcnow ->
  tzinfo utcnow = None ->
  strptime (main_now utcnow) = OK (replace_tzinfo utcnow (Some UTC)).
Proof.
  destruct utcnow as [y m d hh mm ss us tz].
  unfold valid_datetime, main_now, isoformat, replace_tzinfo.
  cbn [year month day hour minute second microsecond tzinfo].
  intros Hv ->.
  pose proof (proj1 (check_fields_spec _ _ _ _ _ _ _) Hv) as Hv'.
  assert (Hc : check_fields y m d hh mm ss 0 = true)
    by (apply check_fields_spec; intuition lia).
  destruct (Z.eqb_spec us 0) as [->|Hus].
  - rewrite append_empty_r.
    apply (strptime_rendered y m d hh mm ss None Zulu Hc eq_refl eq_refl).
  - destruct (six_digits_ok us ltac:(lia)) as [Hok Hval].
    rewrite append_assoc.
    pose proof (strptime_rendered y m d hh mm ss (Some (six_digits us)) Zulu
                  Hc Hok eq_refl) as H.
    rewrite Hval in H. exact H.
Qed.

Lemma main_now_parses_witness :
  strptime (main_now (mkDatetime 2019 2 21 13 30 0 250000 None))
  = OK (mkDatetime 2019 2 21 13 30 0 250000 (Some UTC)).
Proof.
  apply (main_now_parses (mkDatetime 2019 2 21 13 30 0 250000 None));
    reflexivity.
Defined.

(** ** [is_within_next_event]: further behaviour *)

(** The test on an event whose timestamps parse. *)
Lemma is_within_next_event_run now ev s e sd ed mb :
  (0 <= mb)%Q ->
  dict_lookup ev "start" = Some s -> dict_lookup ev "end" = Some e ->
  strptime s = OK sd -> strptime e = OK ed ->
  is_within_next_event (VDatetime now) (VDict ev) mb
  = (diff <- datetime_sub sd now ;;
     near <- (if Qle_bool (total_seconds diff) (mb * 60)%Q
              then OK true else datetime_le sd now) ;;
     inside <- (if near then datetime_le now ed else OK false) ;;
     OK inside).
Proof.
  intros Hmb Hs He Hsd Hed. unfold is_within_next_event.
  apply Qle_bool_iff in Hmb. rewrite Hmb. cbn [negb].
  assert (Ht : truthy (VDict ev) = true)
    by (destruct ev; [discriminate | reflexivity]).
  rewrite Ht. cbn [py_getitem]. unfold dict_getitem.
  rewrite Hs, He. cbn [bind]. rewrite Hsd, Hed. cbn [bind].
  cbn [py_datetime_sub py_datetime_le py_le_datetime].
  destruct (datetime_sub sd now) as [diff|]; cbn [bind]; [|reflexivity].
  destruct (if Qle_bool (total_seconds diff) (mb * 60)%Q
            then OK true else datetime_le sd now) as [near|];
    cbn [bind]; [|reflexivity].
  destruct (if near then datetime_le now ed else OK false) as [[]|];
    reflexivity.
Qed.

Lemma before_start_is_near now sd mb :
  (0 <= mb)%Q ->
  utc_instant sd <= utc_instant now ->
  Qle_bool (seconds_until now sd) (mb * 60)%Q = true.
Proof.
  intros Hmb Hle. apply Qle_bool_iff.
  apply Qle_trans with (y := 0%Q).
  - unfold seconds_until, Qle. cbn. lia.
  - apply Qmult_le_0_compat; [exact Hmb | discriminate].
Qed.

(** X20: a longer notice never closes the window: if the test answers
    [True] with [minutes_before], it does so with any larger value. *)
Theorem is_within_next_event_monotone (now next_event : value) (mb mb' : Q) :
  (mb <= mb')%Q ->
  is_within_next_event now next_event mb = OK true ->
  is_within_next_event now next_event mb' = OK true.
Proof.
  intros Hle. unfold is_within_next_event.
  destruct (Qle_bool 0 mb) eqn:H0; cbn [negb]; [|discriminate].
  apply Qle_bool_iff in H0.
  assert (H0' : Qle_bool 0 mb' = true)
    by (apply Qle_bool_iff; eapply Qle_trans; eauto).
  rewrite H0'. cbn [negb].
  destruct (truthy next_event); [|discriminate].
  destruct (py_getitem next_event "start") as [s|]; cbn [bind]; [|discriminate].
  destruct (strptime s) as [sd|]; cbn [bind]; [|discriminate].
  destruct (py_getitem next_event "end") as [e|]; cbn [bind]; [|discriminate].
  destruct (strptime e) as [ed|]; cbn [bind]; [|discriminate].
  destruct (py_datetime_sub sd now) as [diff|]; cbn [bind]; [|discriminate].
  destruct (Qle_bool (total_seconds diff) (mb * 60)%Q) eqn:Hn.
  - assert (Hn' : Qle_bool (total_seconds diff) (mb' * 60)%Q = true).
    { apply Qle_bool_iff. apply Qle_bool_iff in Hn.
      eapply Qle_trans; [exact Hn|].
      apply Qmult_le_compat_r; [exact Hle | discriminate]. }
    now rewrite Hn'.
  - destruct (py_datetime_le sd now) as [[]|]; cbn [bind]; try discriminate.
    destruct (Qle_bool (total_seconds diff) (mb' * 60)%Q); cbn [bind]; auto.
Qed.

Lemma is_within_next_event_monotone_witness :
  is_within_next_event (VDatetime sample_now) (VDict sample_window_event)
                       (999 # 1) = OK true.
Proof.
  apply (is_within_next_event_monotone (VDatetime sample_now)
           (VDict sample_window_event) (15 # 1) (999 # 1));
    [discriminate | reflexivity].
Defined.

Lemma is_within_next_event_aware
  (now start_dt end_dt : datetime) (next_event : dict) (s e : value) (mb : Q) :
  valid_datetime now -> aware now ->
  dict_lookup next_event "start" = Some s ->
  dict_lookup next_event "end" = Some e ->
  strptime s = OK start_dt -> aware start_dt ->
  strptime e = OK end_dt -> aware end_dt ->
  (0 <= mb)%Q ->
  is_within_next_event (VDatetime now) (VDict next_event) mb
  = OK (Qle_bool (seconds_until now start_dt) (mb * 60)%Q
        && (utc_instant now <=? utc_instant end_dt)).
Proof.
  intros Vnow Anow Hs He Hstart Astart Hend Aend Hmb.
  pose proof (strptime_valid _ _ Hstart) as Vstart.
  pose proof (strptime_valid _ _ Hend) as Vend.
  rewrite (is_within_next_event_run _ _ _ _ _ _ _ Hmb Hs He Hstart Hend).
  rewrite (datetime_sub_aware _ _ Astart Anow). cbn [bind].
  rewrite (datetime_le_aware _ _ Vstart Vnow Astart Anow).
  rewrite (datetime_le_aware _ _ Vnow Vend Anow Aend).
  change (total_seconds (utc_instant start_dt - utc_instant now))
    with (seconds_until now start_dt).
  destruct (Qle_bool (seconds_until now start_dt) (mb * 60)%Q) eqn:Hn;
    cbn [bind andb]; [reflexivity|].
  destruct (Z.leb_spec (utc_instant start_dt) (utc_instant now)) as [Hle|Hgt];
    [|reflexivity].
  rewrite (before_start_is_near now start_dt mb Hmb Hle) in Hn. discriminate.
Qed.



Lemma datetime_sub_naive a b :
  tzinfo a = None -> tzinfo b = None ->
  datetime_sub a b = OK (utc_instant a - utc_instant b).
Proof.
  unfold datetime_sub, utc_instant, wall_micros. intros -> ->.
  cbn [option_Z_eqb]. f_equal. lia.
Qed.

Lemma datetime_le_naive a b :
  valid_datetime a -> valid_datetime b ->
  tzinfo a = None -> tzinfo b = None ->
  datetime_le a b = OK (utc_instant a <=? utc_instant b).
Proof.
  intros Va Vb Ha Hb. unfold datetime_le, datetime_cmp, utc_instant.
  rewrite Ha, Hb. cbn [option_Z_eqb bind].
  rewrite (tuple_cmp_wall a b Va Vb). f_equal.
  destruct (Z.compare_spec (wall_micros a) (wall_micros b));
    symmetry; [apply Z.leb_le | apply Z.leb_le | apply Z.leb_gt]; lia.
Qed.



(** X23: a naive [now] against an aware start, or an aware [now] against
    a naive start, makes the test fail with [TypeError], whatever the
    times are. *)
Theorem is_within_next_event_mixed_zones
  (now start_dt end_dt : datetime) (next_event : dict) (s e : value) (mb : Q) :
  dict_lookup next_event "start" = Some s ->
  dict_lookup next_event "end" = Some e ->
  strptime s = OK start_dt -> strptime e = OK end_dt ->
  (0 <= mb)%Q ->
  (tzinfo now = None <-> tzinfo start_dt <> None) ->
  is_within_next_event (VDatetime now) (VDict next_event) mb = Raise TypeError.
Proof.
  intros Hs He Hstart Hend Hmb Hmix.
  rewrite (is_within_next_event_run _ _ _ _ _ _ _ Hmb Hs He Hstart Hend).
  unfold datetime_sub.
  destruct (tzinfo now) as [otoff|], (tzinfo start_dt) as [myoff|];
    cbn [option_Z_eqb bind]; try reflexivity.
  - exfalso. destruct Hmix as [_ Hmix]. discriminate Hmix. discriminate.
  - exfalso. destruct Hmix as [Hmix _]. now apply Hmix.
Qed.

Lemma is_within_next_event_mixed_zones_witness :
  is_within_next_event (VDatetime sample_naive_now)
                       (VDict sample_window_event) (15 # 1)
  = Raise TypeError.
Proof.
  apply (is_within_next_event_mixed_zones sample_naive_now
           sample_window_start sample_window_end sample_window_event
           (VStr "2001-02-03T12:00:00-02:00")
           (VStr "2001-02-03T12:30:00-02:00") (15 # 1));
    try reflexivity; try discriminate.
  split; [discriminate | reflexivity].
Defined.



(** X25: a non-empty event without [start] makes the test fail with
    [KeyError]; so does one without [end], once its start has been
    parsed. *)
Theorem is_within_next_event_missing_key
  (now : value) (next_event : dict) (mb : Q) :
  (0 <= mb)%Q ->
  next_event <> [] ->
  (dict_lookup next_event "start" = None \/
   (dict_lookup next_event "end" = None /\
    exists s start_dt,
      dict_lookup next_event "start" = Some s /\ strptime s = OK start_dt)) ->
  is_within_next_event now (VDict next_event) mb = Raise KeyError.
Proof.
  intros Hmb Hne Hmiss. unfold is_within_next_event.
  apply Qle_bool_iff in Hmb. rewrite Hmb. cbn [negb].
  assert (Ht : truthy (VDict next_event) = true)
    by (destruct next_event; [congruence | reflexivity]).
  rewrite Ht. cbn [py_getitem]. unfold dict_getitem.
  destruct Hmiss as [Hs|(He & s & sd & Hs & Hsd)].
  - now rewrite Hs.
  - rewrite Hs, He. cbn [bind]. now rewrite Hsd.
Qed.

Lemma is_within_next_event_missing_key_witness :
  is_within_next_event VNone (VDict [("summary", VStr "busy")]) 0
  = Raise KeyError
  /\ is_within_next_event VNone
       (VDict [("start", VStr "2001-02-03T12:00:00Z")]) 0
     = Raise KeyError.
Proof.
  split.
  - apply (is_within_next_event_missing_key VNone [("summary", VStr "busy")] 0);
      [discriminate | discriminate | now left].
  - apply (is_within_next_event_missing_key VNone
             [("start", VStr "2001-02-03T12:00:00Z")] 0);
      [discriminate | discriminate |].
    right. split; [reflexivity|].
    exists (VStr "2001-02-03T12:00:00Z"),
           (mkDatetime 2001 2 3 12 0 0 0 (Some UTC)).
    split; reflexivity.
Defined.

(** ** [get_next_events] *)

Lemma log_next_event_loggable event :
  is_loggable event = true -> log_next_event event = OK tt.
Proof.
  unfold is_loggable, log_next_event.
  destruct event; try discriminate. cbn [py_getitem]. unfold dict_getitem.
  destruct (dict_lookup d "start") as [[]|]; try discriminate.
  destruct (dict_lookup d "summary"); [reflexivity | discriminate].
Qed.

Lemma log_next_event_not_loggable event :
  is_loggable event = false -> raises (log_next_event event).
Proof.
  unfold is_loggable, log_next_event.
  destruct event; try (intros _; eexists; reflexivity).
  cbn [py_getitem]. unfold dict_getitem.
  destruct (dict_lookup d "start") as [[]|];
    try (intros _; eexists; reflexivity).
  destruct (dict_lookup d "summary");
    [discriminate | intros _; eexists; reflexivity].
Qed.

Lemma log_next_events_loggable l :
  forallb is_loggable l = true -> log_next_events l = OK tt.
Proof.
  induction l as [|event l IH]; [reflexivity|].
  cbn [forallb log_next_events]. intros H. apply andb_prop in H as [He Hl].
  now rewrite (log_next_event_loggable _ He), (IH Hl).
Qed.

Lemma log_next_events_not_loggable l :
  forallb is_loggable l = false -> raises (log_next_events l).
Proof.
  induction l as [|event l IH]; [discriminate|].
  cbn [forallb log_next_events]. intros H.
  destruct (is_loggable event) eqn:He.
  - rewrite (log_next_event_loggable _ He). cbn [bind]. now apply IH.
  - destruct (log_next_event_not_loggable _ He) as [e ->].
    eexists. reflexivity.
Qed.

Lemma py_index_head a l : py_index (VList (a :: l)) 0 = OK a.
Proof.
  unfold py_index. change (0 <? 0) with false. cbv iota.
  replace (Z.of_nat (List.length (a :: l)) <=? 0) with false
    by (symmetry; apply Z.leb_gt; cbn [List.length]; lia).
  reflexivity.
Qed.

Lemma get_next_events_on_items
  (min_time : value) (n : Z) (r : dict) (l : list value) :
  dict_get r "items" (VList []) = VList l ->
  (forallb is_loggable l = true ->
   get_next_events min_time n (VDict r) = OK (VList l))
  /\ (forallb is_loggable l = false ->
      raises (get_next_events min_time n (VDict r))).
Proof.
  intros Hitems. unfold get_next_events. cbn [py_get bind].
  rewrite Hitems. cbn [py_iter bind]. split; intros Hl.
  - rewrite (log_next_events_loggable _ Hl). cbn [bind].
    destruct l as [|a l]; [reflexivity|].
    cbn [truthy]. rewrite py_index_head. cbn [bind].
    cbn [forallb] in Hl. apply andb_prop in Hl as [Ha _].
    destruct a; try discriminate. reflexivity.
  - destruct (log_next_events_not_loggable _ Hl) as [e ->].
    eexists. reflexivity.
Qed.

(** X26: [get_next_events] hands the events of the reply over unchanged
    (an empty list when the reply has no [items]) when every event is a
    dictionary with a nested [start] and a [summary]; any other event
    makes it raise while it builds its log line. *)
Theorem get_next_events_returns_items
  (min_time : value) (n : Z) (r : dict) (l : list value) :
  dict_get r "items" (VList []) = VList l ->
  (forallb is_loggable l = true ->
   get_next_events min_time n (VDict r) = OK (VList l))
  /\ (forallb is_loggable l = false ->
      raises (get_next_events min_time n (VDict r))).
Proof. exact (get_next_events_on_items min_time n r l). Qed.

Lemma get_next_events_returns_items_witness :
  (forallb is_loggable [VDict sample_meeting] = true ->
   get_next_events (VStr "2019-02-21T13:28:00Z") 1
     (calendar_reply [sample_meeting])
   = OK (VList [VDict sample_meeting]))
  /\ (forallb is_loggable [VDict sample_meeting] = false ->
      raises (get_next_events (VStr "2019-02-21T13:28:00Z") 1
                (calendar_reply [sample_meeting]))).
Proof.
  apply (get_next_events_returns_items (VStr "2019-02-21T13:28:00Z") 1
           [("kind", VStr "calendar#events");
            ("items", VList (map VDict [sample_meeting]))]
           [VDict sample_meeting]).
  reflexivity.
Defined.

(** X27: an event without a title stops [get_next_events] with
    [KeyError], although [clean_events] would read its missing [summary]
    as the empty string: the log line asks for [event["summary"]]. *)
Theorem get_next_events_untitled
  (min_time : value) (n : Z) (r : dict) (pre post : list value)
  (ee sd : dict) :
  dict_get r "items" (VList []) = VList (pre ++ VDict ee :: post) ->
  forallb is_loggable pre = true ->
  dict_lookup ee "start" = Some (VDict sd) ->
  dict_lookup ee "summary" = None ->
  get_next_events min_time n (VDict r) = Raise KeyError.
Proof.
  intros Hitems Hpre Hst Hsm. unfold get_next_events. cbn [py_get bind].
  rewrite Hitems. cbn [py_iter bind].
  assert (Hlog : log_next_events (pre ++ VDict ee :: post) = Raise KeyError).
  { clear Hitems. induction pre as [|a pre IH].
    - cbn [app log_next_events]. unfold log_next_event.
      cbn [py_getitem]. unfold dict_getitem. now rewrite Hst, Hsm.
    - cbn [forallb] in Hpre. apply andb_prop in Hpre as [Ha Hpre].
      cbn [app log_next_events].
      now rewrite (log_next_event_loggable _ Ha), (IH Hpre). }
  now rewrite Hlog.
Qed.

Lemma get_next_events_untitled_witness :
  get_next_events (VStr "2019-02-21T13:28:00Z") 1
    (calendar_reply [sample_meeting; dict_remove sample_meeting "summary"])
  = Raise KeyError.
Proof.
  apply (get_next_events_untitled (VStr "2019-02-21T13:28:00Z") 1
           [("kind", VStr "calendar#events");
            ("items", VList (map VDict [sample_meeting;
                                        dict_remove sample_meeting "summary"]))]
           [VDict sample_meeting] []
           (dict_remove sample_meeting "summary")
           [("dateTime", VStr "2019-02-21T10:30:00-03:00")]);
    reflexivity.
Defined.

(** ** [set_status_if_within_range] *)

Lemma clean_events_items_dicts l : forall acc,
  clean_events_items (map VDict l) acc = clean_events_loop default_keys l acc.
Proof.
  induction l as [|ee l IH]; intros acc; [reflexivity|].
  cbn [map clean_events_items clean_events_loop].
  destruct (clean_event default_keys ee) as [[c|]|]; cbn [bind]; auto.
Qed.

Lemma py_clean_events_dicts l :
  py_clean_events (VList (map VDict l)) = clean_events l.
Proof. apply clean_events_items_dicts. Qed.

Lemma loggable_dicts (events : list dict) :
  Forall (fun ee => is_loggable (VDict ee) = true) events ->
  forallb is_loggable (map VDict events) = true.
Proof.
  induction 1 as [|ee l Hee _ IH]; [reflexivity|].
  cbn [map forallb]. now rewrite Hee, IH.
Qed.

Section Run.

Variable mktime : datetime -> Z.

(** The run on a reply whose events are all logged. *)
Lemma run_on_reply now r events environ :
  dict_get r "items" (VList []) = VList (map VDict events) ->
  Forall (fun ee => is_loggable (VDict ee) = true) events ->
  set_status_if_within_range mktime now (VDict r) environ
  = (next_events <- clean_events events ;;
     let next_event :=
       match next_events with
       | [] => VDict []
       | first :: _ => VDict first
       end in
     now_dt <- strptime now ;;
     within <- is_within_next_event (VDatetime now_dt) next_event
                                    MINUTES_BEFORE ;;
     if within then
       e <- py_getitem next_event "end" ;;
       end_dt <- strptime e ;;
       ts <- timestamp mktime end_dt ;;
       let expiration := if int_of_Q ts =? 0 then 0 else int_of_Q ts in
       s <- py_getitem next_event "summary" ;;
       let subject := if truthy s then s else VStr DEFAULT_STATUS in
       _ <- dict_getitem environ "SLACK_TOKEN" ;;
       OK (Some (mkStatusCall subject expiration))
     else OK None).
Proof.
  intros Hitems Hlog. unfold set_status_if_within_range.
  rewrite (proj1 (get_next_events_on_items now 1 r _ Hitems)
             (loggable_dicts _ Hlog)).
  cbn [bind]. now rewrite py_clean_events_dicts.
Qed.

(** X28: when the calendar returns no event, or none that survives
    [clean_events], the status is left alone, whatever the time and the
    environment are, provided [now] is a timestamp. *)
Theorem no_event_no_status (now : value) (now_dt : datetime) (r : dict)
  (events : list dict) (environ : dict) :
  dict_get r "items" (VList []) = VList (map VDict events) ->
  Forall (fun ee => is_loggable (VDict ee) = true) events ->
  clean_events events = OK [] ->
  strptime now = OK now_dt ->
  set_status_if_within_range mktime now (VDict r) environ = OK None.
Proof.
  intros Hitems Hlog Hclean Hnow.
  rewrite (run_on_reply now r events environ Hitems Hlog).
  rewrite Hclean. cbn [bind]. rewrite Hnow. reflexivity.
Qed.


(** X30: a status that is requested never has an empty subject, and is
    never requested without a [SLACK_TOKEN] in the environment. *)
Theorem status_request_is_complete
  (now events_result : value) (environ : dict) (call : status_call) :
  set_status_if_within_range mktime now events_result environ
  = OK (Some call) ->
  truthy (status_subject call) = true
  /\ dict_lookup environ "SLACK_TOKEN" <> None.
Proof.
  unfold set_status_if_within_range. intros H.
  apply bind_OK in H as (fetched & _ & H).
  apply bind_OK in H as (next_events & _ & H).
  apply bind_OK in H as (now_dt & _ & H).
  apply bind_OK in H as (within & _ & H).
  destruct within; [|discriminate].
  apply bind_OK in H as (e & _ & H).
  apply bind_OK in H as (end_dt & _ & H).
  apply bind_OK in H as (ts & _ & H).
  apply bind_OK in H as (s & _ & H).
  apply bind_OK in H as (tok & Htok & H).
  injection H as <-. cbn [status_subject]. split.
  - destruct (truthy s) eqn:Hs; [exact Hs | reflexivity].
  - unfold dict_getitem in Htok.
    destruct (dict_lookup environ "SLACK_TOKEN"); [discriminate|].
    discriminate.
Qed.

End Run.

Lemma no_event_no_status_witness :
  set_status_if_within_range (fun _ => 0) (VStr "2019-02-21T13:28:00Z")
    (calendar_reply [dict_set sample_meeting "status" (VStr "cancelled")])
    sample_environ
  = OK None.
Proof.
  apply (no_event_no_status (fun _ => 0) (VStr "2019-02-21T13:28:00Z")
           (mkDatetime 2019 2 21 13 28 0 0 (Some UTC))
           [("kind", VStr "calendar#events");
            ("items",
             VList (map VDict [dict_set sample_meeting "status"
                                        (VStr "cancelled")]))]
           [dict_set sample_meeting "status" (VStr "cancelled")]
           sample_environ);
    try reflexivity.
  repeat constructor.
Defined.


Lemma status_request_is_complete_witness :
  truthy (VStr "Team Sync") = true
  /\ dict_lookup sample_environ "SLACK_TOKEN" <> None.
Proof.
  apply (status_request_is_complete (fun _ => 0)
           (VStr "2019-02-21T13:28:00Z") (calendar_reply [sample_meeting])
           sample_environ (mkStatusCall (VStr "Team Sync") 1550757600)).
  reflexivity.
Defined.
